(** * DICe camera system

    A shallow embedding of [src/core/DICe_CameraSystem.cpp]: the calibration
    file reader [Camera_System::read_calibration_file], the writer
    [Camera_System::write_calibration_file], the cross-camera projection
    [Camera_System::camera_to_camera_projection] and the rigid-body
    transform [Camera_System::rot_trans_3D] with its coefficient set-up
    [Camera_System::initialize_rot_trans_3D].

    Conventions of the embedding:
    - [scalar_t] is read as a real number ([R]); an [int_t] is a [Z] within
      the range of a 32-bit [int], and the conversions that produce one
      ([atoi], a [double] stored in an [int_t]) are written out with that
      range; [size_t] and loop indices are [nat];
    - a [std::vector] is a [list]; [v[i] = x] is stdpp's [<[i:=x]> v];
    - a member function is a computation in the state-and-exception monad
      [M Camera_System]: it receives the object, and returns the object as
      it is when the call ends together with either a value or the message
      of the [std::runtime_error] that was thrown;
    - [TEUCHOS_TEST_FOR_EXCEPTION(c, std::runtime_error, msg)] throws when
      [c] holds; an [assert] that can fail where it stands is [assert_],
      which ends the call unless the build defines [NDEBUG]. *)

From Stdlib Require Import Reals Lra ZArith Lia String Ascii List Bool.
From Stdlib Require Import DecimalString.
From stdpp Require Import base list strings.
Import ListNotations.

(** ** Exceptions and object state *)

Inductive result (A : Type) : Type :=
| Ok (a : A)
| Error (msg : string).
Arguments Ok {A} a.
Arguments Error {A} msg.

Definition is_ok {A} (r : result A) : bool :=
  match r with Ok _ => true | Error _ => false end.

Definition M (S A : Type) : Type := S -> result A * S.

Definition ret {S A} (a : A) : M S A := fun s => (Ok a, s).

Definition bind {S A B} (c : M S A) (k : A -> M S B) : M S B :=
  fun s =>
    match c s with
    | (Ok a, s') => k a s'
    | (Error e, s') => (Error e, s')
    end.

Definition throw {S A} (msg : string) : M S A := fun s => (Error msg, s).

Definition get_state {S} : M S S := fun s => (Ok s, s).

Definition modify {S} (f : S -> S) : M S unit := fun s => (Ok tt, f s).

Definition lift {S A} (r : result A) : M S A := fun s => (r, s).

Declare Scope exn_scope.
Delimit Scope exn_scope with exn.
Notation "x <- c ;; k" := (bind c (fun x => k))
  (at level 90, c at level 80, right associativity) : exn_scope.
Notation "c ;;; k" := (bind c (fun _ => k))
  (at level 90, right associativity) : exn_scope.

(** [TEUCHOS_TEST_FOR_EXCEPTION(throw_exception_test, std::runtime_error, msg)] *)
Definition TEUCHOS_TEST_FOR_EXCEPTION {S} (throw_exception_test : bool)
  (msg : string) : M S unit :=
  if throw_exception_test then throw msg else ret tt.

(** The same test where no object is involved. *)
Definition test_for_exception (throw_exception_test : bool) (msg : string)
  : result unit :=
  if throw_exception_test then Error msg else Ok tt.

Definition rbind {A B} (r : result A) (k : A -> result B) : result B :=
  match r with Ok a => k a | Error e => Error e end.

(** ** Vectors and matrices of [scalar_t] *)

Abbreviation vec := (list R) (only parsing).
Abbreviation rows := (list (list R)) (only parsing).

(** [v[i]] *)
Definition at_ (v : vec) (i : nat) : R := nth i v 0%R.

(** [m[j]], a row of a [std::vector<std::vector<scalar_t>>] *)
Definition row_ (m : rows) (j : nat) : vec := nth j m [].

(** [m[j][i] = x] *)
Definition set_row_elem (m : rows) (j i : nat) (x : R) : rows :=
  <[j := <[i := x]> (row_ m j)]> m.

(** [v.assign(n, x)] and [std::vector<scalar_t>(n, x)] *)
Definition assign (n : nat) (x : R) : vec := replicate n x.

(** [std::fill(v.begin(), v.end(), x)] *)
Definition fill (v : vec) (x : R) : vec := replicate (length v) x.

(** [std::vector<std::vector<scalar_t>>(n, std::vector<scalar_t>(m, x))] *)
Definition assign_rows (n m : nat) (x : R) : rows := replicate n (assign m x).

(** [Matrix<scalar_t,N>], row major; [m(i,j)] and [m(i,j) = x]. *)
Abbreviation Matrix := (list (list R)) (only parsing).

Definition mat_at (m : Matrix) (i j : nat) : R := nth j (nth i m []) 0%R.

Definition mat_set (m : Matrix) (i j : nat) (x : R) : Matrix :=
  <[i := <[j := x]> (nth i m [])]> m.

Definition zero_matrix (n : nat) : Matrix := replicate n (replicate n 0%R).

Definition identity_matrix_3 : Matrix :=
  [[1; 0; 0]; [0; 1; 0]; [0; 0; 1]]%R.

(** ** Enumerations declared in the headers *)

(** Modelled from the spec: the header that declares [System_Type_3D] is
    not among the sources. The spec lists UNKNOWN, the canonical-format
    subtypes, VIC3D and GENERIC_TEXT; the reader writes [UNKNOWN_SYSTEM],
    [VIC3D] and [GENERIC_SYSTEM] by name, the other subtypes are kept by
    their number. *)
Inductive System_Type_3D : Type :=
| UNKNOWN_SYSTEM
| GENERIC_SYSTEM
| VIC3D
| CANONICAL_SUBTYPE (n : nat).

(** Modelled from the spec: the header that declares
    [Camera::Lens_Distortion_Model] is not among the sources; these are the
    six models of the spec's data model. *)
Inductive Lens_Distortion_Model : Type :=
| NO_LENS_DISTORTION
| OPENCV_LENS_DISTORTION
| VIC3D_LENS_DISTORTION
| K1R1_K2R2_K3R3
| K1R2_K2R4_K3R6
| K1R3_K2R5_K3R7.

(** Modelled from the spec: the header that declares
    [Camera::Cam_Intrinsic_Param] is not among the sources; the order is the
    one of the spec's data model and of the comments the writer emits. *)
Definition Cam_Intrinsic_Param_names : list string :=
  ["CX"; "CY"; "FX"; "FY"; "FS"; "K1"; "K2"; "K3"; "K4"; "K5"; "K6";
   "P1"; "P2"; "S1"; "S2"; "S3"; "S4"; "T1"; "T2"]%string.

Definition MAX_CAM_INTRINSIC_PARAM : nat := length Cam_Intrinsic_Param_names.

Definition CX : nat := 0.
Definition CY : nat := 1.
Definition FX : nat := 2.
Definition FY : nat := 3.
Definition FS : nat := 4.
Definition K1 : nat := 5.
Definition K2 : nat := 6.
Definition K3 : nat := 7.

(** [Camera::to_string(static_cast<Camera::Cam_Intrinsic_Param>(i))] *)
Definition Cam_Intrinsic_Param_to_string (i : nat) : string :=
  nth i Cam_Intrinsic_Param_names EmptyString.

(** Modelled from the spec: the header that declares the indices of the
    rigid-body parameter vector is not among the sources; the spec's
    RigidBodyParams are [angle_x, angle_y, angle_z, translation_x,
    translation_y, translation_z]. *)
Definition ANGLE_X : nat := 0.
Definition ANGLE_Y : nat := 1.
Definition ANGLE_Z : nat := 2.
Definition TRANSLATION_X : nat := 3.
Definition TRANSLATION_Y : nat := 4.
Definition TRANSLATION_Z : nat := 5.

(** ** [Camera::Camera_Info] *)

Record Camera_Info : Type := mkCamera_Info {
  id_ : string;
  image_height_ : Z;
  image_width_ : Z;
  pixel_depth_ : Z;
  lens_ : string;
  comments_ : string;
  lens_distortion_model_ : Lens_Distortion_Model;
  intrinsics_ : vec;
  tx_ : R;
  ty_ : R;
  tz_ : R;
  rotation_matrix_ : Matrix
}.

(** Modelled from the spec: the default-constructed [Camera_Info] (its
    constructor is in a header that is not among the sources): strings
    empty, numbers 0, all intrinsics 0, the rotation the identity. *)
Definition Camera_Info_default : Camera_Info :=
  {| id_ := EmptyString; image_height_ := 0; image_width_ := 0;
     pixel_depth_ := 0; lens_ := EmptyString; comments_ := EmptyString;
     lens_distortion_model_ := NO_LENS_DISTORTION;
     intrinsics_ := assign MAX_CAM_INTRINSIC_PARAM 0%R;
     tx_ := 0%R; ty_ := 0%R; tz_ := 0%R;
     rotation_matrix_ := identity_matrix_3 |}.

Definition set_id_ (x : string) (c : Camera_Info) : Camera_Info :=
  mkCamera_Info x (image_height_ c) (image_width_ c) (pixel_depth_ c)
    (lens_ c) (comments_ c) (lens_distortion_model_ c) (intrinsics_ c)
    (tx_ c) (ty_ c) (tz_ c) (rotation_matrix_ c).

Definition set_image_height_ (x : Z) (c : Camera_Info) : Camera_Info :=
  mkCamera_Info (id_ c) x (image_width_ c) (pixel_depth_ c)
    (lens_ c) (comments_ c) (lens_distortion_model_ c) (intrinsics_ c)
    (tx_ c) (ty_ c) (tz_ c) (rotation_matrix_ c).

Definition set_image_width_ (x : Z) (c : Camera_Info) : Camera_Info :=
  mkCamera_Info (id_ c) (image_height_ c) x (pixel_depth_ c)
    (lens_ c) (comments_ c) (lens_distortion_model_ c) (intrinsics_ c)
    (tx_ c) (ty_ c) (tz_ c) (rotation_matrix_ c).

Definition set_pixel_depth_ (x : Z) (c : Camera_Info) : Camera_Info :=
  mkCamera_Info (id_ c) (image_height_ c) (image_width_ c) x
    (lens_ c) (comments_ c) (lens_distortion_model_ c) (intrinsics_ c)
    (tx_ c) (ty_ c) (tz_ c) (rotation_matrix_ c).

Definition set_lens_ (x : string) (c : Camera_Info) : Camera_Info :=
  mkCamera_Info (id_ c) (image_height_ c) (image_width_ c) (pixel_depth_ c)
    x (comments_ c) (lens_distortion_model_ c) (intrinsics_ c)
    (tx_ c) (ty_ c) (tz_ c) (rotation_matrix_ c).

Definition set_comments_ (x : string) (c : Camera_Info) : Camera_Info :=
  mkCamera_Info (id_ c) (image_height_ c) (image_width_ c) (pixel_depth_ c)
    (lens_ c) x (lens_distortion_model_ c) (intrinsics_ c)
    (tx_ c) (ty_ c) (tz_ c) (rotation_matrix_ c).

Definition set_lens_distortion_model_ (x : Lens_Distortion_Model)
  (c : Camera_Info) : Camera_Info :=
  mkCamera_Info (id_ c) (image_height_ c) (image_width_ c) (pixel_depth_ c)
    (lens_ c) (comments_ c) x (intrinsics_ c)
    (tx_ c) (ty_ c) (tz_ c) (rotation_matrix_ c).

Definition set_intrinsics_ (x : vec) (c : Camera_Info) : Camera_Info :=
  mkCamera_Info (id_ c) (image_height_ c) (image_width_ c) (pixel_depth_ c)
    (lens_ c) (comments_ c) (lens_distortion_model_ c) x
    (tx_ c) (ty_ c) (tz_ c) (rotation_matrix_ c).

Definition set_tx_ (x : R) (c : Camera_Info) : Camera_Info :=
  mkCamera_Info (id_ c) (image_height_ c) (image_width_ c) (pixel_depth_ c)
    (lens_ c) (comments_ c) (lens_distortion_model_ c) (intrinsics_ c)
    x (ty_ c) (tz_ c) (rotation_matrix_ c).

Definition set_ty_ (x : R) (c : Camera_Info) : Camera_Info :=
  mkCamera_Info (id_ c) (image_height_ c) (image_width_ c) (pixel_depth_ c)
    (lens_ c) (comments_ c) (lens_distortion_model_ c) (intrinsics_ c)
    (tx_ c) x (tz_ c) (rotation_matrix_ c).

Definition set_tz_ (x : R) (c : Camera_Info) : Camera_Info :=
  mkCamera_Info (id_ c) (image_height_ c) (image_width_ c) (pixel_depth_ c)
    (lens_ c) (comments_ c) (lens_distortion_model_ c) (intrinsics_ c)
    (tx_ c) (ty_ c) x (rotation_matrix_ c).

Definition set_rotation_matrix_ (x : Matrix) (c : Camera_Info) : Camera_Info :=
  mkCamera_Info (id_ c) (image_height_ c) (image_width_ c) (pixel_depth_ c)
    (lens_ c) (comments_ c) (lens_distortion_model_ c) (intrinsics_ c)
    (tx_ c) (ty_ c) (tz_ c) x.

(** [camera_info.intrinsics_[i] = x] *)
Definition set_intrinsic (i : nat) (x : R) (c : Camera_Info) : Camera_Info :=
  set_intrinsics_ (<[i := x]> (intrinsics_ c)) c.

(** [camera_info.rotation_matrix_(i,j) = x] *)
Definition set_rotation_entry (i j : nat) (x : R) (c : Camera_Info)
  : Camera_Info :=
  set_rotation_matrix_ (mat_set (rotation_matrix_ c) i j x) c.

(** ** [Camera_System] *)

(** The data members. [cameras_] holds the cameras that were constructed
    from a [Camera_Info]; a camera is represented by the [Camera_Info] it
    was constructed from. The six [rot_trans_3D_*] members are the
    rotation coefficients that [initialize_rot_trans_3D] writes and
    [rot_trans_3D] reads. *)
Record Camera_System : Type := mkCamera_System {
  cameras_ : list Camera_Info;
  max_num_cameras_allowed_ : nat;
  user_6x1_trans_ : vec;
  user_4x4_trans_ : Matrix;
  sys_type_ : System_Type_3D;
  has_6_transform_ : bool;
  has_4x4_transform_ : bool;
  rot_trans_3D_x_ : vec;
  rot_trans_3D_y_ : vec;
  rot_trans_3D_z_ : vec;
  rot_trans_3D_dx_ : rows;
  rot_trans_3D_dy_ : rows;
  rot_trans_3D_dz_ : rows
}.

(** [Camera_System::Camera_System()]. The coefficient vectors start empty;
    the three tables of partials have the six rows that
    [initialize_rot_trans_3D] indexes (their declaration is in the header,
    which is not among the sources). *)
Definition Camera_System_new : Camera_System :=
  {| cameras_ := [];
     max_num_cameras_allowed_ := 10;
     user_6x1_trans_ := assign 6 0%R;
     user_4x4_trans_ := zero_matrix 4;
     sys_type_ := UNKNOWN_SYSTEM;
     has_6_transform_ := false;
     has_4x4_transform_ := false;
     rot_trans_3D_x_ := [];
     rot_trans_3D_y_ := [];
     rot_trans_3D_z_ := [];
     rot_trans_3D_dx_ := replicate 6 [];
     rot_trans_3D_dy_ := replicate 6 [];
     rot_trans_3D_dz_ := replicate 6 [] |}.

Definition num_cameras (s : Camera_System) : nat := length (cameras_ s).

Definition set_cameras_ (x : list Camera_Info) (s : Camera_System) :=
  mkCamera_System x (max_num_cameras_allowed_ s) (user_6x1_trans_ s)
    (user_4x4_trans_ s) (sys_type_ s) (has_6_transform_ s)
    (has_4x4_transform_ s) (rot_trans_3D_x_ s) (rot_trans_3D_y_ s)
    (rot_trans_3D_z_ s) (rot_trans_3D_dx_ s) (rot_trans_3D_dy_ s)
    (rot_trans_3D_dz_ s).

Definition set_user_6x1_trans_ (x : vec) (s : Camera_System) :=
  mkCamera_System (cameras_ s) (max_num_cameras_allowed_ s) x
    (user_4x4_trans_ s) (sys_type_ s) (has_6_transform_ s)
    (has_4x4_transform_ s) (rot_trans_3D_x_ s) (rot_trans_3D_y_ s)
    (rot_trans_3D_z_ s) (rot_trans_3D_dx_ s) (rot_trans_3D_dy_ s)
    (rot_trans_3D_dz_ s).

Definition set_user_4x4_trans_ (x : Matrix) (s : Camera_System) :=
  mkCamera_System (cameras_ s) (max_num_cameras_allowed_ s)
    (user_6x1_trans_ s) x (sys_type_ s) (has_6_transform_ s)
    (has_4x4_transform_ s) (rot_trans_3D_x_ s) (rot_trans_3D_y_ s)
    (rot_trans_3D_z_ s) (rot_trans_3D_dx_ s) (rot_trans_3D_dy_ s)
    (rot_trans_3D_dz_ s).

Definition set_sys_type_ (x : System_Type_3D) (s : Camera_System) :=
  mkCamera_System (cameras_ s) (max_num_cameras_allowed_ s)
    (user_6x1_trans_ s) (user_4x4_trans_ s) x (has_6_transform_ s)
    (has_4x4_transform_ s) (rot_trans_3D_x_ s) (rot_trans_3D_y_ s)
    (rot_trans_3D_z_ s) (rot_trans_3D_dx_ s) (rot_trans_3D_dy_ s)
    (rot_trans_3D_dz_ s).

Definition set_has_6_transform_ (x : bool) (s : Camera_System) :=
  mkCamera_System (cameras_ s) (max_num_cameras_allowed_ s)
    (user_6x1_trans_ s) (user_4x4_trans_ s) (sys_type_ s) x
    (has_4x4_transform_ s) (rot_trans_3D_x_ s) (rot_trans_3D_y_ s)
    (rot_trans_3D_z_ s) (rot_trans_3D_dx_ s) (rot_trans_3D_dy_ s)
    (rot_trans_3D_dz_ s).

Definition set_has_4x4_transform_ (x : bool) (s : Camera_System) :=
  mkCamera_System (cameras_ s) (max_num_cameras_allowed_ s)
    (user_6x1_trans_ s) (user_4x4_trans_ s) (sys_type_ s)
    (has_6_transform_ s) x (rot_trans_3D_x_ s) (rot_trans_3D_y_ s)
    (rot_trans_3D_z_ s) (rot_trans_3D_dx_ s) (rot_trans_3D_dy_ s)
    (rot_trans_3D_dz_ s).

(** Updates of the coefficient members: each takes the function that is
    applied to the member. *)
Definition upd_x_ (f : vec -> vec) (s : Camera_System) :=
  mkCamera_System (cameras_ s) (max_num_cameras_allowed_ s)
    (user_6x1_trans_ s) (user_4x4_trans_ s) (sys_type_ s)
    (has_6_transform_ s) (has_4x4_transform_ s) (f (rot_trans_3D_x_ s))
    (rot_trans_3D_y_ s) (rot_trans_3D_z_ s) (rot_trans_3D_dx_ s)
    (rot_trans_3D_dy_ s) (rot_trans_3D_dz_ s).

Definition upd_y_ (f : vec -> vec) (s : Camera_System) :=
  mkCamera_System (cameras_ s) (max_num_cameras_allowed_ s)
    (user_6x1_trans_ s) (user_4x4_trans_ s) (sys_type_ s)
    (has_6_transform_ s) (has_4x4_transform_ s) (rot_trans_3D_x_ s)
    (f (rot_trans_3D_y_ s)) (rot_trans_3D_z_ s) (rot_trans_3D_dx_ s)
    (rot_trans_3D_dy_ s) (rot_trans_3D_dz_ s).

Definition upd_z_ (f : vec -> vec) (s : Camera_System) :=
  mkCamera_System (cameras_ s) (max_num_cameras_allowed_ s)
    (user_6x1_trans_ s) (user_4x4_trans_ s) (sys_type_ s)
    (has_6_transform_ s) (has_4x4_transform_ s) (rot_trans_3D_x_ s)
    (rot_trans_3D_y_ s) (f (rot_trans_3D_z_ s)) (rot_trans_3D_dx_ s)
    (rot_trans_3D_dy_ s) (rot_trans_3D_dz_ s).

Definition upd_dx_ (f : rows -> rows) (s : Camera_System) :=
  mkCamera_System (cameras_ s) (max_num_cameras_allowed_ s)
    (user_6x1_trans_ s) (user_4x4_trans_ s) (sys_type_ s)
    (has_6_transform_ s) (has_4x4_transform_ s) (rot_trans_3D_x_ s)
    (rot_trans_3D_y_ s) (rot_trans_3D_z_ s) (f (rot_trans_3D_dx_ s))
    (rot_trans_3D_dy_ s) (rot_trans_3D_dz_ s).

Definition upd_dy_ (f : rows -> rows) (s : Camera_System) :=
  mkCamera_System (cameras_ s) (max_num_cameras_allowed_ s)
    (user_6x1_trans_ s) (user_4x4_trans_ s) (sys_type_ s)
    (has_6_transform_ s) (has_4x4_transform_ s) (rot_trans_3D_x_ s)
    (rot_trans_3D_y_ s) (rot_trans_3D_z_ s) (rot_trans_3D_dx_ s)
    (f (rot_trans_3D_dy_ s)) (rot_trans_3D_dz_ s).

Definition upd_dz_ (f : rows -> rows) (s : Camera_System) :=
  mkCamera_System (cameras_ s) (max_num_cameras_allowed_ s)
    (user_6x1_trans_ s) (user_4x4_trans_ s) (sys_type_ s)
    (has_6_transform_ s) (has_4x4_transform_ s) (rot_trans_3D_x_ s)
    (rot_trans_3D_y_ s) (rot_trans_3D_z_ s) (rot_trans_3D_dx_ s)
    (rot_trans_3D_dy_ s) (f (rot_trans_3D_dz_ s)).

(** A sequence of assignments to members, in program order. *)
Definition run_assignments (l : list (Camera_System -> Camera_System))
  (s : Camera_System) : Camera_System :=
  fold_left (fun s f => f s) l s.

(** [for (i in l) body(i)], where the body may throw. *)
Fixpoint for_each {S} (l : list nat) (body : nat -> M S unit) : M S unit :=
  match l with
  | [] => ret tt
  | i :: l' => bind (body i) (fun _ => for_each l' body)
  end.

(** ** The rigid-body transform *)

Section RigidBody.
Local Open Scope R_scope.
Local Open Scope exn_scope.

(** [rot_trans_3D_x_[i] = v] and its siblings. *)
Definition x_set (i : nat) (v : R) := upd_x_ (<[i := v]>).
Definition y_set (i : nat) (v : R) := upd_y_ (<[i := v]>).
Definition z_set (i : nat) (v : R) := upd_z_ (<[i := v]>).
Definition dx_set (j i : nat) (v : R) := upd_dx_ (fun m => set_row_elem m j i v).
Definition dy_set (j i : nat) (v : R) := upd_dy_ (fun m => set_row_elem m j i v).
Definition dz_set (j i : nat) (v : R) := upd_dz_ (fun m => set_row_elem m j i v).

(** The first-call allocation of the coefficient members. *)
Definition allocate_rot_trans_3D : list (Camera_System -> Camera_System) :=
  [ upd_x_ (fun _ => assign 4 0);
    upd_y_ (fun _ => assign 4 0);
    upd_z_ (fun _ => assign 4 0) ] ++
  flat_map (fun i =>
    [ upd_dx_ (<[i := assign 4 0]>);
      upd_dy_ (<[i := assign 4 0]>);
      upd_dz_ (<[i := assign 4 0]>) ]) (seq 0 6).

(** [Camera_System::initialize_rot_trans_3D] *)
Definition initialize_rot_trans_3D (rigid_body_params : vec) (partials : bool)
  : M Camera_System unit :=
  s <- get_state ;;
  (if negb (length (rot_trans_3D_x_ s) =? 4)%nat
   then modify (run_assignments allocate_rot_trans_3D)
   else ret tt) ;;;
  TEUCHOS_TEST_FOR_EXCEPTION (negb (length rigid_body_params =? 6)%nat) "" ;;;
  let cx := cos (at_ rigid_body_params ANGLE_X) in
  let cy := cos (at_ rigid_body_params ANGLE_Y) in
  let cz := cos (at_ rigid_body_params ANGLE_Z) in
  let sx := sin (at_ rigid_body_params ANGLE_X) in
  let sy := sin (at_ rigid_body_params ANGLE_Y) in
  let sz := sin (at_ rigid_body_params ANGLE_Z) in
  let tx := at_ rigid_body_params TRANSLATION_X in
  let ty := at_ rigid_body_params TRANSLATION_Y in
  let tz := at_ rigid_body_params TRANSLATION_Z in
  modify (run_assignments
    [ x_set 0 (cy * cz);
      x_set 1 (sx * sy * cz - cx * sz);
      x_set 2 (cx * sy * cz + sx * sz);
      x_set 3 tx;
      y_set 0 (cy * sz);
      y_set 1 (sx * sy * sz + cx * cz);
      y_set 2 (cx * sy * sz - sx * cz);
      y_set 3 ty;
      z_set 0 (- sy);
      z_set 1 (sx * cy);
      z_set 2 (cx * cy);
      z_set 3 tz ]) ;;;
  if partials then
    modify (run_assignments
      [ dx_set ANGLE_X 0 0;
        dx_set ANGLE_X 1 (cx * sy * cz + sx * sz);
        dx_set ANGLE_X 2 (- sx * sy * cz + cx * sz);
        dx_set ANGLE_X 3 0;
        dy_set ANGLE_X 0 0;
        dy_set ANGLE_X 1 (cx * sy * sz - sx * cz);
        dy_set ANGLE_X 2 (- sx * sy * sz - cx * cz);
        dy_set ANGLE_X 3 0;
        dz_set ANGLE_X 0 0;
        dz_set ANGLE_X 1 (cx * cy);
        dz_set ANGLE_X 2 (- sx * cy);
        dz_set ANGLE_X 3 0;

        dx_set ANGLE_Y 0 (- sy * cz);
        dx_set ANGLE_Y 1 (sx * cy * cz);
        dx_set ANGLE_Y 2 (cx * cy * cz);
        dx_set ANGLE_Y 3 0;
        dy_set ANGLE_Y 0 (- sy * sz);
        dy_set ANGLE_Y 1 (sx * cy * sz);
        dy_set ANGLE_Y 2 (cx * cy * sz);
        dy_set ANGLE_Y 3 0;
        dz_set ANGLE_Y 0 (- cy);
        dz_set ANGLE_Y 1 (- sx * sy);
        dz_set ANGLE_Y 2 (- cx * sy);
        dz_set ANGLE_Y 3 0;

        dx_set ANGLE_Z 0 (- cy * sz);
        dx_set ANGLE_Z 1 (- sx * sy * sz - cx * cz);
        dx_set ANGLE_Z 2 (- cx * sy * sz + sx * cz);
        dx_set ANGLE_Z 3 0;
        dy_set ANGLE_Z 0 (cy * cz);
        dy_set ANGLE_Z 1 (sx * sy * cz - cx * sz);
        dy_set ANGLE_Z 2 (cx * sy * cz + sx * sz);
        dy_set ANGLE_Z 3 0;
        dz_set ANGLE_Z 0 0;
        dz_set ANGLE_Z 1 0;
        dz_set ANGLE_Z 2 0;
        dz_set ANGLE_Z 3 0 ])
  else ret tt.

(** The vectors [rot_trans_3D] writes through its reference parameters. *)
Record Targets_3D : Type := mkTargets_3D {
  target_x : vec;
  target_y : vec;
  target_z : vec;
  target_dx : rows;
  target_dy : rows;
  target_dz : rows
}.

(** The argument checks of [rot_trans_3D], in program order. *)
Definition rot_trans_3D_checks (source_x source_y source_z : vec)
  (target_x target_y target_z : vec) (target_dx target_dy target_dz : rows)
  : M Camera_System unit :=
  TEUCHOS_TEST_FOR_EXCEPTION (negb (length source_x =? 0)%nat) "" ;;;
  let vec_size := length source_x in
  TEUCHOS_TEST_FOR_EXCEPTION (negb (length source_y =? vec_size)%nat) "" ;;;
  TEUCHOS_TEST_FOR_EXCEPTION (negb (length source_z =? vec_size)%nat) "" ;;;
  TEUCHOS_TEST_FOR_EXCEPTION (negb (length target_x =? vec_size)%nat) "" ;;;
  TEUCHOS_TEST_FOR_EXCEPTION (negb (length target_y =? vec_size)%nat) "" ;;;
  TEUCHOS_TEST_FOR_EXCEPTION (negb (length target_z =? vec_size)%nat) "" ;;;
  let has_derivatives := (0 <? length target_dx)%nat in
  if has_derivatives then
    (* since this method is meant for the rigid body motions which have 6
       parameters, enforce that here *)
    TEUCHOS_TEST_FOR_EXCEPTION (negb (length target_dx =? 6)%nat) "" ;;;
    TEUCHOS_TEST_FOR_EXCEPTION (negb (length target_dy =? 6)%nat) "" ;;;
    TEUCHOS_TEST_FOR_EXCEPTION (negb (length target_dz =? 6)%nat) "" ;;;
    for_each (seq 0 (length target_dx)) (fun i =>
      TEUCHOS_TEST_FOR_EXCEPTION
        (negb (length (row_ target_dx i) =? vec_size)%nat) "" ;;;
      TEUCHOS_TEST_FOR_EXCEPTION
        (negb (length (row_ target_dy i) =? vec_size)%nat) "" ;;;
      TEUCHOS_TEST_FOR_EXCEPTION
        (negb (length (row_ target_dz i) =? vec_size)%nat) "")
  else ret tt.

(** The loop that transforms the coordinates: one pass of its body. *)
Definition transform_point (s : Camera_System) (source_x source_y source_z : vec)
  (t : vec * vec * vec) (i : nat) : vec * vec * vec :=
  let '(target_x, target_y, target_z) := t in
  ( <[i := at_ (rot_trans_3D_x_ s) 0 * at_ source_x i
           + at_ (rot_trans_3D_x_ s) 1 * at_ source_y i
           + at_ (rot_trans_3D_x_ s) 2 * at_ source_z i
           + at_ (rot_trans_3D_x_ s) 3]> target_x,
    <[i := at_ (rot_trans_3D_y_ s) 0 * at_ source_x i
           + at_ (rot_trans_3D_y_ s) 1 * at_ source_y i
           + at_ (rot_trans_3D_y_ s) 2 * at_ source_z i
           + at_ (rot_trans_3D_y_ s) 3]> target_y,
    <[i := at_ (rot_trans_3D_z_ s) 0 * at_ source_x i
           + at_ (rot_trans_3D_z_ s) 1 * at_ source_y i
           + at_ (rot_trans_3D_z_ s) 2 * at_ source_z i
           + at_ (rot_trans_3D_z_ s) 3]> target_z ).

Definition transform_points (s : Camera_System) (source_x source_y source_z : vec)
  (vec_size : nat) (t : vec * vec * vec) : vec * vec * vec :=
  fold_left (transform_point s source_x source_y source_z) (seq 0 vec_size) t.

(** The loops that calculate the partials: the body of the inner loop, ... *)
Definition partial_point (s : Camera_System) (source_x source_y source_z : vec)
  (j : nat) (d : rows * rows * rows) (i : nat) : rows * rows * rows :=
  let '(target_dx, target_dy, target_dz) := d in
  ( set_row_elem target_dx j i
      (at_ (row_ (rot_trans_3D_dx_ s) j) 0 * at_ source_x i
       + at_ (row_ (rot_trans_3D_dx_ s) j) 1 * at_ source_y i
       + at_ (row_ (rot_trans_3D_dx_ s) j) 2 * at_ source_z i),
    set_row_elem target_dy j i
      (at_ (row_ (rot_trans_3D_dy_ s) j) 0 * at_ source_x i
       + at_ (row_ (rot_trans_3D_dy_ s) j) 1 * at_ source_y i
       + at_ (row_ (rot_trans_3D_dy_ s) j) 2 * at_ source_z i),
    set_row_elem target_dz j i
      (at_ (row_ (rot_trans_3D_dz_ s) j) 0 * at_ source_x i
       + at_ (row_ (rot_trans_3D_dz_ s) j) 1 * at_ source_y i
       + at_ (row_ (rot_trans_3D_dz_ s) j) 2 * at_ source_z i) ).

(** [std::fill(m[j].begin(), m[j].end(), x)] *)
Definition fill_row (m : rows) (j : nat) (x : R) : rows :=
  <[j := fill (row_ m j) x]> m.

(** ... the body of the outer loop, ... *)
Definition partial_rows (s : Camera_System) (source_x source_y source_z : vec)
  (vec_size : nat) (d : rows * rows * rows) (j : nat) : rows * rows * rows :=
  let '(target_dx, target_dy, target_dz) :=
    fold_left (partial_point s source_x source_y source_z j) (seq 0 vec_size) d in
  ( fill_row target_dx (j + 3) 0,
    fill_row target_dy (j + 3) 0,
    fill_row target_dz (j + 3) 0 ).

(** ... and the whole block under [if(has_derivatives)]. *)
Definition calculate_partials (s : Camera_System) (source_x source_y source_z : vec)
  (vec_size : nat) (d : rows * rows * rows) : rows * rows * rows :=
  let '(target_dx, target_dy, target_dz) :=
    fold_left (partial_rows s source_x source_y source_z vec_size) (seq 0 3) d in
  ( fill_row target_dx 3 1,
    fill_row target_dy 4 1,
    fill_row target_dz 5 1 ).

(** What [rot_trans_3D] does once its argument checks have passed: it
    prepares the rotation coefficients, transforms the coordinates and
    calculates the partials. *)
Definition rot_trans_3D_transform (source_x source_y source_z : vec)
  (target_x target_y target_z : vec) (params : vec)
  (target_dx target_dy target_dz : rows) : M Camera_System Targets_3D :=
  let vec_size := length source_x in
  let has_derivatives := (0 <? length target_dx)%nat in
  initialize_rot_trans_3D params has_derivatives ;;;
  s <- get_state ;;
  let '(tx, ty, tz) :=
    transform_points s source_x source_y source_z vec_size
      (target_x, target_y, target_z) in
  let '(dx, dy, dz) :=
    if has_derivatives
    then calculate_partials s source_x source_y source_z vec_size
           (target_dx, target_dy, target_dz)
    else (target_dx, target_dy, target_dz) in
  ret (mkTargets_3D tx ty tz dx dy dz).

(** [Camera_System::rot_trans_3D], the overload with the partials *)
Definition rot_trans_3D (source_x source_y source_z : vec)
  (target_x target_y target_z : vec) (params : vec)
  (target_dx target_dy target_dz : rows) : M Camera_System Targets_3D :=
  rot_trans_3D_checks source_x source_y source_z target_x target_y target_z
    target_dx target_dy target_dz ;;;
  rot_trans_3D_transform source_x source_y source_z target_x target_y target_z
    params target_dx target_dy target_dz.

(** Modelled from the spec: the overload of [rot_trans_3D] without the
    three tables of partials is declared in the header, which is not among
    the sources; "derivatives requested" is optional in the spec's
    contract, so this overload is the one above with no table passed. *)
Definition rot_trans_3D_positions (source_x source_y source_z : vec)
  (target_x target_y target_z : vec) (params : vec)
  : M Camera_System Targets_3D :=
  rot_trans_3D source_x source_y source_z target_x target_y target_z params
    [] [] [].

End RigidBody.

(** ** The cross-camera projection *)

(** The member functions of [DICe::Camera] that the projection calls. The
    class is not among the sources; a member function is represented by
    the function from its input vectors to the vectors it writes, with the
    camera it is called on as first argument. The [_d] versions are the
    overloads that also take and write partials. *)
Record Optics : Type := mkOptics {
  image_to_sensor : Camera_Info -> vec -> vec -> vec * vec;
  sensor_to_cam : Camera_Info -> vec -> vec -> vec -> vec * vec * vec;
  sensor_to_cam_d :
    Camera_Info -> vec -> vec -> vec -> (vec * vec * vec) * (rows * rows * rows);
  cam_to_world : Camera_Info -> vec -> vec -> vec -> vec * vec * vec;
  cam_to_world_d :
    Camera_Info -> vec -> vec -> vec -> rows -> rows -> rows ->
    (vec * vec * vec) * (rows * rows * rows);
  world_to_cam : Camera_Info -> vec -> vec -> vec -> vec * vec * vec;
  world_to_cam_d :
    Camera_Info -> vec -> vec -> vec -> rows -> rows -> rows ->
    (vec * vec * vec) * (rows * rows * rows);
  cam_to_sensor : Camera_Info -> vec -> vec -> vec -> vec * vec;
  cam_to_sensor_d :
    Camera_Info -> vec -> vec -> vec -> rows -> rows -> rows ->
    (vec * vec) * (rows * rows);
  sensor_to_image : Camera_Info -> vec -> vec -> vec * vec;
  sensor_to_image_d :
    Camera_Info -> vec -> vec -> rows -> rows -> (vec * vec) * (rows * rows)
}.

(** The vectors [camera_to_camera_projection] writes through its reference
    parameters. *)
Record Image_Targets : Type := mkImage_Targets {
  img_target_x : vec;
  img_target_y : vec;
  img_target_dx : rows;
  img_target_dy : rows
}.

Section Projection.
Variable optics : Optics.
Local Open Scope R_scope.
Local Open Scope exn_scope.

(** [cameras_[id]] *)
Definition camera (s : Camera_System) (id : nat) : Camera_Info :=
  nth id (cameras_ s) Camera_Info_default.

(** The argument checks of [camera_to_camera_projection], in program order. *)
Definition camera_to_camera_projection_checks (source_id target_id : nat)
  (img_source_x img_source_y img_target_x img_target_y params : vec)
  (img_target_dx img_target_dy : rows) (rigid_body_params : vec)
  : M Camera_System unit :=
  TEUCHOS_TEST_FOR_EXCEPTION (negb (length params =? 3)%nat) "" ;;;
  s <- get_state ;;
  TEUCHOS_TEST_FOR_EXCEPTION (num_cameras s <=? source_id)%nat
    "invalid source id" ;;;
  (* TEUCHOS_TEST_FOR_EXCEPTION(source_id==target_id, ...) is commented out *)
  TEUCHOS_TEST_FOR_EXCEPTION (num_cameras s <=? target_id)%nat
    "invalid target id" ;;;
  let vec_size := length img_source_x in
  TEUCHOS_TEST_FOR_EXCEPTION (negb (length img_source_y =? vec_size)%nat) "" ;;;
  TEUCHOS_TEST_FOR_EXCEPTION (negb (length img_target_x =? vec_size)%nat) "" ;;;
  TEUCHOS_TEST_FOR_EXCEPTION (negb (length img_target_y =? vec_size)%nat) "" ;;;
  let num_params := length img_target_dx in
  let has_derivatives := (0 <? num_params)%nat in
  let has_rigid_body := (0 <? length rigid_body_params)%nat in
  (if has_derivatives then
     (if has_rigid_body
      then TEUCHOS_TEST_FOR_EXCEPTION (negb (num_params =? 6)%nat) ""
      else TEUCHOS_TEST_FOR_EXCEPTION (negb (num_params =? 3)%nat) "") ;;;
     TEUCHOS_TEST_FOR_EXCEPTION
       (negb (length img_target_dy =? num_params)%nat) "" ;;;
     for_each (seq 0 num_params) (fun i =>
       TEUCHOS_TEST_FOR_EXCEPTION
         (negb (length (row_ img_target_dx i) =? vec_size)%nat) "" ;;;
       TEUCHOS_TEST_FOR_EXCEPTION
         (negb (length (row_ img_target_dy i) =? vec_size)%nat) "")
   else ret tt) ;;;
  if has_rigid_body then
    TEUCHOS_TEST_FOR_EXCEPTION (negb (length rigid_body_params =? 6)%nat)
      "invalid rigid body parameter vector size"
  else ret tt.

(** The traversal from the world frame back to the image of the target
    camera, with the partials ... *)
Definition world_to_image_d (target : Camera_Info)
  (tmp_world_x tmp_world_y tmp_world_z : vec) (tmp_dx tmp_dy tmp_dz : rows)
  : Image_Targets :=
  let '((tmp_cam_x, tmp_cam_y, tmp_cam_z), (tmp_cam_dx, tmp_cam_dy, tmp_cam_dz)) :=
    world_to_cam_d optics target tmp_world_x tmp_world_y tmp_world_z
      tmp_dx tmp_dy tmp_dz in
  let '((tmp_sensor_x, tmp_sensor_y), (tmp_dx, tmp_dy)) :=
    cam_to_sensor_d optics target tmp_cam_x tmp_cam_y tmp_cam_z
      tmp_cam_dx tmp_cam_dy tmp_cam_dz in
  let '((img_target_x, img_target_y), (img_target_dx, img_target_dy)) :=
    sensor_to_image_d optics target tmp_sensor_x tmp_sensor_y tmp_dx tmp_dy in
  mkImage_Targets img_target_x img_target_y img_target_dx img_target_dy.

(** ... and without them; the two tables of partials stay as passed. *)
Definition world_to_image (target : Camera_Info)
  (tmp_world_x tmp_world_y tmp_world_z : vec)
  (img_target_dx img_target_dy : rows) : Image_Targets :=
  let '(tmp_cam_x, tmp_cam_y, tmp_cam_z) :=
    world_to_cam optics target tmp_world_x tmp_world_y tmp_world_z in
  let '(tmp_sensor_x, tmp_sensor_y) :=
    cam_to_sensor optics target tmp_cam_x tmp_cam_y tmp_cam_z in
  let '(img_target_x, img_target_y) :=
    sensor_to_image optics target tmp_sensor_x tmp_sensor_y in
  mkImage_Targets img_target_x img_target_y img_target_dx img_target_dy.

(** The traversal from the image of the source camera to the world frame
    without partials: [image_to_sensor], then [sensor_to_cam] and
    [cam_to_world] in the overloads that take no tables. *)
Definition image_to_world (source : Camera_Info)
  (img_source_x img_source_y params : vec) : vec * vec * vec :=
  let '(tmp_sensor_x, tmp_sensor_y) :=
    image_to_sensor optics source img_source_x img_source_y in
  let '(tmp_cam_x, tmp_cam_y, tmp_cam_z) :=
    sensor_to_cam optics source tmp_sensor_x tmp_sensor_y params in
  cam_to_world optics source tmp_cam_x tmp_cam_y tmp_cam_z.

(** The same traversal with the partials for the optical parameters. *)
Definition image_to_world_d (source : Camera_Info)
  (img_source_x img_source_y params : vec)
  : (vec * vec * vec) * (rows * rows * rows) :=
  let '(tmp_sensor_x, tmp_sensor_y) :=
    image_to_sensor optics source img_source_x img_source_y in
  let '((tmp_cam_x, tmp_cam_y, tmp_cam_z), (tmp_cam_dx, tmp_cam_dy, tmp_cam_dz)) :=
    sensor_to_cam_d optics source tmp_sensor_x tmp_sensor_y params in
  cam_to_world_d optics source tmp_cam_x tmp_cam_y tmp_cam_z
    tmp_cam_dx tmp_cam_dy tmp_cam_dz.

(** The traversal of the projections, after the argument checks. *)
Definition camera_to_camera_projection_traverse (source_id target_id : nat)
  (img_source_x img_source_y img_target_x img_target_y params : vec)
  (img_target_dx img_target_dy : rows) (rigid_body_params : vec)
  : M Camera_System Image_Targets :=
  let vec_size := length img_source_x in
  let num_params := length img_target_dx in
  let has_derivatives := (0 <? num_params)%nat in
  let has_rigid_body := (0 <? length rigid_body_params)%nat in
  s <- get_state ;;
  let source := camera s source_id in
  let target := camera s target_id in
  (* temporary vectors for traversing the projections *)
  let tmp_world_x := assign vec_size 0 in
  let tmp_world_y := assign vec_size 0 in
  let tmp_world_z := assign vec_size 0 in
  let tmp_dx := assign_rows num_params vec_size 0 in
  let tmp_dy := assign_rows num_params vec_size 0 in
  let tmp_dz := assign_rows num_params vec_size 0 in
  if has_derivatives then
    if has_rigid_body then
      let '(tmp_rb_world_x, tmp_rb_world_y, tmp_rb_world_z) :=
        image_to_world source img_source_x img_source_y params in
      (* no derivatives come into play until the rotation and translation
         from the next call *)
      t <- rot_trans_3D tmp_rb_world_x tmp_rb_world_y tmp_rb_world_z
             tmp_world_x tmp_world_y tmp_world_z rigid_body_params
             tmp_dx tmp_dy tmp_dz ;;
      ret (world_to_image_d target (target_x t) (target_y t) (target_z t)
             (target_dx t) (target_dy t) (target_dz t))
    else
      let '((tmp_world_x, tmp_world_y, tmp_world_z), (tmp_dx, tmp_dy, tmp_dz)) :=
        image_to_world_d source img_source_x img_source_y params in
      ret (world_to_image_d target tmp_world_x tmp_world_y tmp_world_z
             tmp_dx tmp_dy tmp_dz)
  else
    if has_rigid_body then
      let '(tmp_rb_world_x, tmp_rb_world_y, tmp_rb_world_z) :=
        image_to_world source img_source_x img_source_y params in
      t <- rot_trans_3D_positions tmp_rb_world_x tmp_rb_world_y tmp_rb_world_z
             tmp_world_x tmp_world_y tmp_world_z rigid_body_params ;;
      ret (world_to_image target (target_x t) (target_y t) (target_z t)
             img_target_dx img_target_dy)
    else
      let '(tmp_world_x, tmp_world_y, tmp_world_z) :=
        image_to_world source img_source_x img_source_y params in
      ret (world_to_image target tmp_world_x tmp_world_y tmp_world_z
             img_target_dx img_target_dy).

(** [Camera_System::camera_to_camera_projection] *)
Definition camera_to_camera_projection (source_id target_id : nat)
  (img_source_x img_source_y img_target_x img_target_y params : vec)
  (img_target_dx img_target_dy : rows) (rigid_body_params : vec)
  : M Camera_System Image_Targets :=
  camera_to_camera_projection_checks source_id target_id
    img_source_x img_source_y img_target_x img_target_y params
    img_target_dx img_target_dy rigid_body_params ;;;
  camera_to_camera_projection_traverse source_id target_id
    img_source_x img_source_y img_target_x img_target_y params
    img_target_dx img_target_dy rigid_body_params.

End Projection.

(** ** The libraries the reader calls *)

Declare Scope res_scope.
Delimit Scope res_scope with res.
Notation "x <- c ;; k" := (rbind c (fun x => k))
  (at level 90, c at level 80, right associativity) : res_scope.
Notation "c ;;; k" := (rbind c (fun _ => k))
  (at level 90, right associativity) : res_scope.

(** [Teuchos::ParameterList]: named entries, each a typed parameter or a
    sublist. *)
#[warnings="-register-all"]
Inductive ParameterEntry : Type :=
| PString (s : string)
| PDouble (x : R)
| PInt (n : Z)
| PBool (b : bool)
| PSublist (l : list (string * ParameterEntry)).

Abbreviation ParameterList := (list (string * ParameterEntry)) (only parsing).

Fixpoint find_entry (name : string) (l : ParameterList) : option ParameterEntry :=
  match l with
  | [] => None
  | (k, e) :: l' => if String.eqb k name then Some e else find_entry name l'
  end.

(** [l.isParameter(name)]: an entry of that name exists (a sublist is an
    entry too). *)
Definition isParameter (name : string) (l : ParameterList) : bool :=
  match find_entry name l with Some _ => true | None => false end.

(** [l.isSublist(name)] *)
Definition isSublist (name : string) (l : ParameterList) : bool :=
  match find_entry name l with Some (PSublist _) => true | _ => false end.

(** [l.get<std::string>(name)], [l.get<double>(name)], [l.get<int_t>(name)]:
    they throw when the entry is missing or of another type. *)
Definition get_string (name : string) (l : ParameterList) : result string :=
  match find_entry name l with
  | Some (PString s) => Ok s
  | Some _ => Error "Teuchos: wrong parameter type"
  | None => Error "Teuchos: no such parameter"
  end.

Definition get_double (name : string) (l : ParameterList) : result R :=
  match find_entry name l with
  | Some (PDouble x) => Ok x
  | Some _ => Error "Teuchos: wrong parameter type"
  | None => Error "Teuchos: no such parameter"
  end.

Definition get_int (name : string) (l : ParameterList) : result Z :=
  match find_entry name l with
  | Some (PInt n) => Ok n
  | Some _ => Error "Teuchos: wrong parameter type"
  | None => Error "Teuchos: no such parameter"
  end.

(** [l.sublist(name)]: the sublist, a new empty one when no entry of that
    name exists. *)
Definition sublist (name : string) (l : ParameterList) : result ParameterList :=
  match find_entry name l with
  | Some (PSublist l') => Ok l'
  | Some _ => Error "Teuchos: parameter is not a sublist"
  | None => Ok []
  end.

(** [a[i]] on a [Teuchos::Array] or a [std::vector] read from the file.
    Reading past the end is undefined in C++; the embedding stops there
    with the error [index out of range], which is no exception of the
    reader: what is stated about the lines of a VIC3D file that the reader
    rejects is stated for files on whose lines no subscript leaves the
    token vector ([vic3d_line_in_range]). *)
Definition array_at {A} (a : list A) (i : nat) : result A :=
  match a !! i with
  | Some x => Ok x
  | None => Error "index out of range"
  end.

(** [std::stringstream << n] for a [size_t] and an [int_t], and [std::endl]. *)
Definition string_of_size_t (n : nat) : string :=
  NilZero.string_of_uint (Nat.to_uint n).

Definition string_of_int_t (n : Z) : string :=
  NilZero.string_of_int (Z.to_int n).

Definition endl : string := String (ascii_of_nat 10) EmptyString.

(** [s.find(sub) != std::string::npos] *)
Definition found (sub s : string) : bool :=
  match String.index 0 sub s with Some _ => true | None => false end.

(** An [int_t] is a 32-bit [int], a [long] has 64 bits. *)
Definition INT_MIN : Z := - 2 ^ 31.
Definition INT_MAX : Z := 2 ^ 31 - 1.
Definition LONG_MIN : Z := - 2 ^ 63.
Definition LONG_MAX : Z := 2 ^ 63 - 1.

(** The conversion of a [long] to an [int]: the low 32 bits, as a signed
    number. *)
Definition long_to_int (n : Z) : Z := (n + 2 ^ 31) mod 2 ^ 32 - 2 ^ 31.

(** The number a text starts with: white space, an optional sign, then
    decimal digits up to the first other character. *)
Definition digit_of (c : ascii) : option Z :=
  let n := nat_of_ascii c in
  if ((48 <=? n) && (n <=? 57))%nat then Some (Z.of_nat (n - 48)) else None.

Fixpoint atoi_digits (acc : Z) (s : string) : Z :=
  match s with
  | EmptyString => acc
  | String c s' =>
      match digit_of c with
      | Some d => atoi_digits (10 * acc + d) s'
      | None => acc
      end
  end.

Definition is_space (c : ascii) : bool :=
  let n := nat_of_ascii c in ((n =? 32) || ((9 <=? n) && (n <=? 13)))%nat.

Fixpoint skip_spaces (s : string) : string :=
  match s with
  | String c s' => if is_space c then skip_spaces s' else s
  | EmptyString => s
  end.

Definition leading_number (s : string) : Z :=
  match skip_spaces s with
  | String "-" s' => - atoi_digits 0 s'
  | String "+" s' => atoi_digits 0 s'
  | s' => atoi_digits 0 s'
  end.

(** The C library's [strtol(s, NULL, 10)]: the number the text starts
    with, [LONG_MAX] or [LONG_MIN] when it does not fit a [long]. *)
Definition strtol (s : string) : Z :=
  Z.max LONG_MIN (Z.min LONG_MAX (leading_number s)).

(** The C library's [atoi]. The C standard defines [atoi(s)] as
    [(int) strtol(s, NULL, 10)] and leaves open what happens when the
    number does not fit an [int]; the C library computes the same
    expression there too, so the number wraps around (the text
    [4294967296] gives 0). *)
Definition atoi (s : string) : Z := long_to_int (strtol s).

(** The conversion of a [double] to an [int_t]: the fraction is dropped.
    For a value beyond the range of [int_t] C++ leaves the result open;
    the conversion instruction of the x86 gives [INT_MIN] there. *)
Definition truncate (x : R) : Z :=
  if Rle_dec 0 x then Int_part x else (- Int_part (- x))%Z.

Definition double_to_int (x : R) : Z :=
  let n := truncate x in
  if ((INT_MIN <=? n) && (n <=? INT_MAX))%Z then n else INT_MIN.

(** What the reader takes from the rest of DICe, from Teuchos and from the
    C library without its definition being among the sources: the names of
    the parameters (constants of a header), the two conversions from text
    to an enumeration, [Teuchos::fromStringToArray], [strtod],
    [Camera_Info::set_rotation_matrix(alpha, beta, gamma)], the check
    the constructor of [DICe::Camera] makes ("the camera constructor will
    check if it is valid"), and whether the build defines [NDEBUG]. *)
Record Env : Type := mkEnv {
  DICe_XML_Calibration_File : string;
  system_type_3D : string;
  rotation_3x3_matrix : string;
  user_6_param_transform : string;
  user_4x4_param_transform : string;
  string_to_system_type_3d : string -> System_Type_3D;
  string_to_lens_distortion_model : string -> Lens_Distortion_Model;
  fromStringToArray_int : string -> result (list Z);
  fromStringToArray_scalar : string -> result (list R);
  strtod : string -> R;
  set_rotation_matrix : R -> R -> R -> Matrix;
  Camera_check : Camera_Info -> result unit;
  NDEBUG : bool
}.

(** [assert(condition)]: nothing in a build with [NDEBUG]; otherwise a
    condition that does not hold ends the program, and with it whatever
    the reader was doing. *)
Definition assert_ (env : Env) (condition : bool) : result unit :=
  if NDEBUG env || condition then Ok tt else Error "assertion failed".

(** A calibration file as the reader sees it: its name, what
    [Teuchos::updateParametersFromXmlFile] reads from it ([None] when that
    throws), whether the stream opened on it is good, and the token
    vectors that the successive calls of [tokenize_line] return until the
    end of the file (with the delimiters of the dialect the name selects). *)
Record Calibration_File : Type := mkCalibration_File {
  cal_file : string;
  teuchos_xml : option ParameterList;
  good : bool;
  token_lines : list (list string)
}.

(** ** The calibration file reader *)

Section Reader.
Variable env : Env.

(** [param_order_int], the order of the eight intrinsics of the two legacy
    dialects. *)
Definition param_order_int : list nat := [CX; CY; FX; FY; FS; K1; K2; K3].

(** [new DICe::Camera(camera_info)] followed by [cameras_.push_back]. *)
Definition push_back_camera (camera_info : Camera_Info) : M Camera_System unit :=
  (lift (Camera_check env camera_info) ;;;
   modify (fun s => set_cameras_ (cameras_ s ++ [camera_info]) s))%exn.

Section CameraSublist.
Local Open Scope res_scope.

(** [if (camParams.isParameter(name)) field = camParams.get<double>(name);] *)
Definition read_optional_double (camParams : ParameterList) (name : string)
  (set : R -> Camera_Info -> Camera_Info) (camera_info : Camera_Info)
  : result Camera_Info :=
  if isParameter name camParams then
    x <- get_double name camParams ;;
    Ok (set x camera_info)
  else Ok camera_info.

Definition read_optional_string (camParams : ParameterList) (name : string)
  (set : string -> Camera_Info -> Camera_Info) (camera_info : Camera_Info)
  : result Camera_Info :=
  if isParameter name camParams then
    x <- get_string name camParams ;;
    Ok (set x camera_info)
  else Ok camera_info.

(** The loop that fills the array with any intrinsic parameters. *)
Fixpoint read_intrinsics (camParams : ParameterList) (l : list nat)
  (camera_info : Camera_Info) : result Camera_Info :=
  match l with
  | [] => Ok camera_info
  | i :: l' =>
      camera_info <- read_optional_double camParams
        (Cam_Intrinsic_Param_to_string i) (set_intrinsic i) camera_info ;;
      read_intrinsics camParams l' camera_info
  end.

(** An Euler angle: its value (0 when absent). *)
Definition read_euler (camParams : ParameterList) (name : string) : result R :=
  if isParameter name camParams then get_double name camParams else Ok 0%R.

(** The loop over the three rows of the camera's rotation matrix. *)
Fixpoint read_rotation_rows (camRot : ParameterList) (l : list nat)
  (camera_info : Camera_Info) : result Camera_Info :=
  match l with
  | [] => Ok camera_info
  | j :: l' =>
      let row_param := ("ROW " ++ string_of_size_t j)%string in
      test_for_exception (isParameter row_param camRot)
        "cal file missing row for camera 3x3 rotation matrix" ;;;
      row_text <- get_string row_param camRot ;;
      tArray <- fromStringToArray_scalar env row_text ;;
      r0 <- array_at tArray 0 ;;
      r1 <- array_at tArray 1 ;;
      r2 <- array_at tArray 2 ;;
      read_rotation_rows camRot l'
        (set_rotation_entry j 2 r2
          (set_rotation_entry j 1 r1
            (set_rotation_entry j 0 r0 camera_info)))
  end.

(** The body of the loop over the cameras, for a sublist [CAMERA i] that
    exists: from the check that the sublist has everything needed to the
    [Camera_Info] that is handed to the constructor of the camera. *)
Definition read_camera_info (i : nat) (camParams : ParameterList)
  : result Camera_Info :=
  test_for_exception (negb (isParameter "IMAGE_HEIGHT_WIDTH" camParams))
    "calibration file missing IMAGE_HEIGHT_WIDTH" ;;;
  test_for_exception (negb (isParameter "LENS_DISTORTION_MODEL" camParams))
    "calibration file missing LENS_DISTORITION_MODEL" ;;;
  let camera_info := Camera_Info_default in
  model_text <- get_string "LENS_DISTORTION_MODEL" camParams ;;
  let camera_info :=
    set_lens_distortion_model_
      (string_to_lens_distortion_model env model_text) camera_info in
  height_width_text <- get_string "IMAGE_HEIGHT_WIDTH" camParams ;;
  tArray <- fromStringToArray_int env height_width_text ;;
  height <- array_at tArray 0 ;;
  let camera_info := set_image_height_ height camera_info in
  width <- array_at tArray 1 ;;
  let camera_info := set_image_width_ width camera_info in
  camera_info <-
    read_intrinsics camParams (seq 0 MAX_CAM_INTRINSIC_PARAM) camera_info ;;
  camera_info <- read_optional_double camParams "TX" set_tx_ camera_info ;;
  camera_info <- read_optional_double camParams "TY" set_ty_ camera_info ;;
  camera_info <- read_optional_double camParams "TZ" set_tz_ camera_info ;;
  alpha <- read_euler camParams "ALPHA" ;;
  beta <- read_euler camParams "BETA" ;;
  gamma <- read_euler camParams "GAMMA" ;;
  let has_eulers :=
    isParameter "ALPHA" camParams || isParameter "BETA" camParams
    || isParameter "GAMMA" camParams in
  let camera_info :=
    if has_eulers
    then set_rotation_matrix_ (set_rotation_matrix env alpha beta gamma)
           camera_info
    else camera_info in
  camera_id <-
    (if isParameter "CAMERA_ID" camParams
     then get_string "CAMERA_ID" camParams
     else Ok ("CAMERA " ++ string_of_size_t i)%string) ;;
  let camera_info := set_id_ camera_id camera_info in
  camera_info <-
    (if isParameter "PIXEL_DEPTH" camParams then
       d <- get_int "PIXEL_DEPTH" camParams ;;
       Ok (set_pixel_depth_ d camera_info)
     else Ok camera_info) ;;
  camera_info <- read_optional_string camParams "LENS" set_lens_ camera_info ;;
  camera_info <-
    read_optional_string camParams "COMMENTS" set_comments_ camera_info ;;
  (* does the camera have a 3x3 rotation transformation matrix? *)
  if isSublist (rotation_3x3_matrix env) camParams then
    test_for_exception has_eulers
      "cannot specify euler angles and rotation matrix" ;;;
    camRot <- sublist (rotation_3x3_matrix env) camParams ;;
    read_rotation_rows camRot (seq 0 3) camera_info
  else Ok camera_info.

End CameraSublist.

Local Open Scope exn_scope.

(** The loop that cycles through all the cameras to see if they are
    assigned; [l] holds the values of [i] that are still to come. *)
Fixpoint read_cameras (sys_params : ParameterList) (l : list nat)
  : M Camera_System unit :=
  match l with
  | [] => ret tt
  | i :: l' =>
      s <- get_state ;;
      TEUCHOS_TEST_FOR_EXCEPTION (i =? max_num_cameras_allowed_ s - 1)%nat
        "too many cameras defined in the xml calibration file" ;;;
      let camera_sublist_id := ("CAMERA " ++ string_of_size_t i ++ endl)%string in
      if isSublist camera_sublist_id sys_params then
        camParams <- lift (sublist camera_sublist_id sys_params) ;;
        camera_info <- lift (read_camera_info i camParams) ;;
        push_back_camera camera_info ;;;
        read_cameras sys_params l'
      else ret tt
  end.

(** The loops that copy a row of values into a vector or a matrix row. *)
Fixpoint copy_6x1 (tArray : list R) (l : list nat) : M Camera_System unit :=
  match l with
  | [] => ret tt
  | i :: l' =>
      x <- lift (array_at tArray i) ;;
      modify (fun s => set_user_6x1_trans_ (<[i := x]> (user_6x1_trans_ s)) s) ;;;
      copy_6x1 tArray l'
  end.

Fixpoint copy_4x4_row (j : nat) (tArray : list R) (l : list nat)
  : M Camera_System unit :=
  match l with
  | [] => ret tt
  | i :: l' =>
      x <- lift (array_at tArray i) ;;
      modify (fun s => set_user_4x4_trans_ (mat_set (user_4x4_trans_ s) j i x) s) ;;;
      copy_4x4_row j tArray l'
  end.

Fixpoint read_4x4_rows (camRow : ParameterList) (l : list nat)
  : M Camera_System unit :=
  match l with
  | [] => ret tt
  | j :: l' =>
      let row_param := ("ROW " ++ string_of_size_t j)%string in
      row_text <- lift (get_string row_param camRow) ;;
      tArray <- lift (fromStringToArray_scalar env row_text) ;;
      lift (assert_ env (length tArray =? 4)%nat) ;;;
      copy_4x4_row j tArray (seq 0 4) ;;;
      read_4x4_rows camRow l'
  end.

(** The branch for a file that the Teuchos parser has read. *)
Definition read_dice_xml (sys_params : ParameterList) : M Camera_System unit :=
  TEUCHOS_TEST_FOR_EXCEPTION
    (negb (isParameter (DICe_XML_Calibration_File env) sys_params))
    "Camera_System::read_calibration_file(): DICe XML calibration file not valid" ;;;
  TEUCHOS_TEST_FOR_EXCEPTION
    (negb (isParameter (system_type_3D env) sys_params))
    ("calibration file missing " ++ system_type_3D env)%string ;;;
  sys_type_str <- lift (get_string (system_type_3D env) sys_params) ;;
  modify (set_sys_type_ (string_to_system_type_3d env sys_type_str)) ;;;
  s <- get_state ;;
  read_cameras sys_params (seq 0 (max_num_cameras_allowed_ s)) ;;;
  (* does the file have a 6 parameter transform? *)
  (if isParameter (user_6_param_transform env) sys_params then
     modify (set_has_6_transform_ true) ;;;
     param_text <- lift (get_string (user_6_param_transform env) sys_params) ;;
     tArray <- lift (fromStringToArray_scalar env param_text) ;;
     lift (assert_ env (length tArray =? 6)%nat) ;;;
     copy_6x1 tArray (seq 0 6)
   else ret tt) ;;;
  (* does the file have a 4x4 parameter transform? *)
  if isSublist (user_4x4_param_transform env) sys_params then
    modify (set_has_4x4_transform_ true) ;;;
    camRow <- lift (sublist (user_4x4_param_transform env) sys_params) ;;
    read_4x4_rows camRow (seq 0 4)
  else ret tt.

(** *** The VIC3D dialect *)

(** The local variables of the loop that reads the lines of the file. *)
Record Vic3d_State : Type := mkVic3d_State {
  camera_infos : list Camera_Info;
  current_camera : nat;
  xml_img_height : Z;
  xml_img_width : Z
}.

(** [camera_infos[current_camera].field = x] *)
Definition update_camera (st : Vic3d_State) (f : Camera_Info -> Camera_Info)
  : Vic3d_State :=
  mkVic3d_State
    (<[current_camera st := f (nth (current_camera st) (camera_infos st)
                                 Camera_Info_default)]> (camera_infos st))
    (current_camera st) (xml_img_height st) (xml_img_width st).

(** The loop that stores the intrinsic parameters of a [CAMERA] line. *)
Fixpoint store_intrinsics (tokens : list string) (l : list nat)
  (st : Vic3d_State) : result Vic3d_State :=
  match l with
  | [] => Ok st
  | i :: l' =>
      (token <- array_at tokens (i + 3) ;;
       index <- array_at param_order_int i ;;
       store_intrinsics tokens l'
         (update_camera st (set_intrinsic index (strtod env token))))%res
  end.

(** The body of the loop, for the token vector of one line. The assertion
    [tokens.size()>=18] stands after the test that raises for 18 tokens or
    fewer, so it cannot fail and is left out. *)
Definition read_vic3d_line (st : Vic3d_State) (tokens : list string)
  : result Vic3d_State :=
  (if (length tokens =? 0)%nat then Ok st else
   token0 <- array_at tokens 0 ;;
   if String.eqb token0 "POLYGONMASK" then
     token1 <- array_at tokens 1 ;;
     test_for_exception (negb (String.eqb token1 "WIDTH=")) "" ;;;
     token3 <- array_at tokens 3 ;;
     test_for_exception (negb (String.eqb token3 "HEIGHT=")) "" ;;;
     token2 <- array_at tokens 2 ;;
     token4 <- array_at tokens 4 ;;
     Ok (mkVic3d_State (camera_infos st) (current_camera st)
           (atoi token4) (atoi token2))
   else if negb (String.eqb token0 "CAMERA") then Ok st else
   (* only allow 2 cameras *)
   test_for_exception (1 <? current_camera st)%nat "" ;;;
   token2 <- array_at tokens 2 ;;
   let camera_index := atoi token2 in
   let camera_title := ("CAMERA " ++ string_of_int_t camera_index)%string in
   let st := update_camera st (set_id_ camera_title) in
   test_for_exception (10 <=? camera_index)%Z "" ;;;
   test_for_exception (length tokens <=? 18)%nat "" ;;;
   (* store the intrinsic parameters *)
   st <- store_intrinsics tokens (seq 0 (length param_order_int)) st ;;
   let st := update_camera st (set_lens_distortion_model_ K1R1_K2R2_K3R3) in
   (* store the extrinsic parameters *)
   token11 <- array_at tokens 11 ;;
   test_for_exception (negb (String.eqb token11 "ORIENTATION")) "" ;;;
   token12 <- array_at tokens 12 ;;
   token13 <- array_at tokens 13 ;;
   token14 <- array_at tokens 14 ;;
   let alpha := strtod env token12 in
   let beta := strtod env token13 in
   let gamma := strtod env token14 in
   let st := update_camera st
     (set_rotation_matrix_ (set_rotation_matrix env alpha beta gamma)) in
   token15 <- array_at tokens 15 ;;
   let st := update_camera st (set_tx_ (strtod env token15)) in
   token16 <- array_at tokens 16 ;;
   let st := update_camera st (set_ty_ (strtod env token16)) in
   token17 <- array_at tokens 17 ;;
   let st := update_camera st (set_tz_ (strtod env token17)) in
   Ok (mkVic3d_State (camera_infos st) (S (current_camera st))
         (xml_img_height st) (xml_img_width st)))%res.

(** The loop over the lines of the file. *)
Fixpoint read_vic3d_lines (st : Vic3d_State) (lines : list (list string))
  : result Vic3d_State :=
  match lines with
  | [] => Ok st
  | tokens :: lines' =>
      (st <- read_vic3d_line st tokens ;; read_vic3d_lines st lines')%res
  end.

(** The loop that constructs the cameras from [camera_infos]. *)
Fixpoint push_back_vic3d (height width : Z) (l : list Camera_Info)
  : M Camera_System unit :=
  match l with
  | [] => ret tt
  | camera_info :: l' =>
      push_back_camera
        (set_image_width_ width (set_image_height_ height camera_info)) ;;;
      push_back_vic3d height width l'
  end.

(** The local variables when the loop starts: [camera_infos(2)], no camera
    read yet, and 0 for the image sizes. *)
Definition vic3d_initial_state : Vic3d_State :=
  mkVic3d_State [Camera_Info_default; Camera_Info_default] 0 0 0.

(** The branch for a file name that has [xml] in it. *)
Definition read_vic3d (lines : list (list string)) : M Camera_System unit :=
  modify (set_sys_type_ VIC3D) ;;;
  st <- lift (read_vic3d_lines vic3d_initial_state lines) ;;
  TEUCHOS_TEST_FOR_EXCEPTION
    ((xml_img_height st <=? 0)%Z || (xml_img_width st <=? 0)%Z) "" ;;;
  push_back_vic3d (xml_img_height st) (xml_img_width st) (camera_infos st) ;;;
  s <- get_state ;;
  TEUCHOS_TEST_FOR_EXCEPTION (negb (length (cameras_ s) =? 2)%nat) "".

(** *** The old text dialect *)

Definition num_values_with_eulers : nat := 24.
Definition num_values_with_R : nat := 30.

(** The first loop over the lines, which runs through the file to
    determine the format: it counts the values. *)
Fixpoint count_values (total_num_values : nat) (lines : list (list string))
  : result nat :=
  match lines with
  | [] => Ok total_num_values
  | tokens :: lines' =>
      match tokens with
      | [] => count_values total_num_values lines'
      | token0 :: _ =>
          if String.eqb token0 "#" then count_values total_num_values lines'
          else if String.eqb token0 "TRANSFORM" then
            Error "Error, custom transforms are no longer supported in the txt calibration file format"
          else count_values (S total_num_values) lines'
      end
  end.

(** The local variables of the second loop over the lines. *)
Record Txt_State : Type := mkTxt_State {
  camera_info_0 : Camera_Info;
  camera_info_1 : Camera_Info;
  ext_values : vec;
  txt_img_height : Z;
  txt_img_width : Z;
  current_line : nat
}.

(** The body of the second loop, for a line that holds a value ([token0]
    is its first token). *)
Definition read_txt_value (total_num_values : nat) (st : Txt_State)
  (token0 : string) : Txt_State :=
  let v := strtod env token0 in
  let n := current_line st in
  if (n <? 8)%nat then
    mkTxt_State (set_intrinsic (nth n param_order_int 0%nat) v (camera_info_0 st))
      (camera_info_1 st) (ext_values st) (txt_img_height st)
      (txt_img_width st) (S n)
  else if (n <? 16)%nat then
    mkTxt_State (camera_info_0 st)
      (set_intrinsic (nth (n - 8) param_order_int 0%nat) v (camera_info_1 st))
      (ext_values st) (txt_img_height st) (txt_img_width st) (S n)
  else if (n <? total_num_values - 2)%nat then
    mkTxt_State (camera_info_0 st) (camera_info_1 st)
      (<[(n - 16)%nat := v]> (ext_values st)) (txt_img_height st)
      (txt_img_width st) (S n)
  else if (n <? total_num_values - 1)%nat then
    mkTxt_State (camera_info_0 st) (camera_info_1 st) (ext_values st)
      (double_to_int v) (txt_img_width st) (S n)
  else
    mkTxt_State (camera_info_0 st) (camera_info_1 st) (ext_values st)
      (txt_img_height st) (double_to_int v) (S n).

(** The assertion in the body of the second loop, [tokens[1] == "#"]
    ("only one entry per line plus comments"), for every line the loop
    handles. It does not read the local variables, so the loop is the
    assertion on every line followed by the assignments to the local
    variables. The other two assertions of the branch cannot fail where
    they stand: [current_line - 16 < ext_values.size()] is tested when
    [current_line < total_num_values - 2] and the vector has
    [total_num_values - 18] entries, and [ext_values.size() >= 12] is
    tested when there are 30 values. *)
Fixpoint read_txt_asserts (lines : list (list string)) : bool :=
  match lines with
  | [] => true
  | tokens :: lines' =>
      match tokens with
      | [] => read_txt_asserts lines'
      | token0 :: rest =>
          if String.eqb token0 "#" then read_txt_asserts lines'
          else
            match rest with
            | [] => read_txt_asserts lines'
            | token1 :: _ => String.eqb token1 "#" && read_txt_asserts lines'
            end
      end
  end.

(** The assignments of the second loop over the lines. *)
Fixpoint read_txt_values (total_num_values : nat) (st : Txt_State)
  (lines : list (list string)) : Txt_State :=
  match lines with
  | [] => st
  | tokens :: lines' =>
      match tokens with
      | [] => read_txt_values total_num_values st lines'
      | token0 :: _ =>
          if String.eqb token0 "#" then read_txt_values total_num_values st lines'
          else read_txt_values total_num_values
                 (read_txt_value total_num_values st token0) lines'
      end
  end.

(** The extrinsics of camera 1, from the values after the intrinsics. *)
Definition set_extrinsics (has_eulers : bool) (ext_values : vec)
  (camera_info_1 : Camera_Info) : Camera_Info :=
  let n := length ext_values in
  let camera_info_1 := set_tx_ (at_ ext_values (n - 3)) camera_info_1 in
  let camera_info_1 := set_ty_ (at_ ext_values (n - 2)) camera_info_1 in
  let camera_info_1 := set_tz_ (at_ ext_values (n - 1)) camera_info_1 in
  if has_eulers then
    set_rotation_matrix_
      (set_rotation_matrix env (at_ ext_values 0) (at_ ext_values 1)
         (at_ ext_values 2)) camera_info_1
  else
    fold_left (fun c f => f c)
      [ set_rotation_entry 0 0 (at_ ext_values 0);
        set_rotation_entry 0 1 (at_ ext_values 1);
        set_rotation_entry 0 2 (at_ ext_values 2);
        set_rotation_entry 1 0 (at_ ext_values 3);
        set_rotation_entry 1 1 (at_ ext_values 4);
        set_rotation_entry 1 2 (at_ ext_values 5);
        set_rotation_entry 2 0 (at_ ext_values 6);
        set_rotation_entry 2 1 (at_ ext_values 7);
        set_rotation_entry 2 2 (at_ ext_values 8) ] camera_info_1.

(** The local variables when the second loop starts: the two cameras of
    the file with their names and the default lens distortion model, the
    vector for the extrinsic values, and -1 for the image sizes. *)
Definition txt_initial_state (total_num_values : nat) : Txt_State :=
  mkTxt_State
    (set_lens_distortion_model_ K1R1_K2R2_K3R3
       (set_id_ "CAMERA 0" Camera_Info_default))
    (set_lens_distortion_model_ K1R1_K2R2_K3R3
       (set_id_ "CAMERA 1" Camera_Info_default))
    (assign (total_num_values - 18) 0%R) (-1) (-1) 0.

(** The two [Camera_Info] handed to the constructor of the cameras. *)
Definition txt_camera_0 (st : Txt_State) : Camera_Info :=
  set_image_width_ (txt_img_width st)
    (set_image_height_ (txt_img_height st) (camera_info_0 st)).

Definition txt_camera_1 (has_eulers : bool) (st : Txt_State) : Camera_Info :=
  set_image_width_ (txt_img_width st)
    (set_image_height_ (txt_img_height st)
       (set_extrinsics has_eulers (ext_values st) (camera_info_1 st))).

(** The branch for a file name that has [txt] in it. *)
Definition read_txt (cal_file : string) (lines : list (list string))
  : M Camera_System unit :=
  modify (set_sys_type_ GENERIC_SYSTEM) ;;;
  (* run through the file to determine the format *)
  total_num_values <- lift (count_values 0 lines) ;;
  TEUCHOS_TEST_FOR_EXCEPTION
    (negb (total_num_values =? num_values_with_eulers)%nat
     && negb (total_num_values =? num_values_with_R)%nat)
    ("Error, invalid number of paramers in txt calibration file." ++ endl ++
     "    This is likely due to the text file format changing to now" ++ endl ++
     "    require the image height and width to be specified in the file"
     ++ cal_file)%string ;;;
  let has_eulers := (total_num_values =? num_values_with_eulers)%nat in
  (* return to start of file *)
  lift (assert_ env (read_txt_asserts lines)) ;;;
  let st :=
    read_txt_values total_num_values (txt_initial_state total_num_values)
      lines in
  TEUCHOS_TEST_FOR_EXCEPTION (txt_img_height st <? 0)%Z "" ;;;
  TEUCHOS_TEST_FOR_EXCEPTION (txt_img_width st <? 0)%Z "" ;;;
  (* create two cameras and push them into the vector *)
  push_back_camera (txt_camera_0 st) ;;;
  push_back_camera (txt_camera_1 has_eulers st).

(** *** [Camera_System::read_calibration_file] *)

Definition xml : string := "xml".
Definition txt : string := "txt".

Definition read_calibration_file (f : Calibration_File) : M Camera_System unit :=
  match teuchos_xml f with
  | Some sys_params => read_dice_xml sys_params
  | None =>
      (* must be an xml file from VIC3d or text file *)
      TEUCHOS_TEST_FOR_EXCEPTION (negb (good f))
        ("Error, the calibration file does not exist or is corrupt: "
         ++ cal_file f)%string ;;;
      if found xml (cal_file f) then read_vic3d (token_lines f)
      else if found txt (cal_file f) then read_txt (cal_file f) (token_lines f)
      else throw ("Error, unrecognized calibration parameters file format: "
                  ++ cal_file f)%string
  end.

(** [Camera_System::Camera_System(const std::string & param_file_name)] *)
Definition Camera_System_from_file (param_file_name : Calibration_File)
  : result Camera_System :=
  match read_calibration_file param_file_name Camera_System_new with
  | (Ok _, s) => Ok s
  | (Error e, _) => Error e
  end.

End Reader.

(** ** Parts of the reader by name *)

(** The name under which the loop over the cameras of the canonical
    dialect looks up camera [i]: [camera_sublist_id.str()]. *)
Definition camera_sublist_id (i : nat) : string :=
  ("CAMERA " ++ string_of_size_t i ++ endl)%string.

(** What the loop over the cameras leaves of the object: cameras that the
    constructor of [DICe::Camera] accepted are added at the end of
    [cameras_], the other members stay. *)
Definition only_cameras_added (env : Env) (s s' : Camera_System) : Prop :=
  s' = set_cameras_ (cameras_ s') s
  /\ exists added, cameras_ s' = cameras_ s ++ added
       /\ Forall (fun c => Camera_check env c = Ok tt) added.

(** The last two blocks of the branch for the canonical dialect, which
    read the transforms the user supplies. *)
Definition read_user_transforms (env : Env) (sys_params : ParameterList)
  : M Camera_System unit :=
  ((if isParameter (user_6_param_transform env) sys_params then
      modify (set_has_6_transform_ true) ;;;
      param_text <- lift (get_string (user_6_param_transform env) sys_params) ;;
      tArray <- lift (fromStringToArray_scalar env param_text) ;;
      lift (assert_ env (length tArray =? 6)%nat) ;;;
      copy_6x1 tArray (seq 0 6)
    else ret tt) ;;;
   if isSublist (user_4x4_param_transform env) sys_params then
     modify (set_has_4x4_transform_ true) ;;;
     camRow <- lift (sublist (user_4x4_param_transform env) sys_params) ;;
     read_4x4_rows env camRow (seq 0 4)
   else ret tt)%exn.

(** ** The calibration file writer *)

(** The calls the writer makes to the XML utilities of DICe
    ([DICe_XMLUtils.h], which is not among the sources), in program order.
    Every call is made with the file name the writer was given and with
    [write_to_console] false; the two are not recorded. *)
Inductive XML_Call : Type :=
| initialize_xml_file
| write_xml_comment (comment : string)
| write_xml_bool_param (name value : string)
| write_xml_string_param (name value : string)
| write_xml_real_param (name value : string)
| write_xml_size_param (name value : string)
| write_xml_param_list_open (name : string)
| write_xml_param_list_close
| finalize_xml_file.

(** What the writer takes from headers that are not among the sources: the
    two [to_string] functions of the enumerations, the names that
    [to_string] gives the values 1 to [MAX_SYSTEM_TYPE_3D - 1] of
    [System_Type_3D], and the text [std::stringstream] produces for a
    [scalar_t]. *)
Record Printer : Type := mkPrinter {
  to_string_System_Type_3D : System_Type_3D -> string;
  System_Type_3D_names : list string;
  to_string_Lens_Distortion_Model : Lens_Distortion_Model -> string;
  string_of_scalar_t : R -> string
}.

Section Writer.
Variable env : Env.
Variable printer : Printer.
Local Open Scope string_scope.

(** [valid_fields << " " << name] for every name of the list. *)
Definition valid_fields (title : string) (names : list string) : string :=
  fold_left (fun text name => text ++ " " ++ name) names title.

(** The header of the file: the comments and the two parameters that come
    before the cameras. The text about the extrinsic parameters that the
    source assembles in [valid_fields] after the comments on the rotations
    is never handed to [write_xml_comment], so no call stands for it. *)
Definition header_calls (sys_type : System_Type_3D) : list XML_Call :=
  [ write_xml_comment "DICe formatted calibration file";
    write_xml_comment
      ("DICe_XML_Calibration_File parameter with a value of true "
       ++ "denotes that this file is a DICe XML formatted calibration file");
    write_xml_bool_param (DICe_XML_Calibration_File env) "true";
    (* system type *)
    write_xml_comment
      (valid_fields "type of 3D system valid field values are: "
         (System_Type_3D_names printer));
    write_xml_string_param (system_type_3D env)
      (to_string_System_Type_3D printer sys_type);
    (* camera intrinsic parameters *)
    write_xml_comment
      "camera intrinsic parameters (zero valued parameters don't need to be specified)";
    write_xml_comment
      "the file supports up to (max_num_cameras_allowed_) cameras, 0...max_num";
    write_xml_comment "each camera is a seperate sublist of parameters";
    write_xml_comment
      "the sublist must be named CAMERA <#> with # the integer id of the camera starting at 0";
    write_xml_comment
      (valid_fields "valid camera intrinsic parameter field names are: "
         (map Cam_Intrinsic_Param_to_string (seq 0 MAX_CAM_INTRINSIC_PARAM)));
    write_xml_comment
      "CX,CY-image center (pix), FX,FY-pin hole distances (pix), FS-skew (deg)";
    write_xml_comment
      "K1-K6-lens distortion coefficients, P1-P2-tangential distortion(openCV), S1-S4 thin prism distortion(openCV), T1,T2-Scheimpfug correction (openCV)";
    write_xml_comment
      "be aware that openCV gives the values in the following order: (K1,K2,P1,P2[,K3[,K4,K5,K6[,S1,S2,S3,S4[,TX,TY]]]])";
    write_xml_comment "valid values for the LENS_DISTORTION_MODEL are: ";
    write_xml_comment "NONE no distortion model";
    write_xml_comment "OPENCV_DIS uses the model defined in openCV 3.4.1";
    write_xml_comment "VIC3D_DIS uses the model defined for VIC3D";
    write_xml_comment "K1R1_K2R2_K3R3 -> K1*R + K2*R^2 + K3*R^3";
    write_xml_comment "K1R2_K2R4_K3R6 -> K1*R^2 + K2*R^4 + K3*R^6";
    write_xml_comment "K1R3_K2R5_K3R7 -> K1*R^3 + K2*R^5 + K3*R^7";
    (* extrinsic parameters *)
    write_xml_comment
      "camera extrinsic parameters (zero valued parameters don't need to be specified)";
    write_xml_comment
      "extrinsic translations TX TY and TZ can be specified as separate parameters";
    write_xml_comment
      "extrinsic rotations can be specified through a rotation matrix R, or the three euler angles, but not both";
    write_xml_comment
      "if no matrix or euler angles are given the rotation matrix is set to the identity matrix";
    write_xml_comment "additional camera fields:";
    write_xml_comment
      "CAMERA_ID: unique camera descripter, if not supplied CAMERA {#} is used";
    write_xml_comment "IMAGE_HEIGHT_WIDTH {h, w}";
    write_xml_comment "PIXEL_DEPTH";
    write_xml_comment "LENS";
    write_xml_comment "COMMENTS";
    write_xml_comment
      "any parameter with a value of 0 may simply be omitted from the calibration file" ].

(** [if (x != 0) write_xml_real_param(cal_file, name, param_val.str(), false)] *)
Definition real_param_calls (name : string) (x : R) : list XML_Call :=
  if Req_dec_T x 0 then []
  else [write_xml_real_param name (string_of_scalar_t printer x)].

(** One pass of the loop over the rows of a matrix with [n + 1] columns:
    the row as a string parameter, then the comment for that row. *)
Definition row_calls (m : Matrix) (n : nat) (row_comments : list string)
  (i : nat) : list XML_Call :=
  [ write_xml_string_param ("ROW " ++ string_of_size_t i)
      ("{ "
       ++ fold_left (fun text j =>
            text ++ string_of_scalar_t printer (mat_at m i j) ++ ", ")
            (seq 0 n) ""
       ++ string_of_scalar_t printer (mat_at m i n) ++ " }") ]
  ++ match nth_error row_comments i with
     | Some comment => [write_xml_comment comment]
     | None => []
     end.

(** The body of the loop over the cameras. *)
Definition camera_calls (camera_index : nat) (camera : Camera_Info)
  : list XML_Call :=
  [ write_xml_param_list_open ("CAMERA " ++ string_of_size_t camera_index);
    write_xml_string_param "CAMERA_ID" (id_ camera) ]
  ++ flat_map (fun j =>
       real_param_calls (Cam_Intrinsic_Param_to_string j)
         (at_ (intrinsics_ camera) j))
       (seq 0 MAX_CAM_INTRINSIC_PARAM)
  ++ [ write_xml_string_param "LENS_DISTORTION_MODEL"
         (to_string_Lens_Distortion_Model printer
            (lens_distortion_model_ camera)) ]
  ++ real_param_calls "TX" (tx_ camera)
  ++ real_param_calls "TY" (ty_ camera)
  ++ real_param_calls "TZ" (tz_ camera)
  (* always write out the rotation matrix (euler angles aren't saved) *)
  ++ [ write_xml_comment
         "3x3 camera rotation matrix (world to cam transformation)";
       write_xml_comment
         "this is a 3x3 matrix that combined with TX, TY and TZ transform world coodinates to this camera's coordinates";
       write_xml_param_list_open (rotation_3x3_matrix env) ]
  ++ flat_map (row_calls (rotation_matrix_ camera) 2
                 ["R11 R12 R13"; "R21 R22 R23"; "R31 R32 R33"]) (seq 0 3)
  ++ [ write_xml_param_list_close ]
  ++ (if negb (image_width_ camera =? 0)%Z
         && negb (image_height_ camera =? 0)%Z
      then [ write_xml_string_param "IMAGE_HEIGHT_WIDTH"
               ("{ " ++ string_of_int_t (image_height_ camera) ++ ", "
                ++ string_of_int_t (image_width_ camera) ++ " }") ]
      else [])
  ++ (if negb (pixel_depth_ camera =? 0)%Z
      then [ write_xml_size_param "PIXEL_DEPTH"
               (string_of_int_t (pixel_depth_ camera)) ]
      else [])
  ++ (if negb (String.eqb (lens_ camera) "")
      then [ write_xml_string_param "LENS" (lens_ camera) ]
      else [])
  ++ (if negb (String.eqb (comments_ camera) "")
      then [ write_xml_string_param "COMMENTS" (comments_ camera) ]
      else [])
  ++ [ write_xml_param_list_close ].

(** The loop over the cameras, from [camera_index] on. *)
Fixpoint cameras_calls (camera_index : nat) (cameras : list Camera_Info)
  : list XML_Call :=
  match cameras with
  | [] => []
  | camera :: cameras' =>
      camera_calls camera_index camera
      ++ cameras_calls (S camera_index) cameras'
  end.

(** The two blocks for the transforms the user supplied. *)
Definition user_6_param_calls (s : Camera_System) : list XML_Call :=
  if has_6_transform_ s then
    [ write_xml_comment "user supplied 6 parameter transform";
      write_xml_comment
        "this is a user supplied transform with 6 parameters seperate from the transforms determined by the camera parameters";
      write_xml_comment
        "can used for non-projection transformations between images - optional";
      write_xml_string_param (user_6_param_transform env)
        ("{ "
         ++ fold_left (fun text j =>
              text ++ string_of_scalar_t printer (at_ (user_6x1_trans_ s) j)
              ++ ", ") (seq 0 5) ""
         ++ string_of_scalar_t printer (at_ (user_6x1_trans_ s) 5) ++ " }") ]
  else [].

Definition user_4x4_calls (s : Camera_System) : list XML_Call :=
  if has_4x4_transform_ s then
    [ write_xml_comment "user supplied 4x4 parameter transform";
      write_xml_comment
        "this is a user supplied 4x4 array transform seperate from the transforms determined by the camera parameters";
      write_xml_comment
        "typically includes a combined rotation and translation array  - optional";
      write_xml_param_list_open (user_4x4_param_transform env) ]
    ++ flat_map (row_calls (user_4x4_trans_ s) 3
                   ["R11 R12 R13 TX"; "R21 R22 R23 TY"; "R31 R32 R33 TZ";
                    "0   0   0   1"]) (seq 0 4)
    ++ [ write_xml_param_list_close ]
  else [].

(** [Camera_System::write_calibration_file]: the calls it makes on the file,
    or the message of the exception it throws before it makes any. The
    object is not written to. *)
Definition write_calibration_file (s : Camera_System)
  : result (list XML_Call) :=
  match sys_type_ s with
  | UNKNOWN_SYSTEM =>
      Error "write_calibration_file() called for unknown system type"
  | _ =>
      Ok ([ initialize_xml_file ]  (* clear the files if they exist *)
          ++ header_calls (sys_type_ s)
          ++ cameras_calls 0 (cameras_ s)
          ++ user_6_param_calls s
          ++ user_4x4_calls s
          ++ [ finalize_xml_file ])%list
  end.

End Writer.

(** *** What a trace of calls describes *)

(** The nesting depth after a trace of calls that starts at depth [d];
    [None] when a list is closed that was not opened, or when the depth
    goes above [limit]. *)
Fixpoint list_depth (limit : nat) (calls : list XML_Call) (d : nat)
  : option nat :=
  match calls with
  | [] => Some d
  | write_xml_param_list_open _ :: calls' =>
      if S d <=? limit then list_depth limit calls' (S d) else None
  | write_xml_param_list_close :: calls' =>
      match d with
      | 0 => None
      | S d' => list_depth limit calls' d'
      end
  | _ :: calls' => list_depth limit calls' d
  end.

(** A call that writes a comment or a parameter. *)
Definition plain_call (c : XML_Call) : Prop :=
  match c with
  | write_xml_comment _ | write_xml_bool_param _ _
  | write_xml_string_param _ _ | write_xml_real_param _ _
  | write_xml_size_param _ _ => True
  | _ => False
  end.

(** The names of the parameters and of the parameter lists that a trace,
    started at depth [d], writes at depth 0, in the order of the calls. *)
Fixpoint top_level_names (calls : list XML_Call) (d : nat) : list string :=
  match calls with
  | [] => []
  | write_xml_param_list_open name :: calls' =>
      (if d =? 0 then [name] else []) ++ top_level_names calls' (S d)
  | write_xml_param_list_close :: calls' => top_level_names calls' (pred d)
  | write_xml_bool_param name _ :: calls'
  | write_xml_string_param name _ :: calls'
  | write_xml_real_param name _ :: calls'
  | write_xml_size_param name _ :: calls' =>
      (if d =? 0 then [name] else []) ++ top_level_names calls' d
  | _ :: calls' => top_level_names calls' d
  end.

(** The printer of the examples: a scalar that is an integer is printed
    as that integer, any other as [?]. *)
Definition example_printer : Printer :=
  {| to_string_System_Type_3D := fun t =>
       match t with
       | UNKNOWN_SYSTEM => "UNKNOWN_SYSTEM"
       | GENERIC_SYSTEM => "GENERIC_SYSTEM"
       | VIC3D => "VIC3D"
       | CANONICAL_SUBTYPE _ => "OPENCV"
       end%string;
     System_Type_3D_names := ["GENERIC_SYSTEM"; "OPENCV"; "VIC3D"]%string;
     to_string_Lens_Distortion_Model := fun m =>
       match m with
       | NO_LENS_DISTORTION => "NONE"
       | OPENCV_LENS_DISTORTION => "OPENCV_DIS"
       | VIC3D_LENS_DISTORTION => "VIC3D_DIS"
       | K1R1_K2R2_K3R3 => "K1R1_K2R2_K3R3"
       | K1R2_K2R4_K3R6 => "K1R2_K2R4_K3R6"
       | K1R3_K2R5_K3R7 => "K1R3_K2R5_K3R7"
       end%string;
     string_of_scalar_t := fun x =>
       if Req_dec_T x (IZR (Int_part x)) then string_of_int_t (Int_part x)
       else "?"%string |}.

(** ** The rotation and its partials as the specification writes them *)

Section ClosedForm.
Local Open Scope R_scope.

(** [R = Rz(gamma) Ry(beta) Rx(alpha)], written out. *)
Definition R_closed (alpha beta gamma : R) : Matrix :=
  let ca := cos alpha in let sa := sin alpha in
  let cb := cos beta in let sb := sin beta in
  let cg := cos gamma in let sg := sin gamma in
  [ [ cb * cg; sa * sb * cg - ca * sg; ca * sb * cg + sa * sg ];
    [ cb * sg; sa * sb * sg + ca * cg; ca * sb * sg - sa * cg ];
    [ - sb;    sa * cb;                ca * cb ] ].

Definition Rx (alpha : R) : Matrix :=
  [ [1; 0; 0]; [0; cos alpha; - sin alpha]; [0; sin alpha; cos alpha] ].

Definition Ry (beta : R) : Matrix :=
  [ [cos beta; 0; sin beta]; [0; 1; 0]; [- sin beta; 0; cos beta] ].

Definition Rz (gamma : R) : Matrix :=
  [ [cos gamma; - sin gamma; 0]; [sin gamma; cos gamma; 0]; [0; 0; 1] ].

Definition mat_mul_3 (a b : Matrix) : Matrix :=
  map (fun i =>
    map (fun j =>
      mat_at a i 0 * mat_at b 0 j + mat_at a i 1 * mat_at b 1 j
      + mat_at a i 2 * mat_at b 2 j) (seq 0 3)) (seq 0 3).

(** The elementwise derivative of [R] with respect to its angle number [j]
    (0 for alpha, 1 for beta, 2 for gamma). *)
Definition dR_closed (j : nat) (alpha beta gamma : R) : Matrix :=
  let ca := cos alpha in let sa := sin alpha in
  let cb := cos beta in let sb := sin beta in
  let cg := cos gamma in let sg := sin gamma in
  match j with
  | 0%nat =>
      [ [ 0; ca * sb * cg + sa * sg; - sa * sb * cg + ca * sg ];
        [ 0; ca * sb * sg - sa * cg; - sa * sb * sg - ca * cg ];
        [ 0; ca * cb;                - sa * cb ] ]
  | 1%nat =>
      [ [ - sb * cg; sa * cb * cg; ca * cb * cg ];
        [ - sb * sg; sa * cb * sg; ca * cb * sg ];
        [ - cb;      - sa * sb;    - ca * sb ] ]
  | _ =>
      [ [ - cb * sg; - sa * sb * sg - ca * cg; - ca * sb * sg + sa * cg ];
        [ cb * cg;   sa * sb * cg - ca * sg;   ca * sb * cg + sa * sg ];
        [ 0;         0;                        0 ] ]
  end.

(** Row [i] of [m (x, y, z)]. *)
Definition mat_vec_3 (m : Matrix) (i : nat) (x y z : R) : R :=
  mat_at m i 0 * x + mat_at m i 1 * y + mat_at m i 2 * z.

(** Coordinate [k] (0, 1 or 2) of [R (x, y, z) + T] for the parameter vector
    [p = [alpha, beta, gamma, tx, ty, tz]]. *)
Definition rigid_body_target (p : vec) (k : nat) (x y z : R) : R :=
  mat_vec_3 (R_closed (at_ p ANGLE_X) (at_ p ANGLE_Y) (at_ p ANGLE_Z)) k x y z
  + at_ p (k + 3).

(** The same coordinate as a function of parameter [j], the other five
    being those of [p]. *)
Definition rigid_body_target_in (p : vec) (j k : nat) (x y z : R) : R -> R :=
  fun a => rigid_body_target (<[j := a]> p) k x y z.

(** The value the loops of [rot_trans_3D] give an entry, for a vector [c] of
    coefficients: with the translation [c[3]] for a coordinate, without it
    for a partial. *)
Definition linear (c : vec) (sx sy sz : vec) (i : nat) : R :=
  at_ c 0 * at_ sx i + at_ c 1 * at_ sy i + at_ c 2 * at_ sz i.

Definition affine (c : vec) (sx sy sz : vec) (i : nat) : R :=
  linear c sx sy sz i + at_ c 3.

(** A table of partials for the six rigid-body parameters and [n] points. *)
Definition table_of (n : nat) (m : rows) : Prop :=
  length m = 6%nat /\ Forall (fun r : vec => length r = n) m.

(** Coordinate [k] of the transformed points of a batch. *)
Definition rigid_body_points (p : vec) (k : nat) (sx sy sz : vec) : vec :=
  map (fun i => rigid_body_target p k (at_ sx i) (at_ sy i) (at_ sz i))
    (seq 0 (length sx)).

(** The partial of coordinate [k] of the target with respect to parameter
    [j]: the derivative of [R] applied to the point for an angle, a unit
    vector for a translation. *)
Definition rigid_body_partial (p : vec) (j k : nat) (x y z : R) : R :=
  if (j <? 3)%nat
  then mat_vec_3 (dR_closed j (at_ p ANGLE_X) (at_ p ANGLE_Y) (at_ p ANGLE_Z))
         k x y z
  else if (j =? k + 3)%nat then 1 else 0.

(** The table of the partials of coordinate [k] for a batch: row [j] holds
    the partials with respect to parameter [j]. *)
Definition rigid_body_partials (p : vec) (k : nat) (sx sy sz : vec) : rows :=
  map (fun j =>
    map (fun i => rigid_body_partial p j k (at_ sx i) (at_ sy i) (at_ sz i))
      (seq 0 (length sx))) (seq 0 6).

(** Everything the transform writes for a batch; the tables are written
    only when partials are requested (a table was passed). *)
Definition rigid_body_targets (p : vec) (sx sy sz : vec) (dx dy dz : rows)
  : Targets_3D :=
  if (0 <? length dx)%nat then
    mkTargets_3D (rigid_body_points p 0 sx sy sz) (rigid_body_points p 1 sx sy sz)
      (rigid_body_points p 2 sx sy sz) (rigid_body_partials p 0 sx sy sz)
      (rigid_body_partials p 1 sx sy sz) (rigid_body_partials p 2 sx sy sz)
  else
    mkTargets_3D (rigid_body_points p 0 sx sy sz) (rigid_body_points p 1 sx sy sz)
      (rigid_body_points p 2 sx sy sz) dx dy dz.

End ClosedForm.

(** ** The state of the coefficient members *)

(** The coefficient members once [initialize_rot_trans_3D] has allocated
    them: three vectors of four entries and three tables whose rows have
    four entries. *)
Definition allocated (s : Camera_System) : Prop :=
  length (rot_trans_3D_x_ s) = 4 /\ length (rot_trans_3D_y_ s) = 4 /\
  length (rot_trans_3D_z_ s) = 4 /\
  Forall (fun r : vec => length r = 4) (rot_trans_3D_dx_ s) /\
  Forall (fun r : vec => length r = 4) (rot_trans_3D_dy_ s) /\
  Forall (fun r : vec => length r = 4) (rot_trans_3D_dz_ s).

(** The coefficient members of an object that only its constructor and
    [initialize_rot_trans_3D] have written: the tables have six rows, and
    when [rot_trans_3D_x_] has its four entries everything is allocated. *)
Definition scratch_ok (s : Camera_System) : Prop :=
  length (rot_trans_3D_dx_ s) = 6 /\ length (rot_trans_3D_dy_ s) = 6 /\
  length (rot_trans_3D_dz_ s) = 6 /\
  (length (rot_trans_3D_x_ s) = 4 -> allocated s).

(** Two objects that agree on every member but the coefficients. *)
Definition same_cameras (s s' : Camera_System) : Prop :=
  cameras_ s' = cameras_ s /\
  max_num_cameras_allowed_ s' = max_num_cameras_allowed_ s /\
  user_6x1_trans_ s' = user_6x1_trans_ s /\
  user_4x4_trans_ s' = user_4x4_trans_ s /\
  sys_type_ s' = sys_type_ s /\
  has_6_transform_ s' = has_6_transform_ s /\
  has_4x4_transform_ s' = has_4x4_transform_ s.

(** A computation that leaves the object as it found it, whether it
    returns or throws. *)
Definition leaves_state {S A} (c : M S A) : Prop := forall s, snd (c s) = s.

(** A computation that changes the coefficient members at most. *)
Definition keeps_cameras {A} (c : M Camera_System A) : Prop :=
  forall s, same_cameras s (snd (c s)).

(** ** An environment and files for the worked examples *)

(** In the examples the parameters have the names of the identifiers that
    hold them, every number is an integer literal (so [strtod] and
    [Teuchos::fromStringToArray] read the integer it starts with), the
    assertions are checked, a camera is
    accepted when its image height and width are positive, and the Euler
    angles are turned into the rotation of the specification. *)
Fixpoint remove_braces (s : string) : string :=
  match s with
  | EmptyString => EmptyString
  | String c s' =>
      if (Ascii.eqb c "{" || Ascii.eqb c "}")%bool then remove_braces s'
      else String c (remove_braces s')
  end.

Fixpoint split_commas (cur : string) (s : string) : list string :=
  match s with
  | EmptyString => [cur]
  | String c s' =>
      if Ascii.eqb c "," then cur :: split_commas EmptyString s'
      else split_commas (cur ++ String c EmptyString)%string s'
  end.

Definition example_array (s : string) : list Z :=
  map leading_number (split_commas EmptyString (remove_braces s)).

Definition example_lens_distortion_model (s : string) : Lens_Distortion_Model :=
  if String.eqb s "OPENCV_LENS_DISTORTION" then OPENCV_LENS_DISTORTION
  else if String.eqb s "VIC3D_LENS_DISTORTION" then VIC3D_LENS_DISTORTION
  else if String.eqb s "K1R1_K2R2_K3R3" then K1R1_K2R2_K3R3
  else if String.eqb s "K1R2_K2R4_K3R6" then K1R2_K2R4_K3R6
  else if String.eqb s "K1R3_K2R5_K3R7" then K1R3_K2R5_K3R7
  else NO_LENS_DISTORTION.

Definition example_system_type_3d (s : string) : System_Type_3D :=
  if String.eqb s "GENERIC_SYSTEM" then GENERIC_SYSTEM
  else if String.eqb s "VIC3D" then VIC3D
  else if String.eqb s "UNKNOWN_SYSTEM" then UNKNOWN_SYSTEM
  else CANONICAL_SUBTYPE 0.

Definition example_Camera_check (c : Camera_Info) : result unit :=
  if ((0 <? image_height_ c) && (0 <? image_width_ c))%Z then Ok tt
  else Error "invalid camera".

Definition example_env : Env :=
  {| DICe_XML_Calibration_File := "DICe_XML_Calibration_File";
     system_type_3D := "system_type_3D";
     rotation_3x3_matrix := "rotation_3x3_matrix";
     user_6_param_transform := "user_6_param_transform";
     user_4x4_param_transform := "user_4x4_param_transform";
     string_to_system_type_3d := example_system_type_3d;
     string_to_lens_distortion_model := example_lens_distortion_model;
     fromStringToArray_int := fun s => Ok (example_array s);
     fromStringToArray_scalar := fun s => Ok (map IZR (example_array s));
     strtod := fun s => IZR (leading_number s);
     set_rotation_matrix := R_closed;
     Camera_check := example_Camera_check;
     NDEBUG := false |}.

(** ** The files of the legacy dialects, line by line *)

(** The first tokens of the lines that hold a value in the text dialect:
    the lines that are not empty and do not start with the comment token. *)
Fixpoint value_tokens (lines : list (list string)) : list string :=
  match lines with
  | [] => []
  | [] :: lines' => value_tokens lines'
  | (token0 :: _) :: lines' =>
      if String.eqb token0 "#" then value_tokens lines'
      else token0 :: value_tokens lines'
  end.

(** A line whose first token is [name]. *)
Definition begins_with (name : string) (tokens : list string) : bool :=
  match tokens with
  | token0 :: _ => String.eqb token0 name
  | [] => false
  end.

(** What an assignment to a field of the current camera of the VIC3D loop
    leaves alone: the number of the current camera, the image sizes and
    the number of cameras of the vector. *)
Definition same_counters (st st' : Vic3d_State) : Prop :=
  current_camera st' = current_camera st
  /\ xml_img_height st' = xml_img_height st
  /\ xml_img_width st' = xml_img_width st
  /\ length (camera_infos st') = length (camera_infos st).

(** A text file in which no line begins with TRANSFORM. *)
Definition no_TRANSFORM (lines : list (list string)) : bool :=
  forallb (fun tokens => negb (begins_with "TRANSFORM" tokens)) lines.



(** A well-formed [CAMERA] record of the VIC3D dialect: more than 18
    tokens, a camera number below 10 and the marker [ORIENTATION] after
    the eight intrinsic values. *)
Definition camera_record (tokens : list string) : bool :=
  begins_with "CAMERA" tokens && (18 <? length tokens)%nat
  && (atoi (nth 2 tokens EmptyString) <? 10)%Z
  && String.eqb (nth 11 tokens EmptyString) "ORIENTATION".

(** A line of a VIC3D file that begins with [CAMERA] and is not a
    well-formed record: 18 tokens or fewer, a camera number of 10 or more,
    or no [ORIENTATION] marker after the eight intrinsic values. *)
Definition camera_record_malformed (tokens : list string) : bool :=
  begins_with "CAMERA" tokens && negb (camera_record tokens).



Definition count_records (name : string) (lines : list (list string)) : nat :=
  length (List.filter (begins_with name) lines).

(** A line of a VIC3D file on which no subscript of the loop leaves the
    token vector. A [POLYGONMASK] line has a second token; a fourth one
    when the second is [WIDTH=]; and a fifth one when the fourth is
    [HEIGHT=] as well. A [CAMERA] line has a third token (the tokens after
    it are read once the line is known to have more than 18). *)
Definition vic3d_line_in_range (tokens : list string) : bool :=
  if begins_with "POLYGONMASK" tokens then
    match tokens with
    | _ :: t1 :: rest =>
        negb (String.eqb t1 "WIDTH=")
        || match rest with
           | _ :: t3 :: rest' =>
               negb (String.eqb t3 "HEIGHT=") || (1 <=? length rest')%nat
           | _ => false
           end
    | _ => false
    end
  else if begins_with "CAMERA" tokens then (3 <=? length tokens)%nat
  else true.

(** The image width and height a VIC3D file declares: the third and the
    fifth token of its last [POLYGONMASK] line, as [atoi] reads them;
    [sizes] when it has no such line. *)
Definition vic3d_declared_sizes (lines : list (list string)) (sizes : Z * Z)
  : Z * Z :=
  fold_left (fun sizes tokens =>
    if begins_with "POLYGONMASK" tokens
    then (atoi (nth 2 tokens EmptyString), atoi (nth 4 tokens EmptyString))
    else sizes) lines sizes.

(** ** Well-sized arguments of the projection *)

(** The tables of partials of a projection for [n] points: [num_params]
    rows of [n] entries each. *)
Definition tables_well_sized (n num_params : nat) (dx dy : rows) : Prop :=
  length dx = num_params /\ length dy = num_params /\
  Forall (fun r : vec => length r = n) dx /\
  Forall (fun r : vec => length r = n) dy.

(** The arguments of a projection that the contract admits: three optical
    parameters, coordinate vectors of one length, no rigid-body parameters
    or six of them and, when partials are requested, tables for three
    (optical only) or six (with the rigid body) parameters. *)
Definition well_sized (img_source_x img_source_y img_target_x img_target_y
  params : vec) (img_target_dx img_target_dy : rows) (rigid_body_params : vec)
  : Prop :=
  let n := length img_source_x in
  length params = 3 /\
  length img_source_y = n /\ length img_target_x = n /\
  length img_target_y = n /\
  (rigid_body_params = [] \/ length rigid_body_params = 6) /\
  (img_target_dx = [] \/
   tables_well_sized n (if (0 <? length rigid_body_params) then 6 else 3)
     img_target_dx img_target_dy).

(** ** A camera and a system for the worked examples *)

Section Examples.
Local Open Scope R_scope.

(** The optics of the examples: the image, the sensor, the camera frame and
    the world frame coincide in x and y; the depth of every point is the
    first optical parameter, so the partial of z with respect to that
    parameter is 1 and every other optical partial is 0. *)
Definition example_optics : Optics :=
  {| image_to_sensor := fun _ x y => (x, y);
     sensor_to_cam := fun _ x y params =>
       (x, y, replicate (length x) (at_ params 0));
     sensor_to_cam_d := fun _ x y params =>
       ( (x, y, replicate (length x) (at_ params 0)),
         ( assign_rows 3 (length x) 0,
           assign_rows 3 (length x) 0,
           [ replicate (length x) 1; replicate (length x) 0;
             replicate (length x) 0 ] ) );
     cam_to_world := fun _ x y z => (x, y, z);
     cam_to_world_d := fun _ x y z dx dy dz => ((x, y, z), (dx, dy, dz));
     world_to_cam := fun _ x y z => (x, y, z);
     world_to_cam_d := fun _ x y z dx dy dz => ((x, y, z), (dx, dy, dz));
     cam_to_sensor := fun _ x y z => (x, y);
     cam_to_sensor_d := fun _ x y z dx dy dz => ((x, y), (dx, dy));
     sensor_to_image := fun _ x y => (x, y);
     sensor_to_image_d := fun _ x y dx dy => ((x, y), (dx, dy)) |}.

(** A system of two cameras, as the constructor and the reader leave it. *)
Definition example_camera : Camera_Info :=
  set_image_width_ 640 (set_image_height_ 480 Camera_Info_default).

Definition example_system : Camera_System :=
  set_cameras_ [example_camera; example_camera] Camera_System_new.

End Examples.

(** ** Calibration files for the worked examples *)

Section ExampleFiles.
Local Open Scope string_scope.

(** A camera group with the two required entries and nothing else, ... *)
Definition plain_camera_group : list (string * ParameterEntry) :=
  [ ("IMAGE_HEIGHT_WIDTH", PString "{ 480, 640 }");
    ("LENS_DISTORTION_MODEL", PString "K1R1_K2R2_K3R3") ].

(** ... and one that also gives its rotation as the three rows of a
    [rotation_3x3_matrix] sublist, the way the writer emits it, and no
    Euler angle. *)
Definition matrix_camera_group : list (string * ParameterEntry) :=
  (plain_camera_group ++
   [ ("rotation_3x3_matrix",
      PSublist [ ("ROW 0", PString "{ 1, 0, 0 }");
                 ("ROW 1", PString "{ 0, 1, 0 }");
                 ("ROW 2", PString "{ 0, 0, 1 }") ]) ])%list.

(** A file in the canonical dialect with the given camera groups. *)
Definition canonical_file (groups : list (string * ParameterEntry))
  : Calibration_File :=
  {| cal_file := "cal.xml";
     teuchos_xml :=
       Some ([ ("DICe_XML_Calibration_File", PBool true);
               ("system_type_3D", PString "GENERIC_SYSTEM") ] ++ groups)%list;
     good := true;
     token_lines := [] |}.

(** [k] plain camera groups, numbered from 0 without gaps, under the names
    the reader looks up ([CAMERA i] followed by the end of line that the
    reader appends) ... *)
Definition groups_as_read (k : nat) : list (string * ParameterEntry) :=
  map (fun i => ("CAMERA " ++ string_of_size_t i ++ endl,
                 PSublist plain_camera_group)) (seq 0 k).

(** ... and under the names the writer emits ([CAMERA i]). *)
Definition groups_as_written (k : nat) : list (string * ParameterEntry) :=
  map (fun i => ("CAMERA " ++ string_of_size_t i,
                 PSublist plain_camera_group)) (seq 0 k).

(** A file in the text dialect with 24 values, the height (the value
    before the last) negative. *)
Definition negative_height_file : Calibration_File :=
  {| cal_file := "cal.txt";
     teuchos_xml := None;
     good := true;
     token_lines := (replicate 22 ["1"] ++ [["-1"]; ["640"]])%list |}.

(** A file in the text dialect with 24 values, a comment and an empty
    line. *)
Definition euler_text_file : Calibration_File :=
  {| cal_file := "cal.txt";
     teuchos_xml := None;
     good := true;
     token_lines :=
       ([["#"; "CALIBRATION"]] ++ replicate 22 ["1"]
        ++ [[]; ["480"]; ["640"]])%list |}.

(** A file in the text dialect with 30 values: the rotation of camera 1 is
    given by its nine entries. *)
Definition matrix_text_file : Calibration_File :=
  {| cal_file := "cal.txt";
     teuchos_xml := None;
     good := true;
     token_lines :=
       (replicate 16 ["2"]
        ++ [["1"]; ["0"]; ["0"]; ["0"]; ["1"]; ["0"]; ["0"]; ["0"]; ["1"];
            ["10"]; ["20"]; ["30"]; ["480"]; ["640"]])%list |}.

(** A [CAMERA] record of the VIC3D dialect for camera [n]. *)
Definition vic3d_camera_line (n : string) : list string :=
  [ "CAMERA"; "ID="; n; "1"; "2"; "3"; "4"; "5"; "6"; "7"; "8";
    "ORIENTATION"; "0"; "0"; "0"; "10"; "20"; "30"; "/CAMERA" ].

(** A file in the VIC3D dialect: the image size and two cameras. *)
Definition vic3d_file : Calibration_File :=
  {| cal_file := "cal.xml";
     teuchos_xml := None;
     good := true;
     token_lines :=
       [ ["?XML"; "VERSION="; "1.0"];
         ["POLYGONMASK"; "WIDTH="; "1000"; "HEIGHT="; "500"];
         vic3d_camera_line "0";
         [];
         vic3d_camera_line "1" ] |}.

End ExampleFiles.

(** * Properties *)

(** ** Loops that write a vector entry by entry *)

Section ListLoops.
Context {A : Type}.

Lemma fold_insert_seq (f : nat -> A) (n : nat) (t : list A) :
  n <= length t ->
  fold_left (fun t i => <[i := f i]> t) (seq 0 n) t = map f (seq 0 n) ++ drop n t.
Proof.
  induction n as [|n IH]; intros Hn.
  - simpl. by rewrite drop_0.
  - rewrite seq_S, fold_left_app, map_app. simpl.
    rewrite IH by lia.
    rewrite <- app_assoc. simpl.
    assert (Hlen : length (map f (seq 0 n)) = n) by (by rewrite length_map, length_seq).
    destruct (drop n t) as [|x r] eqn:Hd.
    + apply (f_equal length) in Hd. rewrite length_drop in Hd. simpl in Hd. lia.
    + rewrite insert_app_r_alt by lia. rewrite Hlen, Nat.sub_diag. simpl.
      f_equal. f_equal.
      replace (S n) with (n + 1) by lia. rewrite <- drop_drop, Hd. by simpl.
Qed.

Lemma fold_insert_seq_full (f : nat -> A) (t : list A) :
  fold_left (fun t i => <[i := f i]> t) (seq 0 (length t)) t
  = map f (seq 0 (length t)).
Proof.
  rewrite fold_insert_seq by lia. rewrite drop_all. by rewrite app_nil_r.
Qed.

End ListLoops.

(** ** The coefficients after [initialize_rot_trans_3D] *)

Lemma set4 {A} (l : list A) a b c d :
  length l = 4 -> <[3 := d]> (<[2 := c]> (<[1 := b]> (<[0 := a]> l))) = [a; b; c; d].
Proof.
  intros H. destruct l as [|x0 [|x1 [|x2 [|x3 [|x4 l]]]]]; simpl in H; try discriminate.
  reflexivity.
Qed.

Lemma row_insert_eq (m : rows) j r : j < length m -> row_ (<[j := r]> m) j = r.
Proof.
  intros H. unfold row_. rewrite nth_lookup, list_lookup_insert_eq by done. done.
Qed.

Lemma row_insert_ne (m : rows) j j' r : j <> j' -> row_ (<[j := r]> m) j' = row_ m j'.
Proof.
  intros H. unfold row_. rewrite !nth_lookup, list_lookup_insert_ne by done. done.
Qed.

Lemma set_row4 (m : rows) j a b c d :
  j < length m -> length (row_ m j) = 4 ->
  set_row_elem (set_row_elem (set_row_elem (set_row_elem m j 0 a) j 1 b) j 2 c) j 3 d
  = <[j := [a; b; c; d]]> m.
Proof.
  intros Hj Hr. unfold set_row_elem.
  rewrite !row_insert_eq by (rewrite ?length_insert; done).
  rewrite !list_insert_insert_eq. by rewrite set4.
Qed.

Lemma allocate_allocated s :
  length (rot_trans_3D_dx_ s) = 6 -> length (rot_trans_3D_dy_ s) = 6 ->
  length (rot_trans_3D_dz_ s) = 6 ->
  allocated (run_assignments allocate_rot_trans_3D s) /\
  same_cameras s (run_assignments allocate_rot_trans_3D s) /\
  scratch_ok (run_assignments allocate_rot_trans_3D s).
Proof.
  intros Hx Hy Hz.
  destruct s as [c mx u6 u4 ty h6 h4 x y z dx dy dz]. simpl in *.
  destruct dx as [|? [|? [|? [|? [|? [|? [|? ?]]]]]]]; try discriminate.
  destruct dy as [|? [|? [|? [|? [|? [|? [|? ?]]]]]]]; try discriminate.
  destruct dz as [|? [|? [|? [|? [|? [|? [|? ?]]]]]]]; try discriminate.
  split; [|split].
  - cbn. unfold allocated. cbn. repeat split; repeat constructor.
  - cbn. unfold same_cameras. cbn. repeat split.
  - unfold scratch_ok. split; [|split; [|split]]; try (cbn; reflexivity).
    intros _. cbn. unfold allocated. cbn. repeat split; repeat constructor.
Qed.


(** The derivative of an expression built from the variable, constants,
    sums, products, sines and cosines. *)
Ltac differentiate :=
  lazymatch goal with
  | |- derivable_pt_lim (fun _ => ?c) _ _ => apply (derivable_pt_lim_const c)
  | |- derivable_pt_lim (fun v => v) _ _ => apply derivable_pt_lim_id
  | |- derivable_pt_lim (fun v => cos v) _ _ => apply derivable_pt_lim_cos
  | |- derivable_pt_lim (fun v => sin v) _ _ => apply derivable_pt_lim_sin
  | |- derivable_pt_lim (fun v => (@?f v + @?g v)%R) _ _ =>
      apply (derivable_pt_lim_plus f g); differentiate
  | |- derivable_pt_lim (fun v => (@?f v - @?g v)%R) _ _ =>
      apply (derivable_pt_lim_minus f g); differentiate
  | |- derivable_pt_lim (fun v => (@?f v * @?g v)%R) _ _ =>
      apply (derivable_pt_lim_mult f g); differentiate
  | |- derivable_pt_lim (fun v => (- @?f v)%R) _ _ =>
      apply (derivable_pt_lim_opp f); differentiate
  end.

Section RigidBodyFacts.
Local Open Scope R_scope.

Lemma allocated_shape s :
  scratch_ok s -> allocated s ->
  exists c mx u6 u4 ty h6 h4 x0 x1 x2 x3 y0 y1 y2 y3 z0 z1 z2 z3
    dx0 dx1 dx2 dx3 dx4 dx5 dy0 dy1 dy2 dy3 dy4 dy5 dz0 dz1 dz2 dz3 dz4 dz5,
    s = mkCamera_System c mx u6 u4 ty h6 h4 [x0; x1; x2; x3] [y0; y1; y2; y3]
          [z0; z1; z2; z3] [dx0; dx1; dx2; dx3; dx4; dx5]
          [dy0; dy1; dy2; dy3; dy4; dy5] [dz0; dz1; dz2; dz3; dz4; dz5] /\
    Forall (fun r : vec => length r = 4%nat) [dx0; dx1; dx2] /\
    Forall (fun r : vec => length r = 4%nat) [dy0; dy1; dy2] /\
    Forall (fun r : vec => length r = 4%nat) [dz0; dz1; dz2].
Proof.
  intros (Hdx & Hdy & Hdz & _) (Hx & Hy & Hz & Fx & Fy & Fz).
  destruct s as [c mx u6 u4 ty h6 h4 x y z dx dy dz]. simpl in *.
  destruct x as [|x0 [|x1 [|x2 [|x3 [|? ?]]]]]; try discriminate.
  destruct y as [|y0 [|y1 [|y2 [|y3 [|? ?]]]]]; try discriminate.
  destruct z as [|z0 [|z1 [|z2 [|z3 [|? ?]]]]]; try discriminate.
  destruct dx as [|dx0 [|dx1 [|dx2 [|dx3 [|dx4 [|dx5 [|? ?]]]]]]]; try discriminate.
  destruct dy as [|dy0 [|dy1 [|dy2 [|dy3 [|dy4 [|dy5 [|? ?]]]]]]]; try discriminate.
  destruct dz as [|dz0 [|dz1 [|dz2 [|dz3 [|dz4 [|dz5 [|? ?]]]]]]]; try discriminate.
  do 37 eexists. split; [reflexivity|].
  inversion Fx as [|? ? ? Fx1]; inversion Fx1 as [|? ? ? Fx2]; inversion Fx2; subst.
  inversion Fy as [|? ? ? Fy1]; inversion Fy1 as [|? ? ? Fy2]; inversion Fy2; subst.
  inversion Fz as [|? ? ? Fz1]; inversion Fz1 as [|? ? ? Fz2]; inversion Fz2; subst.
  repeat split; repeat constructor; assumption.
Qed.

Lemma initialize_rot_trans_3D_coefficients (p : vec) (partials : bool) s :
  scratch_ok s -> length p = 6%nat ->
  exists s',
    initialize_rot_trans_3D p partials s = (Ok tt, s') /\
    scratch_ok s' /\ allocated s' /\ same_cameras s s' /\
    let R := R_closed (at_ p ANGLE_X) (at_ p ANGLE_Y) (at_ p ANGLE_Z) in
    rot_trans_3D_x_ s' = nth 0 R [] ++ [at_ p TRANSLATION_X] /\
    rot_trans_3D_y_ s' = nth 1 R [] ++ [at_ p TRANSLATION_Y] /\
    rot_trans_3D_z_ s' = nth 2 R [] ++ [at_ p TRANSLATION_Z] /\
    (partials = true ->
     forall j, (j < 3)%nat ->
       let dR := dR_closed j (at_ p ANGLE_X) (at_ p ANGLE_Y) (at_ p ANGLE_Z) in
       row_ (rot_trans_3D_dx_ s') j = nth 0 dR [] ++ [0] /\
       row_ (rot_trans_3D_dy_ s') j = nth 1 dR [] ++ [0] /\
       row_ (rot_trans_3D_dz_ s') j = nth 2 dR [] ++ [0]).
Proof.
  intros Hok Hp.
  unfold initialize_rot_trans_3D.
  unfold bind at 1. unfold get_state at 1.
  set (s1 := if negb (length (rot_trans_3D_x_ s) =? 4)%nat
             then run_assignments allocate_rot_trans_3D s else s).
  assert (H1 : allocated s1 /\ same_cameras s s1 /\ scratch_ok s1).
  { subst s1. destruct (length (rot_trans_3D_x_ s) =? 4)%nat eqn:E; simpl.
    - apply Nat.eqb_eq in E. destruct Hok as (?&?&?&Ha).
      split; [auto|]. split; [unfold same_cameras; repeat split|].
      unfold scratch_ok; auto.
    - destruct Hok as (?&?&?&_). by apply allocate_allocated. }
  destruct H1 as (Ha & Hs & Hok1).
  unfold bind at 1.
  replace ((if negb (length (rot_trans_3D_x_ s) =? 4)%nat
            then modify (run_assignments allocate_rot_trans_3D) else ret tt) s)
    with (@Ok unit tt, s1)
    by (subst s1; destruct (negb (length (rot_trans_3D_x_ s) =? 4)%nat); reflexivity).
  rewrite Hp. simpl negb. unfold TEUCHOS_TEST_FOR_EXCEPTION.
  destruct (allocated_shape s1 Hok1 Ha) as
    (c & mx & u6 & u4 & ty & h6 & h4 & x0 & x1 & x2 & x3 & y0 & y1 & y2 & y3
     & z0 & z1 & z2 & z3 & dx0 & dx1 & dx2 & dx3 & dx4 & dx5 & dy0 & dy1 & dy2
     & dy3 & dy4 & dy5 & dz0 & dz1 & dz2 & dz3 & dz4 & dz5 & Es & Fx & Fy & Fz).
  clearbody s1. subst s1.
  inversion Fx as [|? ? Lx0 Fx1]; inversion Fx1 as [|? ? Lx1 Fx2];
    inversion Fx2 as [|? ? Lx2 _]; subst.
  inversion Fy as [|? ? Ly0 Fy1]; inversion Fy1 as [|? ? Ly1 Fy2];
    inversion Fy2 as [|? ? Ly2 _]; subst.
  inversion Fz as [|? ? Lz0 Fz1]; inversion Fz1 as [|? ? Lz1 Fz2];
    inversion Fz2 as [|? ? Lz2 _]; subst.
  destruct dx0 as [|? [|? [|? [|? [|? ?]]]]]; try discriminate.
  destruct dx1 as [|? [|? [|? [|? [|? ?]]]]]; try discriminate.
  destruct dx2 as [|? [|? [|? [|? [|? ?]]]]]; try discriminate.
  destruct dy0 as [|? [|? [|? [|? [|? ?]]]]]; try discriminate.
  destruct dy1 as [|? [|? [|? [|? [|? ?]]]]]; try discriminate.
  destruct dy2 as [|? [|? [|? [|? [|? ?]]]]]; try discriminate.
  destruct dz0 as [|? [|? [|? [|? [|? ?]]]]]; try discriminate.
  destruct dz1 as [|? [|? [|? [|? [|? ?]]]]]; try discriminate.
  destruct dz2 as [|? [|? [|? [|? [|? ?]]]]]; try discriminate.
  destruct Ha as (_ & _ & _ & Ax & Ay & Az). cbn in Ax, Ay, Az.
  destruct Hs as (S1 & S2 & S3 & S4 & S5 & S6 & S7). cbn in S1, S2, S3, S4, S5, S6, S7.
  pose proof (Forall_inv_tail (Forall_inv_tail (Forall_inv_tail Ax))) as Tx.
  pose proof (Forall_inv_tail (Forall_inv_tail (Forall_inv_tail Ay))) as Ty.
  pose proof (Forall_inv_tail (Forall_inv_tail (Forall_inv_tail Az))) as Tz.
  destruct partials; cbn; eexists; (split; [reflexivity|]).
  - match goal with |- scratch_ok ?s' /\ _ => assert (Hall : allocated s') end.
    { unfold allocated; cbn. repeat split; trivial.
      all: repeat (apply Forall_cons; split; [reflexivity|]); assumption. }
    split.
    { unfold scratch_ok. split; [|split; [|split]]; [reflexivity..|intros _; exact Hall]. }
    split; [exact Hall|]. split.
    { unfold same_cameras; cbn. repeat split; auto. }
    repeat split; try reflexivity.
    all: destruct j as [|[|[|j]]]; try lia; reflexivity.
  - match goal with |- scratch_ok ?s' /\ _ => assert (Hall : allocated s') end.
    { unfold allocated; cbn. repeat split; trivial. }
    split.
    { unfold scratch_ok. split; [|split; [|split]]; [reflexivity..|intros _; exact Hall]. }
    split; [exact Hall|]. split.
    { unfold same_cameras; cbn. repeat split; auto. }
    repeat split; try reflexivity. all: discriminate.
Qed.

(** ** The loops of [rot_trans_3D] *)

Lemma fold_left_triple {A B C} (f : A -> nat -> A) (g : B -> nat -> B)
  (h : C -> nat -> C) (l : list nat) a b c :
  fold_left (fun (t : A * B * C) i => let '(a, b, c) := t in (f a i, g b i, h c i))
    l (a, b, c)
  = (fold_left f l a, fold_left g l b, fold_left h l c).
Proof.
  revert a b c. induction l as [|i l IH]; intros a b c; simpl; [reflexivity|].
  apply IH.
Qed.

Lemma fold_set_row_elem (g : nat -> R) (j : nat) (l : list nat) (m : list (list R)) :
  (j < length m)%nat ->
  fold_left (fun m i => set_row_elem m j i (g i)) l m
  = <[j := fold_left (fun r i => <[i := g i]> r) l (row_ m j)]> m.
Proof.
  revert m. induction l as [|i l IH]; intros m Hj; simpl.
  - symmetry. apply list_insert_id. unfold row_. rewrite nth_lookup.
    destruct (lookup_lt_is_Some_2 m j Hj) as [r Hr]. by rewrite Hr.
  - rewrite IH by (unfold set_row_elem; by rewrite length_insert).
    unfold set_row_elem. rewrite row_insert_eq by done.
    by rewrite list_insert_insert_eq.
Qed.

(** The loop that transforms the coordinates *)
Lemma transform_points_map s (sx sy sz tx ty tz : list R) (n : nat) :
  length tx = n -> length ty = n -> length tz = n ->
  transform_points s sx sy sz n (tx, ty, tz)
  = ( map (affine (rot_trans_3D_x_ s) sx sy sz) (seq 0 n),
      map (affine (rot_trans_3D_y_ s) sx sy sz) (seq 0 n),
      map (affine (rot_trans_3D_z_ s) sx sy sz) (seq 0 n) ).
Proof.
  intros Hx Hy Hz. unfold transform_points, transform_point.
  rewrite (fold_left_triple
    (fun t i => <[i := affine (rot_trans_3D_x_ s) sx sy sz i]> t)
    (fun t i => <[i := affine (rot_trans_3D_y_ s) sx sy sz i]> t)
    (fun t i => <[i := affine (rot_trans_3D_z_ s) sx sy sz i]> t)).
  rewrite <- Hx at 1. rewrite <- Hy at 1. rewrite <- Hz at 1.
  rewrite !fold_insert_seq_full. by rewrite Hx, Hy, Hz.
Qed.

(** The inner loop of the partials *)
Lemma partial_points_map s (sx sy sz : list R) (j n : nat) (dx dy dz : list (list R)) :
  (j < length dx)%nat -> (j < length dy)%nat -> (j < length dz)%nat ->
  length (row_ dx j) = n -> length (row_ dy j) = n -> length (row_ dz j) = n ->
  fold_left (partial_point s sx sy sz j) (seq 0 n) (dx, dy, dz)
  = ( <[j := map (linear (row_ (rot_trans_3D_dx_ s) j) sx sy sz) (seq 0 n)]> dx,
      <[j := map (linear (row_ (rot_trans_3D_dy_ s) j) sx sy sz) (seq 0 n)]> dy,
      <[j := map (linear (row_ (rot_trans_3D_dz_ s) j) sx sy sz) (seq 0 n)]> dz ).
Proof.
  intros Jx Jy Jz Hx Hy Hz. unfold partial_point.
  rewrite (fold_left_triple
    (fun m i => set_row_elem m j i (linear (row_ (rot_trans_3D_dx_ s) j) sx sy sz i))
    (fun m i => set_row_elem m j i (linear (row_ (rot_trans_3D_dy_ s) j) sx sy sz i))
    (fun m i => set_row_elem m j i (linear (row_ (rot_trans_3D_dz_ s) j) sx sy sz i))).
  rewrite !fold_set_row_elem by done.
  rewrite <- Hx at 1. rewrite <- Hy at 1. rewrite <- Hz at 1.
  rewrite !fold_insert_seq_full. by rewrite Hx, Hy, Hz.
Qed.

Lemma table_of_shape n (m : list (list R)) :
  table_of n m ->
  exists r0 r1 r2 r3 r4 r5, m = [r0; r1; r2; r3; r4; r5] /\
    length r0 = n /\ length r1 = n /\ length r2 = n /\
    length r3 = n /\ length r4 = n /\ length r5 = n.
Proof.
  intros [Hl Hf].
  destruct m as [|r0 [|r1 [|r2 [|r3 [|r4 [|r5 [|? ?]]]]]]]; try discriminate.
  exists r0, r1, r2, r3, r4, r5. split; [reflexivity|].
  repeat (match goal with H : Forall _ (_ :: _) |- _ =>
            apply Forall_cons_1 in H; destruct H end).
  repeat split; assumption.
Qed.

(** The whole block that calculates the partials *)
Lemma calculate_partials_rows s (sx sy sz : list R) (n : nat) (dx dy dz : list (list R)) :
  table_of n dx -> table_of n dy -> table_of n dz ->
  calculate_partials s sx sy sz n (dx, dy, dz)
  = ( [ map (linear (row_ (rot_trans_3D_dx_ s) 0) sx sy sz) (seq 0 n);
        map (linear (row_ (rot_trans_3D_dx_ s) 1) sx sy sz) (seq 0 n);
        map (linear (row_ (rot_trans_3D_dx_ s) 2) sx sy sz) (seq 0 n);
        replicate n 1; replicate n 0; replicate n 0 ],
      [ map (linear (row_ (rot_trans_3D_dy_ s) 0) sx sy sz) (seq 0 n);
        map (linear (row_ (rot_trans_3D_dy_ s) 1) sx sy sz) (seq 0 n);
        map (linear (row_ (rot_trans_3D_dy_ s) 2) sx sy sz) (seq 0 n);
        replicate n 0; replicate n 1; replicate n 0 ],
      [ map (linear (row_ (rot_trans_3D_dz_ s) 0) sx sy sz) (seq 0 n);
        map (linear (row_ (rot_trans_3D_dz_ s) 1) sx sy sz) (seq 0 n);
        map (linear (row_ (rot_trans_3D_dz_ s) 2) sx sy sz) (seq 0 n);
        replicate n 0; replicate n 0; replicate n 1 ] ).
Proof.
  intros Tx Ty Tz.
  destruct (table_of_shape _ _ Tx) as (a0&a1&a2&a3&a4&a5&->&A0&A1&A2&A3&A4&A5).
  destruct (table_of_shape _ _ Ty) as (b0&b1&b2&b3&b4&b5&->&B0&B1&B2&B3&B4&B5).
  destruct (table_of_shape _ _ Tz) as (c0&c1&c2&c3&c4&c5&->&C0&C1&C2&C3&C4&C5).
  unfold calculate_partials. simpl seq. simpl fold_left.
  unfold partial_rows at 3.
  rewrite partial_points_map by (simpl; first [lia | assumption]).
  simpl insert. unfold fill_row, fill, row_. simpl nth. simpl insert.
  unfold partial_rows at 2.
  rewrite partial_points_map by (simpl; first [lia | assumption]).
  simpl insert. unfold fill_row, fill, row_. simpl nth. simpl insert.
  unfold partial_rows at 1.
  rewrite partial_points_map by (simpl; first [lia | assumption]).
  simpl insert. unfold fill_row, fill, row_. simpl nth. simpl insert.
  rewrite !length_replicate, A3, A4, A5, B3, B4, B5, C3, C4, C5. reflexivity.
Qed.

(** ** The transform after the argument checks *)

Lemma map_replicate_const {A} (x : A) (n : nat) :
  map (fun _ : nat => x) (seq 0 n) = replicate n x.
Proof.
  generalize 0%nat. induction n as [|n IH]; intros k; simpl; [reflexivity|].
  by rewrite IH.
Qed.

Lemma rot_trans_3D_transform_closed_form s (p sx sy sz tx ty tz : list R)
  (dx dy dz : list (list R)) (n : nat) :
  scratch_ok s -> length p = 6%nat ->
  length sx = n -> length tx = n -> length ty = n -> length tz = n ->
  (dx = [] \/ (table_of n dx /\ table_of n dy /\ table_of n dz)) ->
  let s' := snd (initialize_rot_trans_3D p (0 <? length dx)%nat s) in
  rot_trans_3D_transform sx sy sz tx ty tz p dx dy dz s
  = (Ok (rigid_body_targets p sx sy sz dx dy dz), s')
  /\ same_cameras s s' /\ scratch_ok s'.
Proof.
  intros Hok Hp Hsx Htx Hty Htz Hd.
  unfold rot_trans_3D_transform.
  destruct (initialize_rot_trans_3D_coefficients p (0 <? length dx)%nat s Hok Hp)
    as (s' & Hi & Hok' & _ & Hsame & Hx & Hy & Hz & Hpart).
  rewrite Hi. simpl snd. split; [|split; assumption].
  unfold bind at 1. rewrite Hi. unfold bind, get_state, ret.
  rewrite Hsx, transform_points_map by assumption.
  unfold rigid_body_targets, rigid_body_points. rewrite Hsx.
  assert (Ex : forall k c (t : list R),
     nth k (R_closed (at_ p ANGLE_X) (at_ p ANGLE_Y) (at_ p ANGLE_Z)) []
       ++ [at_ p (k + 3)] = c ->
     (k < 3)%nat ->
     map (affine c sx sy sz) (seq 0 n)
     = map (fun i => rigid_body_target p k (at_ sx i) (at_ sy i) (at_ sz i))
         (seq 0 n)).
  { intros k c t <- Hk. apply map_ext. intros i.
    unfold affine, linear, rigid_body_target, mat_vec_3, mat_at, at_.
    destruct k as [|[|[|k]]]; try lia; reflexivity. }
  rewrite (Ex 0%nat _ tx (eq_sym Hx)) by lia.
  rewrite (Ex 1%nat _ ty (eq_sym Hy)) by lia.
  rewrite (Ex 2%nat _ tz (eq_sym Hz)) by lia.
  destruct Hd as [-> | (Tx & Ty & Tz)].
  - reflexivity.
  - assert (Hpos : (0 <? length dx)%nat = true) by (destruct Tx as [-> _]; reflexivity).
    rewrite Hpos in Hpart |- *. specialize (Hpart eq_refl).
    rewrite (calculate_partials_rows _ _ _ _ n) by assumption.
    destruct (Hpart 0%nat ltac:(lia)) as (X0 & Y0 & Z0).
    destruct (Hpart 1%nat ltac:(lia)) as (X1 & Y1 & Z1).
    destruct (Hpart 2%nat ltac:(lia)) as (X2 & Y2 & Z2).
    rewrite X0, X1, X2, Y0, Y1, Y2, Z0, Z1, Z2.
    unfold rigid_body_partials. rewrite Hsx.
    rewrite <- !(map_replicate_const (A:=R)).
    reflexivity.
Qed.

(** ** The rotation is [Rz Ry Rx] and the partials are its derivatives *)

Lemma R_closed_composition (alpha beta gamma : R) :
  R_closed alpha beta gamma = mat_mul_3 (Rz gamma) (mat_mul_3 (Ry beta) (Rx alpha)).
Proof.
  unfold R_closed, mat_mul_3, Rx, Ry, Rz, mat_at. simpl.
  repeat (f_equal; try ring).
Qed.

Lemma derivable_pt_lim_eq (f : R -> R) (x l l' : R) :
  derivable_pt_lim f x l' -> l = l' -> derivable_pt_lim f x l.
Proof. intros H ->. exact H. Qed.

Lemma rigid_body_partial_derivative (p : list R) (j k : nat) (x y z : R) :
  length p = 6%nat -> (j < 6)%nat -> (k < 3)%nat ->
  derivable_pt_lim (rigid_body_target_in p j k x y z) (at_ p j)
    (rigid_body_partial p j k x y z).
Proof.
  intros Hp Hj Hk.
  destruct p as [|a [|b [|g [|tx [|ty [|tz [|? ?]]]]]]]; try discriminate.
  destruct j as [|[|[|[|[|[|j]]]]]]; try lia;
  destruct k as [|[|[|k]]]; try lia;
  unfold rigid_body_target_in, rigid_body_target, rigid_body_partial, mat_vec_3,
    mat_at, at_, R_closed, dR_closed, ANGLE_X, ANGLE_Y, ANGLE_Z; simpl;
  (eapply derivable_pt_lim_eq; [differentiate | ring]).
Qed.

End RigidBodyFacts.

(** ** Computations that leave the object alone *)

Section Frames.
Context {S : Type}.

Lemma leaves_state_ret {A} (a : A) : leaves_state (@ret S A a).
Proof. intros s. reflexivity. Qed.

Lemma leaves_state_throw {A} (msg : string) : leaves_state (@throw S A msg).
Proof. intros s. reflexivity. Qed.

Lemma leaves_state_get : leaves_state (@get_state S).
Proof. intros s. reflexivity. Qed.

Lemma leaves_state_lift {A} (r : result A) : leaves_state (@lift S A r).
Proof. intros s. reflexivity. Qed.

Lemma leaves_state_test (b : bool) (msg : string) :
  leaves_state (@TEUCHOS_TEST_FOR_EXCEPTION S b msg).
Proof. intros s. destruct b; reflexivity. Qed.

Lemma leaves_state_bind {A B} (c : M S A) (k : A -> M S B) :
  leaves_state c -> (forall a, leaves_state (k a)) -> leaves_state (bind c k).
Proof.
  intros Hc Hk s. unfold bind. specialize (Hc s).
  destruct (c s) as [[a|e] s1]; simpl in Hc; subst s1.
  - apply Hk.
  - reflexivity.
Qed.

Lemma leaves_state_for_each (l : list nat) (body : nat -> M S unit) :
  (forall i, leaves_state (body i)) -> leaves_state (for_each l body).
Proof.
  intros Hb. induction l as [|i l IH]; simpl.
  - apply leaves_state_ret.
  - apply leaves_state_bind; [apply Hb|intros _; exact IH].
Qed.

(** A computation that leaves the object alone and does not throw. *)
Lemma bind_ok {A B} (c : M S A) (k : A -> M S B) (a : A) (s : S) :
  c s = (Ok a, s) -> bind c k s = k a s.
Proof. intros H. unfold bind. by rewrite H. Qed.

Lemma test_passes (msg : string) (s : S) :
  TEUCHOS_TEST_FOR_EXCEPTION false msg s = (Ok tt, s).
Proof. reflexivity. Qed.

Lemma for_each_ok (l : list nat) (body : nat -> M S unit) (s : S) :
  (forall i, In i l -> body i s = (Ok tt, s)) -> for_each l body s = (Ok tt, s).
Proof.
  induction l as [|i l IH]; intros Hb; simpl; [reflexivity|].
  rewrite (bind_ok _ _ tt) by (apply Hb; by left).
  apply IH. intros j Hj. apply Hb. by right.
Qed.

End Frames.

Create HintDb frame.
#[local] Hint Resolve leaves_state_ret leaves_state_throw leaves_state_get
  leaves_state_lift leaves_state_test : frame.

Ltac frame :=
  repeat first
    [ apply leaves_state_bind; [|intros ?]
    | apply leaves_state_for_each; intros ?
    | progress auto with frame
    | match goal with |- leaves_state (if ?b then _ else _) => destruct b end ].

(** ** The argument checks of [rot_trans_3D] *)

Lemma rot_trans_3D_checks_leave_state sx sy sz tx ty tz dx dy dz :
  leaves_state (rot_trans_3D_checks sx sy sz tx ty tz dx dy dz).
Proof. unfold rot_trans_3D_checks. frame. Qed.

(** A batch that holds a point is rejected by the first check. *)
Lemma rot_trans_3D_rejects_points (x : R) (sx sy sz tx ty tz p : list R)
  (dx dy dz : list (list R)) (s : Camera_System) :
  rot_trans_3D (x :: sx) sy sz tx ty tz p dx dy dz s = (Error "", s).
Proof. reflexivity. Qed.

(** The only batch the checks let through is the empty one. *)
Lemma rot_trans_3D_checks_pass_empty sx sy sz tx ty tz dx dy dz s :
  fst (rot_trans_3D_checks sx sy sz tx ty tz dx dy dz s) = Ok tt -> sx = [].
Proof. destruct sx; [reflexivity|discriminate]. Qed.

(** ** What the calls change in the object *)

Lemma same_cameras_refl s : same_cameras s s.
Proof. unfold same_cameras. repeat split. Qed.

Lemma same_cameras_trans s1 s2 s3 :
  same_cameras s1 s2 -> same_cameras s2 s3 -> same_cameras s1 s3.
Proof.
  unfold same_cameras. intros (?&?&?&?&?&?&?) (?&?&?&?&?&?&?).
  repeat split; congruence.
Qed.

Lemma run_assignments_same_cameras l s :
  Forall (fun f => forall s, same_cameras s (f s)) l ->
  same_cameras s (run_assignments l s).
Proof.
  unfold run_assignments. revert s.
  induction l as [|f l IH]; intros s Hl; simpl; [apply same_cameras_refl|].
  apply Forall_cons_1 in Hl. destruct Hl as [Hf Hl].
  eapply same_cameras_trans; [apply Hf|]. by apply IH.
Qed.

Lemma upd_same_cameras :
  (forall f s, same_cameras s (upd_x_ f s)) /\
  (forall f s, same_cameras s (upd_y_ f s)) /\
  (forall f s, same_cameras s (upd_z_ f s)) /\
  (forall f s, same_cameras s (upd_dx_ f s)) /\
  (forall f s, same_cameras s (upd_dy_ f s)) /\
  (forall f s, same_cameras s (upd_dz_ f s)).
Proof. repeat split. Qed.

Lemma keeps_cameras_leaves_state {A} (c : M Camera_System A) :
  leaves_state c -> keeps_cameras c.
Proof. intros H s. rewrite H. apply same_cameras_refl. Qed.

Lemma keeps_cameras_bind {A B} (c : M Camera_System A)
  (k : A -> M Camera_System B) :
  keeps_cameras c -> (forall a, keeps_cameras (k a)) -> keeps_cameras (bind c k).
Proof.
  intros Hc Hk s. unfold bind. specialize (Hc s).
  destruct (c s) as [[a|e] s1]; simpl in Hc.
  - eapply same_cameras_trans; [exact Hc|apply Hk].
  - exact Hc.
Qed.

Lemma keeps_cameras_assignments l :
  Forall (fun f => forall s, same_cameras s (f s)) l ->
  keeps_cameras (modify (run_assignments l)).
Proof. intros H s. simpl. by apply run_assignments_same_cameras. Qed.

Ltac assignments_frame :=
  apply keeps_cameras_assignments;
  repeat (apply Forall_cons; split; [intros ?; apply upd_same_cameras|]);
  apply Forall_nil; exact I.

Lemma initialize_rot_trans_3D_keeps_cameras p partials :
  keeps_cameras (initialize_rot_trans_3D p partials).
Proof.
  unfold initialize_rot_trans_3D.
  apply keeps_cameras_bind; [apply keeps_cameras_leaves_state, leaves_state_get|].
  intros s0. apply keeps_cameras_bind.
  { destruct (negb _).
    - unfold allocate_rot_trans_3D. simpl app. assignments_frame.
    - apply keeps_cameras_leaves_state, leaves_state_ret. }
  intros _. apply keeps_cameras_bind;
    [apply keeps_cameras_leaves_state, leaves_state_test|].
  intros _. apply keeps_cameras_bind; [assignments_frame|].
  intros _. destruct partials.
  - assignments_frame.
  - apply keeps_cameras_leaves_state, leaves_state_ret.
Qed.

Lemma rot_trans_3D_transform_keeps_cameras sx sy sz tx ty tz p dx dy dz :
  keeps_cameras (rot_trans_3D_transform sx sy sz tx ty tz p dx dy dz).
Proof.
  unfold rot_trans_3D_transform.
  apply keeps_cameras_bind; [apply initialize_rot_trans_3D_keeps_cameras|].
  intros _. apply keeps_cameras_bind;
    [apply keeps_cameras_leaves_state, leaves_state_get|].
  intros s1.
  destruct (transform_points _ _ _ _ _ _) as [[? ?] ?].
  destruct (if (0 <? length dx) then _ else _) as [[? ?] ?].
  apply keeps_cameras_leaves_state, leaves_state_ret.
Qed.

Lemma rot_trans_3D_keeps_cameras sx sy sz tx ty tz p dx dy dz :
  keeps_cameras (rot_trans_3D sx sy sz tx ty tz p dx dy dz).
Proof.
  unfold rot_trans_3D.
  apply keeps_cameras_bind.
  - apply keeps_cameras_leaves_state, rot_trans_3D_checks_leave_state.
  - intros _. apply rot_trans_3D_transform_keeps_cameras.
Qed.

(** ** The projection *)

Section ProjectionFacts.
Variable optics : Optics.

Lemma camera_to_camera_projection_checks_leave_state source_id target_id
  (img_source_x img_source_y img_target_x img_target_y params : list R)
  (img_target_dx img_target_dy : list (list R)) (rigid_body_params : list R) :
  leaves_state (camera_to_camera_projection_checks source_id target_id
    img_source_x img_source_y img_target_x img_target_y params
    img_target_dx img_target_dy rigid_body_params).
Proof. unfold camera_to_camera_projection_checks. frame. Qed.

Lemma tables_rows_pass (n num_params : nat) (dx dy : list (list R))
  (s : Camera_System) :
  tables_well_sized n num_params dx dy ->
  for_each (seq 0 num_params) (fun i =>
    bind (TEUCHOS_TEST_FOR_EXCEPTION (negb (length (row_ dx i) =? n)) "")
      (fun _ => TEUCHOS_TEST_FOR_EXCEPTION (negb (length (row_ dy i) =? n)) "")) s
  = (Ok tt, s).
Proof.
  intros (Hx & Hy & Fx & Fy). apply for_each_ok. intros i Hi.
  apply in_seq in Hi.
  assert (Lx : length (row_ dx i) = n).
  { unfold row_. rewrite nth_lookup.
    destruct (lookup_lt_is_Some_2 dx i ltac:(lia)) as [r Hr]. rewrite Hr.
    rewrite Forall_lookup in Fx. exact (Fx i r Hr). }
  assert (Ly : length (row_ dy i) = n).
  { unfold row_. rewrite nth_lookup.
    destruct (lookup_lt_is_Some_2 dy i ltac:(lia)) as [r Hr]. rewrite Hr.
    rewrite Forall_lookup in Fy. exact (Fy i r Hr). }
  rewrite Lx, Ly, Nat.eqb_refl. reflexivity.
Qed.

(** The checks pass for every pair of valid camera indices, equal or not,
    and well-sized arguments. *)
Lemma camera_to_camera_projection_checks_pass s source_id target_id
  (img_source_x img_source_y img_target_x img_target_y params : list R)
  (img_target_dx img_target_dy : list (list R)) (rigid_body_params : list R) :
  source_id < num_cameras s -> target_id < num_cameras s ->
  well_sized img_source_x img_source_y img_target_x img_target_y params
    img_target_dx img_target_dy rigid_body_params ->
  camera_to_camera_projection_checks source_id target_id
    img_source_x img_source_y img_target_x img_target_y params
    img_target_dx img_target_dy rigid_body_params s = (Ok tt, s).
Proof.
  intros Hs Ht (Hp & Hy & Htx & Hty & Hr & Hd).
  unfold camera_to_camera_projection_checks.
  rewrite Hp, Hy, Htx, Hty, !Nat.eqb_refl. simpl negb.
  rewrite (bind_ok _ _ tt) by reflexivity.
  rewrite (bind_ok _ _ s) by reflexivity.
  replace (num_cameras s <=? source_id) with false
    by (symmetry; apply Nat.leb_gt; lia).
  replace (num_cameras s <=? target_id) with false
    by (symmetry; apply Nat.leb_gt; lia).
  repeat rewrite (bind_ok _ _ tt) by reflexivity.
  assert (Hrigid :
    (if 0 <? length rigid_body_params
     then TEUCHOS_TEST_FOR_EXCEPTION (negb (length rigid_body_params =? 6))
            "invalid rigid body parameter vector size"
     else ret tt) s = (@Ok unit tt, s)).
  { destruct Hr as [-> | ->]; reflexivity. }
  destruct Hd as [-> | Hd].
  - simpl. rewrite (bind_ok _ _ tt) by reflexivity. exact Hrigid.
  - pose proof Hd as (Hx & Hy' & _).
    destruct (0 <? length img_target_dx) eqn:E.
    + rewrite (bind_ok _ _ tt); [exact Hrigid|].
      rewrite (bind_ok _ _ tt).
      * rewrite <- Hx in Hy'. rewrite Hy', Nat.eqb_refl. simpl negb.
        rewrite (bind_ok _ _ tt) by reflexivity.
        rewrite <- Hx in Hd. by apply tables_rows_pass.
      * rewrite Hx. destruct (0 <? length rigid_body_params); reflexivity.
    + rewrite (bind_ok _ _ tt) by reflexivity. exact Hrigid.
Qed.

Lemma camera_to_camera_projection_keeps_cameras source_id target_id
  (img_source_x img_source_y img_target_x img_target_y params : list R)
  (img_target_dx img_target_dy : list (list R)) (rigid_body_params : list R) :
  keeps_cameras (camera_to_camera_projection optics source_id target_id
    img_source_x img_source_y img_target_x img_target_y params
    img_target_dx img_target_dy rigid_body_params).
Proof.
  unfold camera_to_camera_projection.
  apply keeps_cameras_bind;
    [apply keeps_cameras_leaves_state,
       camera_to_camera_projection_checks_leave_state|].
  intros _. unfold camera_to_camera_projection_traverse.
  apply keeps_cameras_bind; [apply keeps_cameras_leaves_state, leaves_state_get|].
  intros s0.
  destruct (0 <? length img_target_dx), (0 <? length rigid_body_params).
  - destruct (image_to_world _ _ _ _ _) as [[? ?] ?].
    apply keeps_cameras_bind; [apply rot_trans_3D_keeps_cameras|].
    intros t. apply keeps_cameras_leaves_state, leaves_state_ret.
  - destruct (image_to_world_d _ _ _ _ _) as [[[? ?] ?] [[? ?] ?]].
    apply keeps_cameras_leaves_state, leaves_state_ret.
  - destruct (image_to_world _ _ _ _ _) as [[? ?] ?].
    apply keeps_cameras_bind; [apply rot_trans_3D_keeps_cameras|].
    intros t. apply keeps_cameras_leaves_state, leaves_state_ret.
  - destruct (image_to_world _ _ _ _ _) as [[? ?] ?].
    apply keeps_cameras_leaves_state, leaves_state_ret.
Qed.

(** Without rigid-body parameters the traversal does not throw and leaves
    the object alone. *)
Lemma camera_to_camera_projection_traverse_optical s source_id target_id
  (img_source_x img_source_y img_target_x img_target_y params : list R)
  (img_target_dx img_target_dy : list (list R)) :
  exists out,
    camera_to_camera_projection_traverse optics source_id target_id
      img_source_x img_source_y img_target_x img_target_y params
      img_target_dx img_target_dy [] s = (Ok out, s).
Proof.
  unfold camera_to_camera_projection_traverse, bind, get_state, ret. simpl.
  destruct (0 <? length img_target_dx).
  - destruct (image_to_world_d _ _ _ _ _) as [[[? ?] ?] [[? ?] ?]].
    eexists; reflexivity.
  - destruct (image_to_world _ _ _ _ _) as [[? ?] ?].
    eexists; reflexivity.
Qed.

End ProjectionFacts.

(** ** The claims about the rigid-body transform and the projection *)

Section RigidBodyClaims.
Local Open Scope R_scope.

(** A call of [rot_trans_3D] with target vectors that are not empty raises
    at an argument check and leaves the object as it was: with a source
    point at the first check, without one at a later one. *)
Lemma rot_trans_3D_rejects_sized_targets (wx wy wz p : list R)
  (dx dy dz : list (list R)) (n : nat) (s : Camera_System) :
  n <> 0%nat ->
  rot_trans_3D wx wy wz (assign n 0) (assign n 0) (assign n 0) p dx dy dz s
  = (Error "", s).
Proof.
  intros Hn. destruct wx as [|x wx]; [|apply rot_trans_3D_rejects_points].
  unfold rot_trans_3D, rot_trans_3D_checks.
  unfold bind at 1. unfold bind at 1. cbn [length Nat.eqb negb].
  unfold TEUCHOS_TEST_FOR_EXCEPTION at 1. unfold ret at 1.
  unfold bind at 1. unfold TEUCHOS_TEST_FOR_EXCEPTION at 1.
  destruct (negb (length wy =? 0)%nat); [reflexivity|]. unfold ret at 1.
  unfold bind at 1. unfold TEUCHOS_TEST_FOR_EXCEPTION at 1.
  destruct (negb (length wz =? 0)%nat); [reflexivity|]. unfold ret at 1.
  unfold bind at 1. unfold TEUCHOS_TEST_FOR_EXCEPTION at 1.
  unfold assign. rewrite length_replicate.
  apply Nat.eqb_neq in Hn. rewrite Hn. reflexivity.
Qed.

(** A call of [rot_trans_3D] that returns leaves the object as
    [initialize_rot_trans_3D] leaves it. *)
Lemma rot_trans_3D_returns_state (sx sy sz tx ty tz p : list R)
  (dx dy dz : list (list R)) (s s' : Camera_System) (t : Targets_3D) :
  rot_trans_3D sx sy sz tx ty tz p dx dy dz s = (Ok t, s') ->
  s' = snd (initialize_rot_trans_3D p (0 <? length dx)%nat s).
Proof.
  unfold rot_trans_3D. intros H.
  pose proof (rot_trans_3D_checks_leave_state sx sy sz tx ty tz dx dy dz s)
    as Hc.
  unfold bind at 1 in H.
  destruct (rot_trans_3D_checks sx sy sz tx ty tz dx dy dz s) as [[u|e] s1];
    [|discriminate].
  cbn [snd] in Hc. subst s1.
  unfold rot_trans_3D_transform in H. unfold bind at 1 in H.
  destruct (initialize_rot_trans_3D p (0 <? length dx)%nat s) as [[u'|e] s1];
    [|discriminate].
  unfold bind at 1, get_state at 1 in H.
  destruct (transform_points s1 sx sy sz (length sx) (tx, ty, tz))
    as [[tx' ty'] tz'].
  destruct (if (0 <? length dx)%nat
            then calculate_partials s1 sx sy sz (length sx) (dx, dy, dz)
            else (dx, dy, dz)) as [[dx' dy'] dz'].
  unfold ret in H. injection H as _ <-. reflexivity.
Qed.

(** C1 (the source does not do what the claim says). The claim: a call of
    [rot_trans_3D] whose source and target vectors all have one nonzero
    length, with six parameters and, when partials are requested, three
    tables of six rows of that length, does not raise. In the source the
    first check raises when [source_x] is not empty, so every call that
    meets the precondition raises, and leaves the object as it was. *)
Theorem rot_trans_3D_raises_on_valid_call (s : Camera_System)
  (sx sy sz tx ty tz p : list R) (dx dy dz : list (list R)) (n : nat) :
  n <> 0%nat ->
  length sx = n -> length sy = n -> length sz = n ->
  length tx = n -> length ty = n -> length tz = n ->
  length p = 6%nat ->
  (dx = [] \/ (table_of n dx /\ table_of n dy /\ table_of n dz)) ->
  rot_trans_3D sx sy sz tx ty tz p dx dy dz s = (Error "", s).
Proof.
  intros Hn Hsx _ _ _ _ _ _ _.
  destruct sx as [|x sx]; [simpl in Hsx; congruence|].
  apply rot_trans_3D_rejects_points.
Qed.

Lemma rot_trans_3D_raises_on_valid_call_witness :
  rot_trans_3D [1] [2] [3] [0] [0] [0] [0; 0; 0; 0; 0; 0] [] [] []
    Camera_System_new = (Error "", Camera_System_new).
Proof.
  apply (rot_trans_3D_raises_on_valid_call Camera_System_new
           [1] [2] [3] [0] [0] [0] [0; 0; 0; 0; 0; 0] [] [] [] 1);
    try reflexivity.
  - discriminate.
  - left. reflexivity.
Defined.

(** C2 (the source does not do what the claim says, by the defect of C1).
    The claim: for every parameter vector and every source point,
    [rot_trans_3D] produces [R (x, y, z) + T]. In the source the call for
    a point raises at the first check, whatever the parameters, so no
    target point is produced. The coefficients and the loop after the
    checks do compute [R (x, y, z) + T] with [R = Rz Ry Rx]: see
    [rot_trans_3D_transform_closed_form] and [R_closed_composition]. *)
Theorem rot_trans_3D_produces_no_point (s : Camera_System) (p : list R)
  (x y z : R) :
  rot_trans_3D [x] [y] [z] [0] [0] [0] p [] [] [] s = (Error "", s).
Proof. apply rot_trans_3D_rejects_points. Qed.

(** C3 (the source does not do what the claim says, by the defect of C1).
    The claim: when partials are requested, [rot_trans_3D] returns for
    every source point the unit vectors for the translations and the
    derivative of [R] applied to the point for the angles. In the source
    the call for a point, with the three tables passed, raises at the
    first check. The loops after the checks do write those partials: see
    [rot_trans_3D_transform_closed_form] and
    [rigid_body_partial_derivative]. *)
Theorem rot_trans_3D_produces_no_partial (s : Camera_System) (p : list R)
  (x y z : R) :
  rot_trans_3D [x] [y] [z] [0] [0] [0] p
    (assign_rows 6 1 0) (assign_rows 6 1 0) (assign_rows 6 1 0) s
  = (Error "", s).
Proof. apply rot_trans_3D_rejects_points. Qed.

(** C5 (counterexample). A call of [rot_trans_3D] for the empty batch on a
    new system, and a projection of the empty batch with rigid-body
    parameters, return with the coefficient members of the object
    written. *)
Lemma calls_write_coefficient_members :
  snd (rot_trans_3D [] [] [] [] [] [] [0; 0; 0; 0; 0; 0] [] [] []
         Camera_System_new) <> Camera_System_new
  /\ snd (camera_to_camera_projection example_optics 0 1 [] [] [] []
            [5; 0; 0] [] [] [0; 0; 0; 0; 0; 0] example_system)
     <> example_system.
Proof.
  split; intros H;
    apply (f_equal (fun s => length (rot_trans_3D_x_ s))) in H;
    lazy in H; discriminate.
Qed.

(** C5 (amended). Every call of [camera_to_camera_projection] and of
    [rot_trans_3D], whether it returns or raises, leaves the cameras, the
    limit on their number, the system type and the user transforms of the
    object as they were. The rotation coefficients are not local to the
    call: they are members of the object, and a call of [rot_trans_3D]
    that returns leaves the object as [initialize_rot_trans_3D] leaves it.
    A projection without rigid-body parameters leaves the whole object as
    it was. *)
Theorem calls_write_coefficient_members_only (optics : Optics)
  (s : Camera_System) (source_id target_id : nat)
  (img_source_x img_source_y img_target_x img_target_y params : list R)
  (img_target_dx img_target_dy : list (list R)) (rigid_body_params : list R)
  (sx sy sz tx ty tz p : list R) (dx dy dz : list (list R)) :
  same_cameras s
    (snd (camera_to_camera_projection optics source_id target_id
            img_source_x img_source_y img_target_x img_target_y params
            img_target_dx img_target_dy rigid_body_params s))
  /\ same_cameras s (snd (rot_trans_3D sx sy sz tx ty tz p dx dy dz s))
  /\ (is_ok (fst (rot_trans_3D sx sy sz tx ty tz p dx dy dz s)) = true ->
      snd (rot_trans_3D sx sy sz tx ty tz p dx dy dz s)
      = snd (initialize_rot_trans_3D p (0 <? length dx)%nat s))
  /\ snd (camera_to_camera_projection optics source_id target_id
            img_source_x img_source_y img_target_x img_target_y params
            img_target_dx img_target_dy [] s) = s.
Proof.
  split; [apply camera_to_camera_projection_keeps_cameras|].
  split; [apply rot_trans_3D_keeps_cameras|].
  split.
  { destruct (rot_trans_3D sx sy sz tx ty tz p dx dy dz s) as [[t|e] s'] eqn:E;
      [|discriminate].
    intros _. cbn [snd]. exact (rot_trans_3D_returns_state _ _ _ _ _ _ _ _ _ _ _ _ _ E). }
  unfold camera_to_camera_projection, bind.
  pose proof (camera_to_camera_projection_checks_leave_state source_id
    target_id img_source_x img_source_y img_target_x img_target_y params
    img_target_dx img_target_dy [] s) as Hc.
  destruct (camera_to_camera_projection_checks _ _ _ _ _ _ _ _ _ _ s)
    as [[[]|e] s1]; simpl in Hc; subst s1; [|reflexivity].
  destruct (camera_to_camera_projection_traverse_optical optics s source_id
    target_id img_source_x img_source_y img_target_x img_target_y params
    img_target_dx img_target_dy) as [out ->].
  reflexivity.
Qed.

(** C10. [camera_to_camera_projection] accepts the same camera as source
    and target: for a valid index [i] and well-sized arguments the call
    with [i] twice passes every argument check and goes on to traverse the
    projections; without rigid-body parameters it returns. *)
Theorem camera_to_camera_projection_same_camera (optics : Optics)
  (s : Camera_System) (i : nat)
  (img_source_x img_source_y img_target_x img_target_y params : list R)
  (img_target_dx img_target_dy : list (list R)) (rigid_body_params : list R) :
  (i < num_cameras s)%nat ->
  well_sized img_source_x img_source_y img_target_x img_target_y params
    img_target_dx img_target_dy rigid_body_params ->
  camera_to_camera_projection_checks i i img_source_x img_source_y
    img_target_x img_target_y params img_target_dx img_target_dy
    rigid_body_params s = (Ok tt, s)
  /\ camera_to_camera_projection optics i i img_source_x img_source_y
       img_target_x img_target_y params img_target_dx img_target_dy
       rigid_body_params s
     = camera_to_camera_projection_traverse optics i i img_source_x
         img_source_y img_target_x img_target_y params img_target_dx
         img_target_dy rigid_body_params s
  /\ (rigid_body_params = [] ->
      exists out,
        camera_to_camera_projection optics i i img_source_x img_source_y
          img_target_x img_target_y params img_target_dx img_target_dy
          rigid_body_params s = (Ok out, s)).
Proof.
  intros Hi Hw.
  pose proof (camera_to_camera_projection_checks_pass s i i _ _ _ _ _ _ _ _
                Hi Hi Hw) as Hc.
  split; [exact Hc|].
  assert (Hrun : camera_to_camera_projection optics i i img_source_x
       img_source_y img_target_x img_target_y params img_target_dx
       img_target_dy rigid_body_params s
     = camera_to_camera_projection_traverse optics i i img_source_x
         img_source_y img_target_x img_target_y params img_target_dx
         img_target_dy rigid_body_params s).
  { unfold camera_to_camera_projection. by rewrite (bind_ok _ _ tt). }
  split; [exact Hrun|].
  intros ->. rewrite Hrun.
  apply camera_to_camera_projection_traverse_optical.
Qed.

Lemma camera_to_camera_projection_same_camera_witness :
  exists out,
    camera_to_camera_projection example_optics 1 1 [10; 20] [30; 40] [0; 0]
      [0; 0] [5; 0; 0] [] [] [] example_system = (Ok out, example_system).
Proof.
  refine (proj2 (proj2 (camera_to_camera_projection_same_camera example_optics
    example_system 1 [10; 20] [30; 40] [0; 0] [0; 0] [5; 0; 0] [] [] [] _ _))
    eq_refl).
  - unfold num_cameras. simpl. lia.
  - unfold well_sized. simpl. repeat split; auto.
Defined.

(** C4 (the source does not do what the claim says, by the defect of C1).
    The claim: with rigid-body parameters and partials requested the
    projection returns six columns, three for the optical parameters and
    three for the rigid body. In the source such a call, for valid camera
    indices, well-sized arguments and a batch that holds a point, passes
    the argument checks of [camera_to_camera_projection] and then raises
    in [rot_trans_3D], which is handed target vectors of the length of the
    batch: no column is returned, and the object is as it was. *)
Theorem rigid_body_projection_returns_no_column (optics : Optics)
  (s : Camera_System) (source_id target_id : nat)
  (img_source_x img_source_y img_target_x img_target_y params : list R)
  (img_target_dx img_target_dy : list (list R)) (rigid_body_params : list R) :
  (source_id < num_cameras s)%nat -> (target_id < num_cameras s)%nat ->
  well_sized img_source_x img_source_y img_target_x img_target_y params
    img_target_dx img_target_dy rigid_body_params ->
  length rigid_body_params = 6%nat -> img_target_dx <> [] ->
  img_source_x <> [] ->
  camera_to_camera_projection_checks source_id target_id img_source_x
    img_source_y img_target_x img_target_y params img_target_dx img_target_dy
    rigid_body_params s = (Ok tt, s)
  /\ camera_to_camera_projection optics source_id target_id img_source_x
       img_source_y img_target_x img_target_y params img_target_dx
       img_target_dy rigid_body_params s = (Error "", s).
Proof.
  intros Hs Ht Hw Hr Hd Hx.
  pose proof (camera_to_camera_projection_checks_pass s source_id target_id
                _ _ _ _ _ _ _ _ Hs Ht Hw) as Hc.
  split; [exact Hc|].
  unfold camera_to_camera_projection.
  rewrite (bind_ok _ _ tt) by exact Hc.
  unfold camera_to_camera_projection_traverse.
  rewrite (bind_ok _ _ s) by reflexivity.
  rewrite Hr.
  replace (0 <? length img_target_dx)%nat with true
    by (destruct img_target_dx; [contradiction | reflexivity]).
  cbn [Nat.ltb Nat.leb].
  destruct (image_to_world _ _ _ _ _) as [[wx wy] wz].
  unfold bind.
  rewrite rot_trans_3D_rejects_sized_targets; [reflexivity|].
  destruct img_source_x; [contradiction | discriminate].
Qed.

Lemma rigid_body_projection_returns_no_column_witness :
  camera_to_camera_projection_checks 0 1 [0] [0] [0] [0] [5; 0; 0]
    (assign_rows 6 1 0) (assign_rows 6 1 0) [0; 0; 0; 0; 0; 0] example_system
  = (Ok tt, example_system)
  /\ camera_to_camera_projection example_optics 0 1 [0] [0] [0] [0] [5; 0; 0]
       (assign_rows 6 1 0) (assign_rows 6 1 0) [0; 0; 0; 0; 0; 0]
       example_system = (Error "", example_system).
Proof.
  refine (rigid_body_projection_returns_no_column example_optics
            example_system 0 1 [0] [0] [0] [0] [5; 0; 0] (assign_rows 6 1 0)
            (assign_rows 6 1 0) [0; 0; 0; 0; 0; 0] _ _ _ _ _ _).
  - unfold num_cameras. simpl. lia.
  - unfold num_cameras. simpl. lia.
  - unfold well_sized, tables_well_sized. simpl.
    repeat split; auto. right. repeat split; repeat constructor.
  - reflexivity.
  - discriminate.
  - discriminate.
Defined.

End RigidBodyClaims.

(** ** The reader of the canonical dialect *)

Section CanonicalFacts.
Variable env : Env.

Lemma rbind_error {A B} (r : result A) (k : A -> result B) :
  is_ok r = false -> is_ok (rbind r k) = false.
Proof. destruct r; [discriminate|reflexivity]. Qed.

Lemma rbind_always_error {A B} (r : result A) (k : A -> result B) :
  (forall a, is_ok (k a) = false) -> is_ok (rbind r k) = false.
Proof. intros H. destruct r; simpl; [apply H|reflexivity]. Qed.

(** The loop over the rows raises at row 0, whether the row is there (the
    check that should report a missing row) or not ([get] on a missing
    parameter). *)
Lemma read_rotation_rows_raises (camRot : list (string * ParameterEntry))
  (l : list nat) (camera_info : Camera_Info) :
  is_ok (read_rotation_rows env camRot (0 :: l) camera_info) = false.
Proof.
  simpl. unfold isParameter, get_string, test_for_exception.
  destruct (find_entry _ camRot); reflexivity.
Qed.

(** A camera group that has a rotation matrix sublist is never read. *)
Lemma read_camera_info_rejects_rotation_matrix (i : nat)
  (camParams : list (string * ParameterEntry)) :
  isSublist (rotation_3x3_matrix env) camParams = true ->
  is_ok (read_camera_info env i camParams) = false.
Proof.
  intros H. unfold read_camera_info. rewrite H.
  repeat lazymatch goal with
    | |- is_ok (rbind _ _) = false =>
        apply rbind_always_error; intros ?; cbv beta zeta
    end.
  apply read_rotation_rows_raises.
Qed.

(** The name under which the loop over the cameras looks up camera [i]. *)
Lemma push_back_camera_keeps_limit (camera_info : Camera_Info) s :
  max_num_cameras_allowed_ (snd (push_back_camera env camera_info s))
  = max_num_cameras_allowed_ s.
Proof.
  unfold push_back_camera, bind, lift, modify.
  destruct (Camera_check env camera_info); reflexivity.
Qed.

(** One pass of the loop for a camera that is there and is not the one
    before the limit: it raises, or it goes on with the limit unchanged. *)
Lemma read_cameras_step (sys_params : list (string * ParameterEntry))
  (i : nat) (l : list nat) s :
  isSublist ("CAMERA " ++ string_of_size_t i ++ endl) sys_params = true ->
  i <> max_num_cameras_allowed_ s - 1 ->
  is_ok (fst (read_cameras env sys_params (i :: l) s)) = false \/
  exists s', max_num_cameras_allowed_ s' = max_num_cameras_allowed_ s /\
    read_cameras env sys_params (i :: l) s = read_cameras env sys_params l s'.
Proof.
  intros Hsub Hi. apply Nat.eqb_neq in Hi.
  assert (E : read_cameras env sys_params (i :: l) s =
    match sublist ("CAMERA " ++ string_of_size_t i ++ endl) sys_params with
    | Error e => (Error e, s)
    | Ok camParams =>
        match read_camera_info env i camParams with
        | Error e => (Error e, s)
        | Ok camera_info =>
            match push_back_camera env camera_info s with
            | (Ok _, s') => read_cameras env sys_params l s'
            | (Error e, s') => (Error e, s')
            end
        end
    end).
  { simpl. unfold bind at 1, get_state at 1. rewrite Hi, Hsub.
    unfold bind at 1. simpl TEUCHOS_TEST_FOR_EXCEPTION. unfold ret at 1.
    unfold bind at 1, lift at 1.
    destruct (sublist _ sys_params) as [camParams|e]; [|reflexivity].
    unfold bind at 1, lift at 1.
    destruct (read_camera_info env i camParams); reflexivity. }
  rewrite E. clear E.
  destruct (sublist _ sys_params) as [camParams|e]; [|left; reflexivity].
  destruct (read_camera_info env i camParams) as [camera_info|e];
    [|left; reflexivity].
  pose proof (push_back_camera_keeps_limit camera_info s) as Hl.
  destruct (push_back_camera env camera_info s) as [[[]|e] s'];
    [|left; reflexivity].
  right. exists s'. split; [exact Hl|reflexivity].
Qed.

(** With the limit of 10, nine cameras numbered from 0 are too many: the
    loop raises, at the latest when it comes to look for a tenth. *)
Lemma read_cameras_nine_raise (sys_params : list (string * ParameterEntry)) s :
  max_num_cameras_allowed_ s = 10 ->
  (forall i, i < 9 ->
     isSublist ("CAMERA " ++ string_of_size_t i ++ endl) sys_params = true) ->
  is_ok (fst (read_cameras env sys_params (seq 0 10) s)) = false.
Proof.
  intros Hmax Hsub.
  assert (Hlast : forall s, max_num_cameras_allowed_ s = 10 ->
    is_ok (fst (read_cameras env sys_params [9] s)) = false).
  { intros s0 H0. simpl. unfold bind, get_state. rewrite H0. reflexivity. }
  assert (Hstep : forall i l, i < 9 ->
    (forall s, max_num_cameras_allowed_ s = 10 ->
       is_ok (fst (read_cameras env sys_params l s)) = false) ->
    forall s, max_num_cameras_allowed_ s = 10 ->
      is_ok (fst (read_cameras env sys_params (i :: l) s)) = false).
  { intros i l Hi IH s0 H0.
    destruct (read_cameras_step sys_params i l s0 (Hsub i Hi))
      as [He | (s' & Hs' & ->)]; [rewrite H0; simpl; lia|exact He|].
    apply IH. congruence. }
  revert s Hmax. simpl seq.
  do 9 (apply Hstep; [lia|]). exact Hlast.
Qed.

(** When the first camera is not found under the name the loop looks up,
    the loop ends at once and no camera is read. *)
Lemma read_cameras_none (sys_params : list (string * ParameterEntry))
  (l : list nat) s :
  isSublist ("CAMERA " ++ string_of_size_t 0 ++ endl) sys_params = false ->
  2 <= max_num_cameras_allowed_ s ->
  read_cameras env sys_params (0 :: l) s = (Ok tt, s).
Proof.
  intros Hsub Hmax. cbn [read_cameras]. unfold bind at 1, get_state at 1.
  assert (E : (0 =? max_num_cameras_allowed_ s - 1) = false)
    by (apply Nat.eqb_neq; lia).
  rewrite E, Hsub. reflexivity.
Qed.

End CanonicalFacts.

(** ** The claims about the canonical dialect *)

(** C6 (the source does not do what the claim says). The claim: a camera
    group with a [rotation_3x3_matrix] sublist that holds ROW 0, ROW 1 and
    ROW 2 and no Euler angle is read, and its rotation matrix holds the
    nine entries. In the source the check in the loop over the rows
    raises "cal file missing row" when the row is present, so the group
    the writer emits is rejected, as a group and as the only camera of a
    file. *)
Theorem matrix_camera_group_is_rejected :
  read_camera_info example_env 0 matrix_camera_group
  = Error "cal file missing row for camera 3x3 rotation matrix"
  /\ Camera_System_from_file example_env
       (canonical_file [(("CAMERA 0" ++ endl)%string, PSublist matrix_camera_group)])
     = Error "cal file missing row for camera 3x3 rotation matrix".
Proof. split; lazy; reflexivity. Qed.

(** The same group without the sublist is read. *)
Lemma plain_camera_group_is_read :
  match read_camera_info example_env 0 plain_camera_group with
  | Ok c => image_height_ c = 480%Z /\ image_width_ c = 640%Z
            /\ rotation_matrix_ c = identity_matrix_3
  | Error _ => False
  end.
Proof. lazy. repeat split; reflexivity. Qed.

(** C9 (the source does not do what the claim says). The claim: with the
    limit of 10 cameras, a file with the groups CAMERA 0 to CAMERA k-1 is
    read for every k below 10. In the source the loop raises as soon as
    its index is the limit minus one, before it looks whether that camera
    is there, so a file with nine cameras is rejected; and the name the
    loop looks up ends with the end of line that is appended to it, so in
    a file with the names the writer emits no camera is found at all. *)
Theorem nine_cameras_are_rejected :
  Camera_System_from_file example_env (canonical_file (groups_as_read 9))
  = Error "too many cameras defined in the xml calibration file"
  /\ match Camera_System_from_file example_env
             (canonical_file (groups_as_written 9)) with
     | Ok s => cameras_ s = []
     | Error _ => False
     end.
Proof. split; lazy; reflexivity. Qed.

(** Up to eight cameras, under the names the loop looks up, are read. *)
Lemma up_to_eight_cameras_are_read (k : nat) :
  k <= 8 ->
  match Camera_System_from_file example_env (canonical_file (groups_as_read k)) with
  | Ok s => length (cameras_ s) = k
  | Error _ => False
  end.
Proof.
  intros Hk.
  do 9 (destruct k as [|k]; [lazy; reflexivity|]). lia.
Qed.

(** ** The reader of the text dialect *)

Lemma truncate_IZR (z : Z) : truncate (IZR z) = z.
Proof.
  unfold truncate. destruct (Rle_dec 0 (IZR z)) as [H|H].
  - symmetry. apply Int_part_spec. lra.
  - rewrite <- opp_IZR. rewrite <- (Int_part_spec (IZR (- z)) (- z)) by lra.
    lia.
Qed.

(** A number that fits an [int_t] is converted to itself. *)
Lemma double_to_int_IZR (z : Z) :
  (INT_MIN <= z <= INT_MAX)%Z -> double_to_int (IZR z) = z.
Proof.
  intros [Hl Hu]. unfold double_to_int. cbv zeta. rewrite truncate_IZR.
  apply Z.leb_le in Hl. apply Z.leb_le in Hu. rewrite Hl, Hu. reflexivity.
Qed.

(** [atoi] returns an [int]. *)
Lemma atoi_range (s : string) : (INT_MIN <= atoi s <= INT_MAX)%Z.
Proof.
  unfold atoi, long_to_int, INT_MIN, INT_MAX.
  pose proof (Z.mod_pos_bound (strtol s + 2 ^ 31) (2 ^ 32) ltac:(lia)).
  lia.
Qed.

Section TextFacts.
Variable env : Env.

(** The first loop counts the value lines, or raises at a line that begins
    with TRANSFORM. *)
Lemma count_values_counts (lines : list (list string)) (k : nat) :
  no_TRANSFORM lines = true ->
  count_values k lines = Ok (k + length (value_tokens lines)).
Proof.
  revert k. induction lines as [|tokens lines IH]; intros k H; simpl.
  - f_equal. lia.
  - simpl in H. apply andb_prop in H. destruct H as [Ht Hl].
    destruct tokens as [|token0 rest]; [by apply IH|].
    simpl in Ht. destruct (String.eqb token0 "#"); [by apply IH|].
    destruct (String.eqb token0 "TRANSFORM"); [discriminate|].
    rewrite IH by assumption. simpl. f_equal. lia.
Qed.

Lemma count_values_raises (lines : list (list string)) (k : nat) :
  no_TRANSFORM lines = false -> is_ok (count_values k lines) = false.
Proof.
  revert k. induction lines as [|tokens lines IH]; intros k H; simpl.
  - discriminate.
  - simpl in H.
    destruct tokens as [|token0 rest]; [by apply IH|].
    simpl in H.
    destruct (String.eqb token0 "#") eqn:E.
    + apply IH. apply String.eqb_eq in E. subst token0. exact H.
    + destruct (String.eqb token0 "TRANSFORM"); [reflexivity|by apply IH].
Qed.

(** The second loop handles the value lines in order. *)
Lemma read_txt_values_fold (n : nat) (st : Txt_State)
  (lines : list (list string)) :
  read_txt_values env n st lines
  = fold_left (read_txt_value env n) (value_tokens lines) st.
Proof.
  revert st. induction lines as [|tokens lines IH]; intros st; simpl.
  - reflexivity.
  - destruct tokens as [|token0 rest]; [apply IH|].
    destruct (String.eqb token0 "#"); [apply IH|]. simpl. apply IH.
Qed.

(** A value before the last two leaves the image sizes alone. *)
Lemma read_txt_value_early (n : nat) (st : Txt_State) (token0 : string) :
  current_line st < n - 2 ->
  let st' := read_txt_value env n st token0 in
  txt_img_height st' = txt_img_height st
  /\ txt_img_width st' = txt_img_width st
  /\ current_line st' = S (current_line st).
Proof.
  intros H. unfold read_txt_value.
  destruct (current_line st <? 8); [repeat split|].
  destruct (current_line st <? 16); [repeat split|].
  apply Nat.ltb_lt in H. rewrite H. repeat split.
Qed.

Lemma read_txt_values_early (n : nat) (values : list string) (st : Txt_State) :
  current_line st + length values <= n - 2 ->
  let st' := fold_left (read_txt_value env n) values st in
  txt_img_height st' = txt_img_height st
  /\ txt_img_width st' = txt_img_width st
  /\ current_line st' = current_line st + length values.
Proof.
  revert st. induction values as [|v values IH]; intros st H; simpl in *.
  - repeat split. lia.
  - destruct (read_txt_value_early n st v ltac:(lia)) as (Hh & Hw & Hc).
    destruct (IH (read_txt_value env n st v) ltac:(lia)) as (Hh' & Hw' & Hc').
    rewrite Hh', Hw', Hc', Hh, Hw, Hc. repeat split. lia.
Qed.

(** With 24 or 30 values, the height is read from the value before the
    last and the width from the last one. *)
Lemma read_txt_values_sizes (n : nat) (lines : list (list string)) :
  length (value_tokens lines) = n -> n = 24 \/ n = 30 ->
  let st := read_txt_values env n (txt_initial_state n) lines in
  txt_img_height st
  = double_to_int (strtod env (nth (n - 2) (value_tokens lines) EmptyString))
  /\ txt_img_width st
     = double_to_int (strtod env (nth (n - 1) (value_tokens lines) EmptyString)).
Proof.
  intros Hlen Hn. rewrite read_txt_values_fold.
  set (values := value_tokens lines) in *.
  assert (Hsplit : values = take (n - 2) values ++ drop (n - 2) values)
    by (by rewrite take_drop).
  assert (Htake : length (take (n - 2) values) = n - 2)
    by (rewrite length_take; lia).
  destruct (drop (n - 2) values) as [|h [|w [|? ?]]] eqn:Hdrop;
    try (apply (f_equal length) in Hdrop; rewrite length_drop in Hdrop;
         simpl in Hdrop; lia).
  rewrite Hsplit. rewrite fold_left_app.
  destruct (read_txt_values_early n (take (n - 2) values) (txt_initial_state n))
    as (Hh & Hw & Hc); [simpl; lia|].
  set (st1 := fold_left (read_txt_value env n) (take (n - 2) values)
                (txt_initial_state n)) in *.
  simpl in Hc. rewrite Htake in Hc.
  assert (N2 : nth (n - 2) (take (n - 2) values ++ [h; w]) EmptyString = h).
  { rewrite app_nth2 by lia. rewrite Htake, Nat.sub_diag. reflexivity. }
  assert (N1 : nth (n - 1) (take (n - 2) values ++ [h; w]) EmptyString = w).
  { rewrite app_nth2 by lia. rewrite Htake.
    replace (n - 1 - (n - 2)) with 1 by lia. reflexivity. }
  rewrite N2, N1. simpl fold_left.
  unfold read_txt_value at 2. rewrite Hc.
  replace (n - 2 <? 8) with false by (symmetry; apply Nat.ltb_ge; lia).
  replace (n - 2 <? 16) with false by (symmetry; apply Nat.ltb_ge; lia).
  rewrite Nat.ltb_irrefl.
  replace (n - 2 <? n - 1) with true by (symmetry; apply Nat.ltb_lt; lia).
  unfold read_txt_value. cbn [current_line].
  replace (S (n - 2) <? 8) with false by (symmetry; apply Nat.ltb_ge; lia).
  replace (S (n - 2) <? 16) with false by (symmetry; apply Nat.ltb_ge; lia).
  replace (S (n - 2) <? n - 2) with false by (symmetry; apply Nat.ltb_ge; lia).
  replace (S (n - 2) <? n - 1) with false by (symmetry; apply Nat.ltb_ge; lia).
  split; reflexivity.
Qed.

Lemma Camera_System_from_file_ok (f : Calibration_File) :
  is_ok (Camera_System_from_file env f)
  = is_ok (fst (read_calibration_file env f Camera_System_new)).
Proof.
  unfold Camera_System_from_file.
  destruct (read_calibration_file env f Camera_System_new) as [[[]|e] s];
    reflexivity.
Qed.

Lemma push_back_camera_ok (camera_info : Camera_Info) s :
  push_back_camera env camera_info s
  = match Camera_check env camera_info with
    | Ok _ => (Ok tt, set_cameras_ (cameras_ s ++ [camera_info]) s)
    | Error e => (Error e, s)
    end.
Proof.
  unfold push_back_camera, bind, lift, modify.
  destruct (Camera_check env camera_info); reflexivity.
Qed.

(** When the text branch returns: no line begins with TRANSFORM, there are
    24 or 30 values, the assertion of the second loop holds on every line
    (or the build has none), neither image size is negative and the
    constructor accepts both cameras. *)
Lemma read_txt_ok (name : string) (lines : list (list string)) s :
  let n := length (value_tokens lines) in
  let st := read_txt_values env n (txt_initial_state n) lines in
  is_ok (fst (read_txt env name lines s))
  = no_TRANSFORM lines && ((n =? 24) || (n =? 30))
    && (NDEBUG env || read_txt_asserts lines)
    && (0 <=? txt_img_height st)%Z && (0 <=? txt_img_width st)%Z
    && is_ok (Camera_check env (txt_camera_0 st))
    && is_ok (Camera_check env (txt_camera_1 env (n =? 24) st)).
Proof.
  intros n st. unfold read_txt.
  unfold bind at 1, modify at 1. unfold bind at 1, lift at 1.
  destruct (no_TRANSFORM lines) eqn:ET.
  - rewrite count_values_counts by assumption. simpl Nat.add. fold n.
    unfold num_values_with_eulers, num_values_with_R. fold st.
    unfold bind at 1.
    destruct (n =? 24) eqn:E24; destruct (n =? 30) eqn:E30; simpl negb;
      simpl andb; simpl orb; simpl TEUCHOS_TEST_FOR_EXCEPTION;
      try reflexivity.
    all: unfold bind at 1, lift at 1, assert_;
      destruct (NDEBUG env || read_txt_asserts lines); simpl andb;
      try reflexivity.
    all: unfold bind at 1; rewrite (Z.ltb_antisym 0 (txt_img_height st));
      destruct (0 <=? txt_img_height st)%Z; simpl; try reflexivity.
    all: unfold bind at 1; rewrite (Z.ltb_antisym 0 (txt_img_width st));
      destruct (0 <=? txt_img_width st)%Z; simpl; try reflexivity.
    all: unfold bind; rewrite !push_back_camera_ok;
      destruct (Camera_check env (txt_camera_0 st)); simpl; try reflexivity;
      rewrite push_back_camera_ok;
      destruct (Camera_check env (txt_camera_1 env _ st)); reflexivity.
  - pose proof (count_values_raises lines 0 ET) as Hc.
    destruct (count_values 0 lines); [discriminate|reflexivity].
Qed.

End TextFacts.

(** ** The claim about the text dialect *)

(** C7 (counterexample). A text file with 24 values and no TRANSFORM line
    that is not read: its image height, the value before the last, is
    -1. *)
Lemma text_file_with_negative_height_is_rejected :
  no_TRANSFORM (token_lines negative_height_file) = true
  /\ length (value_tokens (token_lines negative_height_file)) = 24
  /\ is_ok (Camera_System_from_file example_env negative_height_file) = false.
Proof.
  split; [reflexivity|]. split; [reflexivity|].
  rewrite Camera_System_from_file_ok.
  unfold read_calibration_file.
  change (teuchos_xml negative_height_file) with (@None (list (string * ParameterEntry))).
  change (good negative_height_file) with true.
  change (found xml (cal_file negative_height_file)) with false.
  change (found txt (cal_file negative_height_file)) with true.
  cbv iota. unfold bind at 1. simpl TEUCHOS_TEST_FOR_EXCEPTION. unfold ret at 1.
  rewrite read_txt_ok.
  destruct (read_txt_values_sizes example_env 24
              (token_lines negative_height_file) eq_refl (or_introl eq_refl))
    as [Hh _].
  change (length (value_tokens (token_lines negative_height_file))) with 24.
  rewrite Hh.
  change (nth (24 - 2) (value_tokens (token_lines negative_height_file)) EmptyString)
    with "-1"%string.
  change (strtod example_env "-1") with (IZR (-1)).
  rewrite double_to_int_IZR by (unfold INT_MIN, INT_MAX; lia). reflexivity.
Qed.

(** C7 (amended). A file of the text dialect (one that the Teuchos parser
    does not read, whose stream is good and whose name has [txt] and not
    [xml] in it) is read if and only if no line begins with TRANSFORM, the
    number of its value lines is 24 or 30, every value line holds one
    token or has [#] as its second token (the assertion of line 383, which
    a build with [NDEBUG] does not make), the image height and the image
    width (the last two values, converted to [int_t]) are not negative,
    and the constructor of the camera accepts both cameras. *)
Theorem text_file_is_read_iff (env : Env) (f : Calibration_File) :
  teuchos_xml f = None -> good f = true ->
  found xml (cal_file f) = false -> found txt (cal_file f) = true ->
  let values := value_tokens (token_lines f) in
  let n := length values in
  let st := read_txt_values env n (txt_initial_state n) (token_lines f) in
  is_ok (Camera_System_from_file env f) = true <->
  no_TRANSFORM (token_lines f) = true
  /\ (n = 24 \/ n = 30)
  /\ (NDEBUG env = true \/ read_txt_asserts (token_lines f) = true)
  /\ (0 <= double_to_int (strtod env (nth (n - 2) values EmptyString)))%Z
  /\ (0 <= double_to_int (strtod env (nth (n - 1) values EmptyString)))%Z
  /\ Camera_check env (txt_camera_0 st) = Ok tt
  /\ Camera_check env (txt_camera_1 env (n =? 24) st) = Ok tt.
Proof.
  intros Hx Hg Hxml Htxt values n st.
  rewrite Camera_System_from_file_ok.
  unfold read_calibration_file. rewrite Hx, Hg, Hxml, Htxt.
  unfold bind at 1. simpl TEUCHOS_TEST_FOR_EXCEPTION. unfold ret at 1.
  rewrite read_txt_ok. fold values n st.
  rewrite !andb_true_iff, !orb_true_iff, !Nat.eqb_eq, !Z.leb_le.
  assert (Hcheck : forall r : result unit, is_ok r = true <-> r = Ok tt).
  { intros [[]|e]; simpl; split; congruence. }
  rewrite !Hcheck.
  split.
  - intros ((((((Ht & Hn) & Ha) & Hh) & Hw) & H0) & H1).
    destruct (read_txt_values_sizes env n (token_lines f) eq_refl Hn)
      as [Eh Ew].
    fold values st in Eh, Ew. rewrite <- Eh, <- Ew. tauto.
  - intros (Ht & Hn & Ha & Hh & Hw & H0 & H1).
    destruct (read_txt_values_sizes env n (token_lines f) eq_refl Hn)
      as [Eh Ew].
    fold values st in Eh, Ew. rewrite <- Eh in Hh. rewrite <- Ew in Hw. tauto.
Qed.

Lemma text_file_is_read_iff_witness :
  is_ok (Camera_System_from_file example_env euler_text_file) = true.
Proof.
  refine (proj2 (text_file_is_read_iff example_env euler_text_file
                   eq_refl eq_refl eq_refl eq_refl) _).
  destruct (read_txt_values_sizes example_env 24 (token_lines euler_text_file)
              eq_refl (or_introl eq_refl)) as [Hh Hw].
  change (nth (24 - 2) (value_tokens (token_lines euler_text_file)) EmptyString)
    with "480"%string in Hh.
  change (nth (24 - 1) (value_tokens (token_lines euler_text_file)) EmptyString)
    with "640"%string in Hw.
  change (strtod example_env "480") with (IZR 480) in Hh.
  change (strtod example_env "640") with (IZR 640) in Hw.
  rewrite double_to_int_IZR in Hh, Hw by (unfold INT_MIN, INT_MAX; lia).
  change (length (value_tokens (token_lines euler_text_file))) with 24.
  change (nth (24 - 2) (value_tokens (token_lines euler_text_file)) EmptyString)
    with "480"%string.
  change (nth (24 - 1) (value_tokens (token_lines euler_text_file)) EmptyString)
    with "640"%string.
  change (strtod example_env "480") with (IZR 480).
  change (strtod example_env "640") with (IZR 640).
  rewrite !double_to_int_IZR by (unfold INT_MIN, INT_MAX; lia).
  split; [reflexivity|]. split; [left; reflexivity|].
  split; [right; reflexivity|].
  split; [lia|]. split; [lia|].
  unfold txt_camera_0, txt_camera_1. cbn [Camera_check example_env].
  unfold example_Camera_check. cbn [image_height_ image_width_ set_image_width_ set_image_height_].
  rewrite Hh, Hw. split; reflexivity.
Defined.

(** ** The reader of the VIC3D dialect *)

Section Vic3dFacts.
Variable env : Env.

Lemma same_counters_refl st : same_counters st st.
Proof. repeat split. Qed.

Lemma same_counters_trans st1 st2 st3 :
  same_counters st1 st2 -> same_counters st2 st3 -> same_counters st1 st3.
Proof.
  intros (?&?&?&?) (?&?&?&?). repeat split; congruence.
Qed.

Lemma update_camera_counters st f : same_counters st (update_camera st f).
Proof.
  unfold same_counters, update_camera. simpl.
  repeat split. apply length_insert.
Qed.

Lemma store_intrinsics_counters tokens l st st' :
  store_intrinsics env tokens l st = Ok st' -> same_counters st st'.
Proof.
  revert st. induction l as [|i l IH]; intros st H; simpl in H.
  - injection H as <-. apply same_counters_refl.
  - destruct (array_at tokens (i + 3)); simpl in H; [|discriminate].
    destruct (array_at param_order_int i); simpl in H; [|discriminate].
    eapply same_counters_trans; [apply update_camera_counters|].
    by apply IH.
Qed.

Lemma array_at_ok {A} (a : list A) (i : nat) (d : A) :
  i < length a -> array_at a i = Ok (nth i a d).
Proof.
  intros H. unfold array_at.
  destruct (lookup_lt_is_Some_2 a i H) as [x Hx]. rewrite Hx.
  f_equal. by rewrite nth_lookup, Hx.
Qed.

Lemma store_intrinsics_ok tokens st :
  18 < length tokens ->
  exists st', store_intrinsics env tokens (seq 0 (length param_order_int)) st
              = Ok st'.
Proof.
  intros H. simpl seq.
  assert (Hstep : forall i l,
    i < 8 ->
    (forall st, exists st', store_intrinsics env tokens l st = Ok st') ->
    forall st, exists st', store_intrinsics env tokens (i :: l) st = Ok st').
  { intros i l Hi IH st0. simpl.
    rewrite (array_at_ok tokens (i + 3) EmptyString) by lia.
    rewrite (array_at_ok param_order_int i 0) by (simpl; lia).
    simpl. apply IH. }
  revert st. do 8 (apply Hstep; [lia|]).
  intros st. exists st. reflexivity.
Qed.

Lemma rbind_ok_inv {A B} (r : result A) (k : A -> result B) (x : B) :
  rbind r k = Ok x -> exists a, r = Ok a /\ k a = Ok x.
Proof. destruct r as [a|e]; simpl; [eauto|discriminate]. Qed.

Lemma test_ok_inv {B} (b : bool) (msg : string) (k : unit -> result B) (x : B) :
  rbind (test_for_exception b msg) k = Ok x -> b = false /\ k tt = Ok x.
Proof. destruct b; simpl; [discriminate|auto]. Qed.

Ltac invert_rbind H :=
  repeat first
    [ let E := fresh "E" in
      apply test_ok_inv in H; destruct H as [E H]; cbv beta zeta in H
    | let a := fresh "a" in let E := fresh "E" in
      apply rbind_ok_inv in H; destruct H as (a & E & H); cbv beta zeta in H ].

(** The body of the loop, when it does not raise: a [CAMERA] line is one
    of the first two and moves on to the next camera, and only a
    [POLYGONMASK] line writes the image sizes. *)
Lemma read_vic3d_line_returns st tokens st' :
  read_vic3d_line env st tokens = Ok st' ->
  current_camera st'
  = current_camera st + (if begins_with "CAMERA" tokens then 1 else 0)
  /\ (begins_with "CAMERA" tokens = true -> current_camera st <= 1)
  /\ (begins_with "POLYGONMASK" tokens = false ->
      xml_img_height st' = xml_img_height st
      /\ xml_img_width st' = xml_img_width st)
  /\ length (camera_infos st') = length (camera_infos st).
Proof.
  unfold read_vic3d_line. intros H.
  destruct tokens as [|token0 rest].
  { injection H as <-. simpl. repeat split; lia. }
  change (length (token0 :: rest) =? 0) with false in H. cbv iota in H.
  change (array_at (token0 :: rest) 0) with (Ok token0) in H.
  change (rbind (Ok token0) ?k) with (k token0) in H. cbv beta in H.
  cbn [begins_with].
  destruct (String.eqb token0 "POLYGONMASK") eqn:EP.
  { assert (EC : String.eqb token0 "CAMERA" = false).
    { apply String.eqb_eq in EP. subst token0. reflexivity. }
    rewrite EC. invert_rbind H. injection H as <-. simpl.
    repeat split; try lia; discriminate. }
  destruct (String.eqb token0 "CAMERA") eqn:EC; simpl negb in H; cbv iota in H.
  2:{ injection H as <-. repeat split; lia. }
  invert_rbind H. injection H as <-.
  match goal with
  | Hs : store_intrinsics _ _ _ _ = Ok _ |- _ =>
      apply store_intrinsics_counters in Hs;
      destruct Hs as (Hc & Hh & Hw & Hl)
  end.
  cbn [current_camera xml_img_height xml_img_width camera_infos update_camera]
    in *.
  rewrite !length_insert in *.
  match goal with
  | E1 : (1 <? current_camera st) = false |- _ => apply Nat.ltb_ge in E1
  end.
  repeat split; try lia; try congruence.
Qed.




Lemma count_records_cons (name : string) (tokens : list string)
  (lines : list (list string)) :
  count_records name (tokens :: lines)
  = (if begins_with name tokens then 1 else 0) + count_records name lines.
Proof.
  unfold count_records. simpl. destruct (begins_with name tokens); reflexivity.
Qed.








(** The loop raises when its body raises on one of the lines, whatever the
    state it is in. *)
Lemma read_vic3d_lines_line_raises (lines : list (list string))
    (p : list string -> bool) :
  (forall st tokens, p tokens = true ->
                     is_ok (read_vic3d_line env st tokens) = false) ->
  existsb p lines = true ->
  forall st, is_ok (read_vic3d_lines env st lines) = false.
Proof.
  intros Hp. induction lines as [|tokens lines IH]; intros E st;
    [discriminate|].
  cbn [existsb] in E. cbn [read_vic3d_lines].
  destruct (read_vic3d_line env st tokens) as [st1|e] eqn:E1;
    [|reflexivity].
  destruct (p tokens) eqn:Ep.
  - pose proof (Hp st tokens Ep) as F. rewrite E1 in F. discriminate F.
  - apply IH. exact E.
Qed.

(** When the loop over the lines returns, there were at most two [CAMERA]
    lines and [camera_infos] still has its two entries. *)
Lemma read_vic3d_lines_returns (lines : list (list string)) st st' :
  read_vic3d_lines env st lines = Ok st' ->
  current_camera st' = current_camera st + count_records "CAMERA" lines
  /\ length (camera_infos st') = length (camera_infos st)
  /\ (current_camera st <= 2 -> current_camera st' <= 2).
Proof.
  revert st. induction lines as [|tokens lines IH]; intros st H.
  - injection H as <-. unfold count_records. simpl. repeat split; lia.
  - cbn [read_vic3d_lines] in H. rewrite count_records_cons.
    destruct (read_vic3d_line env st tokens) as [st1|e] eqn:E;
      [|discriminate].
    cbn [rbind] in H. apply read_vic3d_line_returns in E.
    destruct E as (Ec & Hc & _ & Hl).
    destruct (IH st1 H) as (Ic & Il & I2).
    split; [lia|]. split; [congruence|].
    intros H2. apply I2. destruct (begins_with "CAMERA" tokens).
    + specialize (Hc eq_refl). lia.
    + lia.
Qed.

Lemma array_at_nth {A} (a : list A) (i : nat) (x d : A) :
  array_at a i = Ok x -> nth i a d = x.
Proof.
  unfold array_at. destruct (a !! i) as [y|] eqn:E; [|discriminate].
  intros H. injection H as <-. by rewrite nth_lookup, E.
Qed.





(** A [POLYGONMASK] line, when the body of the loop returns on it, sets
    the image sizes to its third and fifth token. *)
Lemma read_vic3d_line_sizes st tokens st' :
  read_vic3d_line env st tokens = Ok st' ->
  (xml_img_width st', xml_img_height st')
  = vic3d_declared_sizes [tokens] (xml_img_width st, xml_img_height st).
Proof.
  intros H. unfold vic3d_declared_sizes. cbn [fold_left].
  destruct (begins_with "POLYGONMASK" tokens) eqn:EP.
  - unfold read_vic3d_line in H.
    destruct tokens as [|token0 rest]; [discriminate|].
    change (length (token0 :: rest) =? 0) with false in H. cbv iota in H.
    change (array_at (token0 :: rest) 0) with (Ok token0) in H.
    change (rbind (Ok token0) ?k) with (k token0) in H. cbv beta in H.
    cbn [begins_with] in EP. rewrite EP in H.
    invert_rbind H. injection H as <-. cbn [xml_img_width xml_img_height].
    repeat match goal with
    | E : array_at _ _ = Ok _ |- _ =>
        apply (array_at_nth _ _ _ EmptyString) in E
    end.
    congruence.
  - pose proof (read_vic3d_line_returns _ _ _ H) as (_ & _ & Hd & _).
    destruct (Hd EP) as [-> ->]. reflexivity.
Qed.

Lemma vic3d_declared_sizes_cons tokens lines sizes :
  vic3d_declared_sizes (tokens :: lines) sizes
  = vic3d_declared_sizes lines (vic3d_declared_sizes [tokens] sizes).
Proof. reflexivity. Qed.

(** When the loop returns, the image sizes are those the file declares. *)
Lemma read_vic3d_lines_sizes (lines : list (list string)) st st' :
  read_vic3d_lines env st lines = Ok st' ->
  (xml_img_width st', xml_img_height st')
  = vic3d_declared_sizes lines (xml_img_width st, xml_img_height st).
Proof.
  revert st. induction lines as [|tokens lines IH]; intros st H.
  - injection H as <-. reflexivity.
  - cbn [read_vic3d_lines] in H.
    destruct (read_vic3d_line env st tokens) as [st1|e] eqn:E;
      [|discriminate].
    cbn [rbind] in H. rewrite vic3d_declared_sizes_cons.
    rewrite <- (read_vic3d_line_sizes _ _ _ E). by apply IH.
Qed.

(** On a line on which no subscript leaves the token vector, the body of
    the loop raises through [TEUCHOS_TEST_FOR_EXCEPTION] only, whose
    message is empty in this branch. *)
Lemma read_vic3d_line_raises st tokens e :
  vic3d_line_in_range tokens = true ->
  read_vic3d_line env st tokens = Error e -> e = EmptyString.
Proof.
  unfold vic3d_line_in_range, read_vic3d_line. intros Hr H.
  destruct tokens as [|token0 rest]; [discriminate|].
  change (length (token0 :: rest) =? 0) with false in H. cbv iota in H.
  change (array_at (token0 :: rest) 0) with (Ok token0) in H.
  change (rbind (Ok token0) ?k) with (k token0) in H. cbv beta in H.
  cbn [begins_with] in Hr.
  destruct (String.eqb token0 "POLYGONMASK") eqn:EP.
  { destruct rest as [|t1 rest]; [discriminate|].
    change (array_at (token0 :: t1 :: rest) 1) with (Ok t1) in H.
    change (rbind (Ok t1) ?k) with (k t1) in H. cbv beta in H.
    destruct (String.eqb t1 "WIDTH="); cbn [negb orb] in Hr;
      [|injection H as <-; reflexivity].
    change (test_for_exception (negb true) "") with (Ok (A:=unit) tt) in H.
    change (rbind (Ok tt) ?k) with (k tt) in H. cbv beta in H.
    destruct rest as [|t2 [|t3 rest]]; try discriminate.
    change (array_at (token0 :: t1 :: t2 :: t3 :: rest) 3) with (Ok t3) in H.
    change (rbind (Ok t3) ?k) with (k t3) in H. cbv beta in H.
    destruct (String.eqb t3 "HEIGHT="); cbn [negb orb] in Hr;
      [|injection H as <-; reflexivity].
    destruct rest as [|t4 rest]; [discriminate|]. discriminate H. }
  destruct (String.eqb token0 "CAMERA") eqn:EC; [|discriminate H].
  cbn [negb] in H. cbv iota in H.
  apply Nat.leb_le in Hr.
  unfold test_for_exception at 1 in H.
  destruct (1 <? current_camera st); [injection H as <-; reflexivity|].
  change (rbind (Ok tt) ?k) with (k tt) in H. cbv beta in H.
  rewrite (array_at_ok _ 2 EmptyString) in H by lia.
  match type of H with rbind (Ok ?a) ?k = _ =>
    change (rbind (Ok a) k) with (k a) in H end. cbv beta zeta in H.
  unfold test_for_exception at 1 in H.
  destruct (10 <=? _)%Z; [injection H as <-; reflexivity|].
  change (rbind (Ok tt) ?k) with (k tt) in H. cbv beta in H.
  unfold test_for_exception at 1 in H.
  destruct (length (token0 :: rest) <=? 18) eqn:E18;
    [injection H as <-; reflexivity|].
  change (rbind (Ok tt) ?k) with (k tt) in H. cbv beta in H.
  apply Nat.leb_gt in E18.
  match type of H with context [store_intrinsics env ?t ?l ?s] =>
    destruct (store_intrinsics_ok t s E18) as [st1 Es]; rewrite Es in H
  end.
  change (rbind (Ok st1) ?k) with (k st1) in H. cbv beta zeta in H.
  rewrite !(array_at_ok (token0 :: rest) _ EmptyString) in H by lia.
  match type of H with rbind (Ok ?a) ?k = _ =>
    change (rbind (Ok a) k) with (k a) in H end. cbv beta in H.
  unfold test_for_exception at 1 in H.
  destruct (negb _); [injection H as <-; reflexivity|].
  discriminate H.
Qed.

Lemma read_vic3d_lines_raises (lines : list (list string)) st e :
  forallb vic3d_line_in_range lines = true ->
  read_vic3d_lines env st lines = Error e -> e = EmptyString.
Proof.
  revert st. induction lines as [|tokens lines IH]; intros st Hr H;
    [discriminate|].
  cbn [forallb] in Hr. apply andb_prop in Hr. destruct Hr as [Ht Hr].
  cbn [read_vic3d_lines] in H.
  destruct (read_vic3d_line env st tokens) as [st1|e1] eqn:E.
  - cbn [rbind] in H. by apply (IH st1).
  - cbn [rbind] in H. injection H as <-.
    by apply (read_vic3d_line_raises st tokens).
Qed.

(** The branch raises with the empty message when its loop raises or
    leaves an image size that is not positive. *)
Lemma read_vic3d_raises_before_cameras (lines : list (list string)) s :
  forallb vic3d_line_in_range lines = true ->
  (forall st, read_vic3d_lines env vic3d_initial_state lines = Ok st ->
              (xml_img_height st <= 0)%Z \/ (xml_img_width st <= 0)%Z) ->
  fst (read_vic3d env lines s) = Error EmptyString.
Proof.
  intros Hr Hs. unfold read_vic3d. unfold bind at 1, modify at 1.
  unfold bind at 1, lift at 1.
  destruct (read_vic3d_lines env vic3d_initial_state lines) as [st|e] eqn:E.
  - unfold bind at 1, TEUCHOS_TEST_FOR_EXCEPTION at 1.
    replace ((xml_img_height st <=? 0)%Z || (xml_img_width st <=? 0)%Z)
      with true; [reflexivity|].
    symmetry. apply orb_true_iff.
    destruct (Hs st eq_refl); [left | right]; by apply Z.leb_le.
  - cbn [fst]. f_equal.
    exact (read_vic3d_lines_raises lines vic3d_initial_state e Hr E).
Qed.

End Vic3dFacts.

Section Vic3dBranch.
Variable env : Env.


(** The outer function on a file name that has [xml] in it. *)
Lemma read_calibration_file_vic3d (f : Calibration_File) s :
  teuchos_xml f = None -> good f = true -> found xml (cal_file f) = true ->
  read_calibration_file env f s = read_vic3d env (token_lines f) s.
Proof.
  intros Hx Hg Hf. unfold read_calibration_file. rewrite Hx, Hg, Hf.
  reflexivity.
Qed.

(** The branch raises with the empty message when its loop raises. *)
Lemma read_vic3d_loop_raises_empty (lines : list (list string)) s :
  forallb vic3d_line_in_range lines = true ->
  is_ok (read_vic3d_lines env vic3d_initial_state lines) = false ->
  fst (read_vic3d env lines s) = Error EmptyString.
Proof.
  intros Hr E. apply read_vic3d_raises_before_cameras; [exact Hr|].
  intros st Hst. rewrite Hst in E. discriminate E.
Qed.


End Vic3dBranch.

(** ** C8: the VIC3D dialect *)



(** * Further properties of the code *)

(** ** Derivatives of functions that agree *)

Section TransformFacts.
Local Open Scope R_scope.

Lemma derivable_pt_lim_ext (f g : R -> R) (x l : R) :
  (forall v, f v = g v) -> derivable_pt_lim g x l -> derivable_pt_lim f x l.
Proof.
  intros E H eps Heps. destruct (H eps Heps) as [delta Hd].
  exists delta. intros h Hh Hlt. rewrite !E. apply Hd; assumption.
Qed.

End TransformFacts.

(** ** The rotation coefficients: rotation order and derivatives *)

Section TransformProperties.
Local Open Scope R_scope.

(** X1. For six parameters [initialize_rot_trans_3D] leaves in
    [rot_trans_3D_x_], [rot_trans_3D_y_] and [rot_trans_3D_z_] the three
    rows of the product [Rz(angle_z) Ry(angle_y) Rx(angle_x)] of the
    rotations about the three axes (the one about x is applied first),
    each followed by the translation of its coordinate. *)
Theorem initialize_rot_trans_3D_stores_Rz_Ry_Rx (p : list R) (partials : bool)
  (s : Camera_System) :
  scratch_ok s -> length p = 6%nat ->
  let s' := snd (initialize_rot_trans_3D p partials s) in
  let rotation :=
    mat_mul_3 (Rz (at_ p ANGLE_Z))
      (mat_mul_3 (Ry (at_ p ANGLE_Y)) (Rx (at_ p ANGLE_X))) in
  is_ok (fst (initialize_rot_trans_3D p partials s)) = true
  /\ rot_trans_3D_x_ s'
     = [ mat_at rotation 0 0; mat_at rotation 0 1; mat_at rotation 0 2;
         at_ p TRANSLATION_X ]
  /\ rot_trans_3D_y_ s'
     = [ mat_at rotation 1 0; mat_at rotation 1 1; mat_at rotation 1 2;
         at_ p TRANSLATION_Y ]
  /\ rot_trans_3D_z_ s'
     = [ mat_at rotation 2 0; mat_at rotation 2 1; mat_at rotation 2 2;
         at_ p TRANSLATION_Z ].
Proof.
  intros Hok Hp s' rotation. subst s' rotation.
  destruct (initialize_rot_trans_3D_coefficients p partials s Hok Hp)
    as (s' & -> & _ & _ & _ & Hx & Hy & Hz & _).
  cbn [fst snd is_ok]. rewrite <- R_closed_composition.
  rewrite Hx, Hy, Hz. repeat split.
Qed.

Lemma initialize_rot_trans_3D_stores_Rz_Ry_Rx_witness :
  let p := [0; 0; PI / 2; 10; 20; 30] in
  let s' := snd (initialize_rot_trans_3D p false Camera_System_new) in
  let rotation :=
    mat_mul_3 (Rz (at_ p ANGLE_Z))
      (mat_mul_3 (Ry (at_ p ANGLE_Y)) (Rx (at_ p ANGLE_X))) in
  is_ok (fst (initialize_rot_trans_3D p false Camera_System_new)) = true
  /\ rot_trans_3D_x_ s'
     = [ mat_at rotation 0 0; mat_at rotation 0 1; mat_at rotation 0 2;
         at_ p TRANSLATION_X ]
  /\ rot_trans_3D_y_ s'
     = [ mat_at rotation 1 0; mat_at rotation 1 1; mat_at rotation 1 2;
         at_ p TRANSLATION_Y ]
  /\ rot_trans_3D_z_ s'
     = [ mat_at rotation 2 0; mat_at rotation 2 1; mat_at rotation 2 2;
         at_ p TRANSLATION_Z ].
Proof.
  refine (initialize_rot_trans_3D_stores_Rz_Ry_Rx [0; 0; PI / 2; 10; 20; 30]
            false Camera_System_new _ eq_refl).
  unfold scratch_ok, Camera_System_new. simpl. repeat split; discriminate.
Defined.

(** X4. The coefficients that [initialize_rot_trans_3D] stores for the
    partials are the derivatives of the coefficients it stores for the
    transform: for each of the three angles [j], entry [k] of row [j] of
    [rot_trans_3D_dx_] is the derivative with respect to that angle of
    entry [k] of [rot_trans_3D_x_], and likewise for y and z. *)
Theorem initialize_rot_trans_3D_partials_are_derivatives (p : list R)
  (s : Camera_System) (j k : nat) :
  scratch_ok s -> length p = 6%nat -> (j < 3)%nat -> (k < 4)%nat ->
  let after q := snd (initialize_rot_trans_3D q true s) in
  derivable_pt_lim (fun a => at_ (rot_trans_3D_x_ (after (<[j := a]> p))) k)
    (at_ p j) (at_ (row_ (rot_trans_3D_dx_ (after p)) j) k)
  /\ derivable_pt_lim (fun a => at_ (rot_trans_3D_y_ (after (<[j := a]> p))) k)
       (at_ p j) (at_ (row_ (rot_trans_3D_dy_ (after p)) j) k)
  /\ derivable_pt_lim (fun a => at_ (rot_trans_3D_z_ (after (<[j := a]> p))) k)
       (at_ p j) (at_ (row_ (rot_trans_3D_dz_ (after p)) j) k).
Proof.
  intros Hok Hp Hj Hk after. subst after. cbv beta.
  destruct (initialize_rot_trans_3D_coefficients p true s Hok Hp)
    as (s' & -> & _ & _ & _ & _ & _ & _ & Hd).
  destruct (Hd eq_refl j Hj) as (Dx & Dy & Dz). cbn [snd].
  rewrite Dx, Dy, Dz. clear Hd Dx Dy Dz s'.
  assert (E : forall a,
    let q := <[j := a]> p in
    let R := R_closed (at_ q ANGLE_X) (at_ q ANGLE_Y) (at_ q ANGLE_Z) in
    rot_trans_3D_x_ (snd (initialize_rot_trans_3D q true s))
    = nth 0 R [] ++ [at_ q TRANSLATION_X]
    /\ rot_trans_3D_y_ (snd (initialize_rot_trans_3D q true s))
       = nth 1 R [] ++ [at_ q TRANSLATION_Y]
    /\ rot_trans_3D_z_ (snd (initialize_rot_trans_3D q true s))
       = nth 2 R [] ++ [at_ q TRANSLATION_Z]).
  { intros a q R.
    destruct (initialize_rot_trans_3D_coefficients q true s Hok)
      as (s' & -> & _ & _ & _ & Hx & Hy & Hz & _).
    { subst q. rewrite length_insert. exact Hp. }
    cbn [snd]. auto. }
  destruct p as [|a0 [|b0 [|g0 [|tx [|ty [|tz [|? ?]]]]]]]; try discriminate.
  split; [|split].
  - eapply derivable_pt_lim_ext;
      [intros a; destruct (E a) as (-> & _ & _); reflexivity|].
    destruct j as [|[|[|j]]]; try lia;
    destruct k as [|[|[|[|k]]]]; try lia;
    unfold at_, R_closed, dR_closed, ANGLE_X, ANGLE_Y, ANGLE_Z,
      TRANSLATION_X; simpl;
    (eapply derivable_pt_lim_eq; [differentiate | ring]).
  - eapply derivable_pt_lim_ext;
      [intros a; destruct (E a) as (_ & -> & _); reflexivity|].
    destruct j as [|[|[|j]]]; try lia;
    destruct k as [|[|[|[|k]]]]; try lia;
    unfold at_, R_closed, dR_closed, ANGLE_X, ANGLE_Y, ANGLE_Z,
      TRANSLATION_Y; simpl;
    (eapply derivable_pt_lim_eq; [differentiate | ring]).
  - eapply derivable_pt_lim_ext;
      [intros a; destruct (E a) as (_ & _ & ->); reflexivity|].
    destruct j as [|[|[|j]]]; try lia;
    destruct k as [|[|[|[|k]]]]; try lia;
    unfold at_, R_closed, dR_closed, ANGLE_X, ANGLE_Y, ANGLE_Z,
      TRANSLATION_Z; simpl;
    (eapply derivable_pt_lim_eq; [differentiate | ring]).
Qed.

Lemma initialize_rot_trans_3D_partials_are_derivatives_witness :
  let p := [0; 0; 0; 10; 20; 30] in
  let after q := snd (initialize_rot_trans_3D q true Camera_System_new) in
  derivable_pt_lim
    (fun a => at_ (rot_trans_3D_x_ (after (<[2%nat := a]> p))) 1)
    (at_ p 2) (at_ (row_ (rot_trans_3D_dx_ (after p)) 2) 1)
  /\ derivable_pt_lim
       (fun a => at_ (rot_trans_3D_y_ (after (<[2%nat := a]> p))) 1)
       (at_ p 2) (at_ (row_ (rot_trans_3D_dy_ (after p)) 2) 1)
  /\ derivable_pt_lim
       (fun a => at_ (rot_trans_3D_z_ (after (<[2%nat := a]> p))) 1)
       (at_ p 2) (at_ (row_ (rot_trans_3D_dz_ (after p)) 2) 1).
Proof.
  refine (initialize_rot_trans_3D_partials_are_derivatives
            [0; 0; 0; 10; 20; 30] Camera_System_new 2 1 _ eq_refl _ _).
  - unfold scratch_ok, Camera_System_new. simpl. repeat split; discriminate.
  - lia.
  - lia.
Defined.

(** X5. [initialize_rot_trans_3D] returns exactly when it is given six
    parameters. Whether it returns or throws, it leaves the coefficient
    members allocated (it allocates them before it looks at the
    parameters) and every other member of the object as it was. *)
Theorem initialize_rot_trans_3D_returns_iff (p : list R) (partials : bool)
  (s : Camera_System) :
  scratch_ok s ->
  let r := initialize_rot_trans_3D p partials s in
  (is_ok (fst r) = true <-> length p = 6%nat)
  /\ allocated (snd r) /\ scratch_ok (snd r) /\ same_cameras s (snd r).
Proof.
  intros Hok r. subst r.
  destruct (Nat.eq_dec (length p) 6%nat) as [Hp | Hp].
  - destruct (initialize_rot_trans_3D_coefficients p partials s Hok Hp)
      as (s' & -> & Hok' & Hall & Hsame & _).
    cbn [fst snd is_ok]. split; [split; auto|].
    split; [exact Hall|]. split; assumption.
  - assert (E : initialize_rot_trans_3D p partials s
               = (Error "",
                  if negb (length (rot_trans_3D_x_ s) =? 4)%nat
                  then run_assignments allocate_rot_trans_3D s else s)).
    { unfold initialize_rot_trans_3D. unfold bind at 1, get_state at 1.
      unfold bind at 1.
      apply Nat.eqb_neq in Hp.
      destruct (negb (length (rot_trans_3D_x_ s) =? 4)%nat);
        [unfold modify at 1 | unfold ret at 1];
        unfold bind at 1, TEUCHOS_TEST_FOR_EXCEPTION at 1; rewrite Hp;
        reflexivity. }
    rewrite E. cbn [fst snd is_ok].
    split; [split; [discriminate | intros; contradiction]|].
    destruct Hok as (H1 & H2 & H3 & H4).
    destruct (length (rot_trans_3D_x_ s) =? 4)%nat eqn:E4; cbn [negb].
    + apply Nat.eqb_eq in E4. split; [exact (H4 E4)|].
      split; [|apply same_cameras_refl].
      unfold scratch_ok. auto.
    + destruct (allocate_allocated s H1 H2 H3) as (A & B & C). auto.
Qed.

Lemma initialize_rot_trans_3D_returns_iff_witness :
  let r := initialize_rot_trans_3D [0; 0; 0] true Camera_System_new in
  (is_ok (fst r) = true <-> length [0; 0; 0] = 6%nat)
  /\ allocated (snd r) /\ scratch_ok (snd r)
  /\ same_cameras Camera_System_new (snd r).
Proof.
  refine (initialize_rot_trans_3D_returns_iff [0; 0; 0] true
            Camera_System_new _).
  unfold scratch_ok, Camera_System_new. simpl. repeat split; discriminate.
Defined.

End TransformProperties.

(** ** When the projection returns *)

Section ReturnFacts.
Context {S : Type}.

Lemma bind_returns_inv {A B} (c : M S A) (k : A -> M S B) (s : S) :
  is_ok (fst (bind c k s)) = true ->
  exists a s1, c s = (Ok a, s1) /\ is_ok (fst (k a s1)) = true.
Proof.
  unfold bind. destruct (c s) as [[a|e] s1]; [|discriminate].
  intros H. exists a, s1. auto.
Qed.

Lemma test_returns_inv (b : bool) (msg : string) (s : S) (u : unit) (s1 : S) :
  TEUCHOS_TEST_FOR_EXCEPTION b msg s = (Ok u, s1) -> b = false /\ s1 = s.
Proof.
  unfold TEUCHOS_TEST_FOR_EXCEPTION, throw, ret.
  destruct b; [discriminate|]. intros [= _ <-]. auto.
Qed.

Lemma test_is_ok_inv (b : bool) (msg : string) (s : S) :
  is_ok (fst (TEUCHOS_TEST_FOR_EXCEPTION b msg s)) = true -> b = false.
Proof. destruct b; [discriminate | reflexivity]. Qed.

Lemma for_each_returns_inv (l : list nat) (body : nat -> M S unit) (s : S) :
  (forall i, leaves_state (body i)) ->
  is_ok (fst (for_each l body s)) = true ->
  forall i, In i l -> is_ok (fst (body i s)) = true.
Proof.
  intros Hb. induction l as [|j l IH]; intros H i Hi; [destruct Hi|].
  cbn [for_each] in H. apply bind_returns_inv in H.
  destruct H as (u & s1 & E & H).
  assert (s1 = s) by (rewrite <- (Hb j s), E; reflexivity). subst s1.
  destruct Hi as [<- | Hi].
  - rewrite E. reflexivity.
  - apply IH; assumption.
Qed.

End ReturnFacts.

Lemma rows_sized (n : nat) (m : list (list R)) :
  (forall i, i < length m -> length (row_ m i) = n) ->
  Forall (fun r : list R => length r = n) m.
Proof.
  intros H. apply Forall_lookup. intros i r Hr.
  specialize (H i (lookup_lt_Some _ _ _ Hr)).
  unfold row_ in H. rewrite nth_lookup, Hr in H. exact H.
Qed.

Section ProjectionReturns.
Variable optics : Optics.

(** What the argument checks of the projection require, when they pass. *)
Lemma camera_to_camera_projection_checks_inv s source_id target_id
  (img_source_x img_source_y img_target_x img_target_y params : list R)
  (img_target_dx img_target_dy : list (list R)) (rigid_body_params : list R) :
  is_ok (fst (camera_to_camera_projection_checks source_id target_id
    img_source_x img_source_y img_target_x img_target_y params
    img_target_dx img_target_dy rigid_body_params s)) = true ->
  source_id < num_cameras s /\ target_id < num_cameras s /\
  well_sized img_source_x img_source_y img_target_x img_target_y params
    img_target_dx img_target_dy rigid_body_params.
Proof.
  unfold camera_to_camera_projection_checks. intros H.
  apply bind_returns_inv in H. destruct H as (u & s1 & E & H).
  apply test_returns_inv in E. destruct E as [Ep ->].
  apply bind_returns_inv in H. destruct H as (s0 & s1 & E & H).
  injection E as <- <-.
  apply bind_returns_inv in H. destruct H as (u1 & s1 & E & H).
  apply test_returns_inv in E. destruct E as [Es ->].
  apply bind_returns_inv in H. destruct H as (u2 & s1 & E & H).
  apply test_returns_inv in E. destruct E as [Et ->].
  apply bind_returns_inv in H. destruct H as (u3 & s1 & E & H).
  apply test_returns_inv in E. destruct E as [Ey ->].
  apply bind_returns_inv in H. destruct H as (u4 & s1 & E & H).
  apply test_returns_inv in E. destruct E as [Etx ->].
  apply bind_returns_inv in H. destruct H as (u5 & s1 & E & H).
  apply test_returns_inv in E. destruct E as [Ety ->].
  apply bind_returns_inv in H. destruct H as (u6 & s1 & E & H).
  apply negb_false_iff, Nat.eqb_eq in Ep, Ey, Etx, Ety.
  apply Nat.leb_gt in Es, Et.
  split; [exact Es|]. split; [exact Et|].
  unfold well_sized. repeat (split; [assumption|]).
  assert (Hs1 : s1 = s).
  { clear - E. destruct (0 <? length img_target_dx).
    - match type of E with
      | ?c s = _ => assert (L : leaves_state c) by frame
      end.
      rewrite <- (L s), E. reflexivity.
    - injection E as _ <-. reflexivity. }
  subst s1. split.
  - destruct (0 <? length rigid_body_params) eqn:Er.
    + right. apply test_is_ok_inv in H.
      apply negb_false_iff, Nat.eqb_eq in H. exact H.
    + left. apply Nat.ltb_ge in Er. destruct rigid_body_params; [reflexivity|].
      simpl in Er. lia.
  - destruct (0 <? length img_target_dx) eqn:Ed.
    + right.
      match type of E with
      | ?c = _ =>
          assert (Hret : is_ok (fst c) = true) by (rewrite E; reflexivity)
      end.
      clear E H. apply bind_returns_inv in Hret.
      destruct Hret as (v & s2 & E & H).
      assert (Hn : length img_target_dx
                   = if 0 <? length rigid_body_params then 6 else 3).
      { destruct (0 <? length rigid_body_params);
          apply test_returns_inv in E; destruct E as [E _];
          apply negb_false_iff, Nat.eqb_eq in E; exact E. }
      assert (s2 = s).
      { destruct (0 <? length rigid_body_params);
          apply test_returns_inv in E; destruct E as [_ ->]; reflexivity. }
      subst s2. clear E.
      apply bind_returns_inv in H. destruct H as (w & s2 & E & H).
      apply test_returns_inv in E. destruct E as [Edy ->].
      apply negb_false_iff, Nat.eqb_eq in Edy.
      match type of H with
      | is_ok (fst (for_each ?l ?body ?s0)) = true =>
          assert (Hrows : forall i, In i l -> is_ok (fst (body i s0)) = true)
            by (apply (for_each_returns_inv l body s0);
                [intros i; frame | exact H])
      end.
      cbv beta in Hrows.
      assert (Hrow : forall i, i < length img_target_dx ->
                length (row_ img_target_dx i) = length img_source_x
                /\ length (row_ img_target_dy i) = length img_source_x).
      { intros i Hi. specialize (Hrows i ltac:(apply in_seq; lia)).
        apply bind_returns_inv in Hrows. destruct Hrows as (x & s3 & E1 & E2).
        apply test_returns_inv in E1. destruct E1 as [E1 ->].
        apply test_is_ok_inv in E2.
        apply negb_false_iff, Nat.eqb_eq in E1, E2. auto. }
      unfold tables_well_sized. rewrite <- Hn.
      split; [reflexivity|]. split; [exact Edy|].
      split; apply rows_sized; intros i Hi; apply Hrow; lia.
    + left. apply Nat.ltb_ge in Ed. destruct img_target_dx; [reflexivity|].
      simpl in Ed. lia.
Qed.

End ProjectionReturns.

(** ** The projection: when it returns, what it returns, what it rejects *)

Section ProjectionProperties.
Local Open Scope R_scope.

(** X6. Without rigid-body parameters, [camera_to_camera_projection]
    returns exactly when both camera indices are below the number of
    cameras, there are three optical parameters, the four coordinate
    vectors have one length and the tables of partials are either absent
    or two tables of three rows of that length. *)
Theorem camera_to_camera_projection_returns_iff (optics : Optics)
  (s : Camera_System)
  (source_id target_id : nat)
  (img_source_x img_source_y img_target_x img_target_y params : list R)
  (img_target_dx img_target_dy : list (list R)) :
  is_ok (fst (camera_to_camera_projection optics source_id target_id
                img_source_x img_source_y img_target_x img_target_y params
                img_target_dx img_target_dy [] s)) = true
  <-> ((source_id < num_cameras s)%nat /\ (target_id < num_cameras s)%nat
       /\ length params = 3%nat
       /\ length img_source_y = length img_source_x
       /\ length img_target_x = length img_source_x
       /\ length img_target_y = length img_source_x
       /\ (img_target_dx = []
           \/ tables_well_sized (length img_source_x) 3
                img_target_dx img_target_dy)).
Proof.
  split.
  - intros H. unfold camera_to_camera_projection in H.
    apply bind_returns_inv in H. destruct H as (u & s1 & E & _).
    assert (Hc : is_ok (fst (camera_to_camera_projection_checks source_id
      target_id img_source_x img_source_y img_target_x img_target_y params
      img_target_dx img_target_dy [] s)) = true) by (rewrite E; reflexivity).
    apply camera_to_camera_projection_checks_inv in Hc.
    destruct Hc as (Hs & Ht & Hp & Hy & Htx & Hty & _ & Hd).
    repeat (split; [assumption|]). exact Hd.
  - intros (Hs & Ht & Hp & Hy & Htx & Hty & Hd).
    unfold camera_to_camera_projection.
    rewrite (bind_ok _ _ tt).
    + destruct (camera_to_camera_projection_traverse_optical optics s
        source_id target_id img_source_x img_source_y img_target_x
        img_target_y params img_target_dx img_target_dy) as [out ->].
      reflexivity.
    + apply camera_to_camera_projection_checks_pass; try assumption.
      unfold well_sized. repeat (split; [assumption|]).
      split; [left; reflexivity | exact Hd].
Qed.

(** X8. With rigid-body parameters, a projection of a batch that is not
    empty never returns: whatever the cameras, the optics and the other
    arguments are, the call ends in an exception. *)
Theorem camera_to_camera_projection_with_rigid_body_raises (optics : Optics)
  (s : Camera_System)
  (source_id target_id : nat)
  (img_source_x img_source_y img_target_x img_target_y params : list R)
  (img_target_dx img_target_dy : list (list R)) (rigid_body_params : list R) :
  rigid_body_params <> [] -> img_source_x <> [] ->
  is_ok (fst (camera_to_camera_projection optics source_id target_id
                img_source_x img_source_y img_target_x img_target_y params
                img_target_dx img_target_dy rigid_body_params s)) = false.
Proof.
  intros Hr Hx.
  assert (Hrb : (0 <? length rigid_body_params)%nat = true)
    by (destruct rigid_body_params; [contradiction | reflexivity]).
  assert (Hn : length img_source_x <> 0%nat)
    by (destruct img_source_x; [contradiction | discriminate]).
  assert (Hraise : forall wx wy wz p (dx dy dz : list (list R)) s0,
    is_ok (fst (rot_trans_3D wx wy wz (assign (length img_source_x) 0)
                  (assign (length img_source_x) 0)
                  (assign (length img_source_x) 0) p dx dy dz s0)) = false).
  { intros wx wy wz p dx dy dz s0. destruct wx as [|x wx].
    - unfold rot_trans_3D, rot_trans_3D_checks.
      unfold bind at 1. unfold bind at 1. cbn [length Nat.eqb negb].
      unfold TEUCHOS_TEST_FOR_EXCEPTION at 1. unfold ret at 1.
      unfold bind at 1. unfold TEUCHOS_TEST_FOR_EXCEPTION at 1.
      destruct (negb (length wy =? 0)%nat); [reflexivity|]. unfold ret at 1.
      unfold bind at 1. unfold TEUCHOS_TEST_FOR_EXCEPTION at 1.
      destruct (negb (length wz =? 0)%nat); [reflexivity|]. unfold ret at 1.
      unfold bind at 1. unfold TEUCHOS_TEST_FOR_EXCEPTION at 1.
      unfold assign. rewrite length_replicate.
      apply Nat.eqb_neq in Hn. rewrite Hn. reflexivity.
    - rewrite rot_trans_3D_rejects_points. reflexivity. }
  unfold camera_to_camera_projection, bind.
  destruct (camera_to_camera_projection_checks _ _ _ _ _ _ _ _ _ _ s)
    as [[u|e] s1]; [|reflexivity].
  unfold camera_to_camera_projection_traverse, bind, get_state.
  rewrite Hrb.
  destruct (0 <? length img_target_dx)%nat;
    destruct (image_to_world _ _ _ _ _) as [[wx wy] wz].
  - specialize (Hraise wx wy wz rigid_body_params
      (assign_rows (length img_target_dx) (length img_source_x) 0)
      (assign_rows (length img_target_dx) (length img_source_x) 0)
      (assign_rows (length img_target_dx) (length img_source_x) 0) s1).
    destruct (rot_trans_3D _ _ _ _ _ _ _ _ _ _ s1) as [[t|e] s2];
      [discriminate | reflexivity].
  - unfold rot_trans_3D_positions.
    specialize (Hraise wx wy wz rigid_body_params [] [] [] s1).
    destruct (rot_trans_3D _ _ _ _ _ _ _ _ _ _ s1) as [[t|e] s2];
      [discriminate | reflexivity].
Qed.

Lemma camera_to_camera_projection_with_rigid_body_raises_witness :
  is_ok (fst (camera_to_camera_projection example_optics 0 1 [10] [30] [0]
                [0] [5; 0; 0] [] [] [0; 0; 0; 0; 0; 0] example_system))
  = false.
Proof.
  refine (camera_to_camera_projection_with_rigid_body_raises
            example_optics example_system
            0 1 [10] [30] [0] [0] [5; 0; 0] [] [] [0; 0; 0; 0; 0; 0] _ _);
    discriminate.
Defined.

(** X9. A camera index that is not below the number of cameras is
    rejected by name: with three optical parameters, a bad source index
    gives "invalid source id" and, the source index being good, a bad
    target index gives "invalid target id"; the object is left as it is. *)
Theorem camera_to_camera_projection_invalid_id (optics : Optics)
  (s : Camera_System)
  (source_id target_id : nat)
  (img_source_x img_source_y img_target_x img_target_y params : list R)
  (img_target_dx img_target_dy : list (list R)) (rigid_body_params : list R) :
  length params = 3%nat ->
  ((num_cameras s <= source_id)%nat ->
   camera_to_camera_projection optics source_id target_id
     img_source_x img_source_y img_target_x img_target_y params
     img_target_dx img_target_dy rigid_body_params s
   = (Error "invalid source id", s))
  /\ ((source_id < num_cameras s)%nat -> (num_cameras s <= target_id)%nat ->
      camera_to_camera_projection optics source_id target_id
        img_source_x img_source_y img_target_x img_target_y params
        img_target_dx img_target_dy rigid_body_params s
      = (Error "invalid target id", s)).
Proof.
  intros Hp.
  unfold camera_to_camera_projection, camera_to_camera_projection_checks.
  rewrite Hp. cbn [Nat.eqb negb].
  split.
  - intros Hs. apply Nat.leb_le in Hs.
    unfold bind, TEUCHOS_TEST_FOR_EXCEPTION, ret, get_state, throw.
    rewrite Hs. reflexivity.
  - intros Hs Ht. apply Nat.leb_gt in Hs. apply Nat.leb_le in Ht.
    unfold bind, TEUCHOS_TEST_FOR_EXCEPTION, ret, get_state, throw.
    rewrite Hs, Ht. reflexivity.
Qed.

Lemma camera_to_camera_projection_invalid_id_witness :
  camera_to_camera_projection example_optics 2 0 [10] [30] [0] [0] [5; 0; 0]
    [] [] [] example_system
  = (Error "invalid source id", example_system).
Proof.
  refine (proj1 (camera_to_camera_projection_invalid_id example_optics
                   example_system 2 0
                   [10] [30] [0] [0] [5; 0; 0] [] [] [] eq_refl) _).
  unfold num_cameras. simpl. lia.
Defined.

End ProjectionProperties.

(** ** The loop over the cameras of the canonical dialect *)

Section CameraLoop.
Variable env : Env.

(** One pass of the loop, written out. *)
Lemma read_cameras_cons (sys_params : list (string * ParameterEntry))
  (i : nat) (l : list nat) s :
  read_cameras env sys_params (i :: l) s
  = if (i =? max_num_cameras_allowed_ s - 1)%nat
    then (Error "too many cameras defined in the xml calibration file", s)
    else if isSublist (camera_sublist_id i) sys_params then
      match sublist (camera_sublist_id i) sys_params with
      | Error e => (Error e, s)
      | Ok camParams =>
          match read_camera_info env i camParams with
          | Error e => (Error e, s)
          | Ok camera_info =>
              match Camera_check env camera_info with
              | Error e => (Error e, s)
              | Ok _ =>
                  read_cameras env sys_params l
                    (set_cameras_ (cameras_ s ++ [camera_info]) s)
              end
          end
      end
    else (Ok tt, s).
Proof.
  cbn [read_cameras]. unfold bind at 1, get_state at 1.
  unfold bind at 1, TEUCHOS_TEST_FOR_EXCEPTION at 1.
  destruct (i =? max_num_cameras_allowed_ s - 1)%nat; [reflexivity|].
  unfold ret at 1. fold (camera_sublist_id i).
  destruct (isSublist (camera_sublist_id i) sys_params); [|reflexivity].
  unfold bind at 1, lift at 1.
  destruct (sublist _ sys_params) as [camParams|e]; [|reflexivity].
  unfold bind at 1, lift at 1.
  destruct (read_camera_info env i camParams) as [c|e]; [|reflexivity].
  unfold bind at 1. rewrite push_back_camera_ok.
  destruct (Camera_check env c); reflexivity.
Qed.

Lemma sublist_found (name : string) (l camParams : list (string * ParameterEntry)) :
  find_entry name l = Some (PSublist camParams) ->
  isSublist name l = true /\ sublist name l = Ok camParams.
Proof. intros H. unfold isSublist, sublist. rewrite H. auto. Qed.

(** A camera group that the loop reaches and cannot read makes the loop
    raise. *)
Lemma read_cameras_bad_group (sys_params camParams : list (string * ParameterEntry))
  (k n a : nat) s :
  max_num_cameras_allowed_ s = 10 -> a + n = 10 -> 0 < n -> a <= k ->
  (forall i, i <= k -> isSublist (camera_sublist_id i) sys_params = true) ->
  find_entry (camera_sublist_id k) sys_params = Some (PSublist camParams) ->
  is_ok (read_camera_info env k camParams) = false ->
  is_ok (fst (read_cameras env sys_params (seq a n) s)) = false.
Proof.
  intros Hmax Han Hn Hak Hall Hk Hbad.
  revert a s Hmax Han Hn Hak.
  induction n as [|n IH]; intros a s Hmax Han Hn Hak; [lia|].
  cbn [seq]. rewrite read_cameras_cons, Hmax.
  destruct (a =? 10 - 1)%nat eqn:E9; [reflexivity|].
  apply Nat.eqb_neq in E9.
  rewrite (Hall a Hak).
  destruct (Nat.eq_dec a k) as [-> | Hne].
  - destruct (sublist_found _ _ _ Hk) as [_ ->].
    destruct (read_camera_info env k camParams); [discriminate|reflexivity].
  - destruct (sublist _ sys_params) as [cp|e]; [|reflexivity].
    destruct (read_camera_info env a cp) as [c|e]; [|reflexivity].
    destruct (Camera_check env c); [|reflexivity].
    apply IH; simpl; lia.
Qed.

(** The cameras of a file whose groups 0 to [length infos - 1] are read as
    [infos] and whose next group is missing. *)
Lemma read_cameras_prefix (sys_params : list (string * ParameterEntry))
  (infos : list Camera_Info) (a n : nat) s :
  a + length infos + 1 < max_num_cameras_allowed_ s ->
  length infos < n ->
  (forall i c, infos !! i = Some c ->
     exists camParams,
       find_entry (camera_sublist_id (a + i)) sys_params
       = Some (PSublist camParams)
       /\ read_camera_info env (a + i) camParams = Ok c
       /\ Camera_check env c = Ok tt) ->
  isSublist (camera_sublist_id (a + length infos)) sys_params = false ->
  read_cameras env sys_params (seq a n) s
  = (Ok tt, set_cameras_ (cameras_ s ++ infos) s).
Proof.
  revert a n s. induction infos as [|c infos IH]; intros a n s Hmax Hn Hg Hgap.
  - destruct n as [|n]; [simpl in Hn; lia|].
    cbn [seq]. rewrite read_cameras_cons.
    replace (a =? max_num_cameras_allowed_ s - 1)%nat with false
      by (symmetry; apply Nat.eqb_neq; simpl in Hmax; lia).
    cbn [length] in Hgap. rewrite Nat.add_0_r in Hgap. rewrite Hgap.
    rewrite app_nil_r. destruct s; reflexivity.
  - destruct n as [|n]; [simpl in Hn; lia|].
    cbn [seq]. rewrite read_cameras_cons.
    replace (a =? max_num_cameras_allowed_ s - 1)%nat with false
      by (symmetry; apply Nat.eqb_neq; simpl in Hmax; lia).
    destruct (Hg 0%nat c eq_refl) as (camParams & Hf & Hr & Hc).
    rewrite Nat.add_0_r in Hf, Hr.
    destruct (sublist_found _ _ _ Hf) as [-> ->].
    rewrite Hr, Hc.
    rewrite (IH (S a) n).
    + cbn [set_cameras_ cameras_]. rewrite <- app_assoc. reflexivity.
    + cbn [length] in Hmax. cbn. lia.
    + cbn [length] in Hn. lia.
    + intros i c' Hi. replace (S a + i)%nat with (a + S i)%nat by lia.
      apply (Hg (S i) c'). exact Hi.
    + cbn [length] in Hgap.
      replace (S a + length infos)%nat with (a + S (length infos))%nat by lia.
      exact Hgap.
Qed.

(** When the loop returns, fewer than the limit minus one cameras have been
    added. *)
Lemma read_cameras_returns (sys_params : list (string * ParameterEntry))
  (n a : nat) s s' :
  a + n = max_num_cameras_allowed_ s -> 0 < n ->
  read_cameras env sys_params (seq a n) s = (Ok tt, s') ->
  only_cameras_added env s s'
  /\ length (cameras_ s') + a + 2 <= length (cameras_ s) + max_num_cameras_allowed_ s.
Proof.
  revert a s. induction n as [|n IH]; intros a s Han Hn H; [lia|].
  cbn [seq] in H. rewrite read_cameras_cons in H.
  destruct (a =? max_num_cameras_allowed_ s - 1)%nat eqn:E9; [discriminate|].
  apply Nat.eqb_neq in E9.
  destruct (isSublist (camera_sublist_id a) sys_params).
  - destruct (sublist _ sys_params) as [cp|e]; [|discriminate].
    destruct (read_camera_info env a cp) as [c|e]; [|discriminate].
    destruct (Camera_check env c) as [[]|e] eqn:Ec; [|discriminate].
    apply IH in H; [|cbn; lia|lia].
    destruct H as ((Hs' & added & Hadd & Hchk) & Hlen).
    cbn [cameras_ max_num_cameras_allowed_ set_cameras_] in Hadd, Hlen, Hs'.
    split.
    + split.
      * rewrite Hs' at 1. destruct s; reflexivity.
      * exists (c :: added). split.
        -- rewrite Hadd, <- app_assoc. reflexivity.
        -- constructor; assumption.
    + rewrite length_app in Hlen. cbn [length] in Hlen. lia.
  - injection H as <-. split.
    + split; [destruct s; reflexivity|].
      exists []. split; [by rewrite app_nil_r | constructor].
    + lia.
Qed.

End CameraLoop.

(** ** The branch for the canonical dialect, from the file to the object *)

Section CanonicalBranch.
Variable env : Env.

Lemma get_string_isParameter (name : string) (l : list (string * ParameterEntry))
  (x : string) :
  get_string name l = Ok x -> isParameter name l = true.
Proof.
  unfold get_string, isParameter. destruct (find_entry name l); [auto|discriminate].
Qed.

(** The branch up to the loop over the cameras, then the loop, then the
    user transforms. *)
Lemma read_dice_xml_eval (sys_params : list (string * ParameterEntry))
  (sys_type_str : string) s :
  isParameter (DICe_XML_Calibration_File env) sys_params = true ->
  get_string (system_type_3D env) sys_params = Ok sys_type_str ->
  read_dice_xml env sys_params s
  = bind (read_cameras env sys_params (seq 0 (max_num_cameras_allowed_ s)))
      (fun _ => read_user_transforms env sys_params)
      (set_sys_type_ (string_to_system_type_3d env sys_type_str) s).
Proof.
  intros Hd Hs. unfold read_dice_xml.
  rewrite Hd, (get_string_isParameter _ _ _ Hs), Hs. reflexivity.
Qed.

Lemma Camera_System_from_file_canonical (f : Calibration_File)
  (sys_params : list (string * ParameterEntry)) :
  teuchos_xml f = Some sys_params ->
  Camera_System_from_file env f
  = match read_dice_xml env sys_params Camera_System_new with
    | (Ok _, s) => Ok s
    | (Error e, _) => Error e
    end.
Proof.
  intros H. unfold Camera_System_from_file, read_calibration_file.
  rewrite H. reflexivity.
Qed.

(** The loop that copies the six values of the user transform. *)
Lemma copy_6x1_ok (tArray : list R) (l : list nat) s :
  Forall (fun i => i < length tArray) l ->
  copy_6x1 tArray l s
  = (Ok tt,
     set_user_6x1_trans_
       (fold_left (fun v i => <[i := nth i tArray 0%R]> v) l (user_6x1_trans_ s))
       s).
Proof.
  revert s. induction l as [|i l IH]; intros s Hl.
  - cbn. destruct s; reflexivity.
  - apply Forall_cons in Hl. destruct Hl as [Hi Hl].
    cbn [copy_6x1 fold_left]. unfold bind at 1, lift at 1.
    rewrite (array_at_ok tArray i 0%R Hi).
    unfold bind at 1, modify at 1. rewrite (IH _ Hl).
    destruct s; reflexivity.
Qed.

Lemma copy_6x1_six (tArray : list R) s :
  6 <= length tArray -> length (user_6x1_trans_ s) = 6 ->
  copy_6x1 tArray (seq 0 6) s
  = (Ok tt, set_user_6x1_trans_ (take 6 tArray) s).
Proof.
  intros Ht Hu. rewrite copy_6x1_ok.
  - f_equal. f_equal.
    rewrite <- Hu at 1.
    rewrite (fold_insert_seq_full (fun i => nth i tArray 0%R)), Hu.
    apply list_eq. intros i. rewrite lookup_take.
    destruct (decide (i < 6)) as [Hi|Hi].
    + rewrite list_lookup_fmap, lookup_seq_lt by exact Hi. cbn.
      destruct (lookup_lt_is_Some_2 tArray i ltac:(lia)) as [x Hx].
      rewrite Hx. f_equal. by rewrite nth_lookup, Hx.
    + rewrite lookup_ge_None_2; [reflexivity|].
      rewrite length_map, length_seq. lia.
  - apply Forall_forall. intros i Hi. apply elem_of_seq in Hi. lia.
Qed.

End CanonicalBranch.

(** ** The canonical dialect: what is read, what is rejected *)

(** X10. A file of the canonical dialect with the marker parameter, a
    system type, at most eight camera groups numbered from 0 without a gap
    and no user transform is read: the object gets the system type of the
    file and the cameras of the groups, in the order of their numbers.
    Groups after the first missing number are not looked at. *)
Theorem canonical_file_is_read (env : Env) (f : Calibration_File)
  (sys_params : list (string * ParameterEntry)) (sys_type_str : string)
  (infos : list Camera_Info) :
  teuchos_xml f = Some sys_params ->
  isParameter (DICe_XML_Calibration_File env) sys_params = true ->
  get_string (system_type_3D env) sys_params = Ok sys_type_str ->
  length infos <= 8 ->
  (forall i c, infos !! i = Some c ->
     exists camParams,
       find_entry (camera_sublist_id i) sys_params = Some (PSublist camParams)
       /\ read_camera_info env i camParams = Ok c
       /\ Camera_check env c = Ok tt) ->
  isSublist (camera_sublist_id (length infos)) sys_params = false ->
  isParameter (user_6_param_transform env) sys_params = false ->
  isSublist (user_4x4_param_transform env) sys_params = false ->
  Camera_System_from_file env f
  = Ok (set_cameras_ infos
          (set_sys_type_ (string_to_system_type_3d env sys_type_str)
             Camera_System_new)).
Proof.
  intros Hf Hd Hs Hlen Hg Hgap H6 H4.
  rewrite (Camera_System_from_file_canonical env f sys_params Hf).
  rewrite (read_dice_xml_eval env sys_params sys_type_str _ Hd Hs).
  unfold bind at 1.
  rewrite (read_cameras_prefix env sys_params infos 0 _ _);
    [ | cbn; lia | cbn; lia | exact Hg | exact Hgap ].
  unfold read_user_transforms. rewrite H6, H4. reflexivity.
Qed.

Lemma canonical_file_is_read_witness :
  let camera i :=
    match read_camera_info example_env i plain_camera_group with
    | Ok c => c
    | Error _ => Camera_Info_default
    end in
  Camera_System_from_file example_env (canonical_file (groups_as_read 2))
  = Ok (set_cameras_ [camera 0; camera 1]
          (set_sys_type_ (string_to_system_type_3d example_env "GENERIC_SYSTEM")
             Camera_System_new)).
Proof.
  refine (canonical_file_is_read example_env (canonical_file (groups_as_read 2))
            _ "GENERIC_SYSTEM" _ eq_refl _ _ _ _ _ _ _).
  - reflexivity.
  - reflexivity.
  - simpl. lia.
  - intros i c Hi. destruct i as [|[|i]]; simpl in Hi.
    + injection Hi as <-. exists plain_camera_group.
      split; [reflexivity|]. split; lazy; reflexivity.
    + injection Hi as <-. exists plain_camera_group.
      split; [reflexivity|]. split; lazy; reflexivity.
    + discriminate.
  - reflexivity.
  - reflexivity.
  - reflexivity.
Defined.

(** X11. When such a file also has the parameter of the six-parameter user
    transform, with an array of six values (the number the reader asserts),
    the object records that it has the transform and holds the six
    values. *)
Theorem canonical_file_user_6_param_transform (env : Env)
  (f : Calibration_File) (sys_params : list (string * ParameterEntry))
  (sys_type_str param_text : string) (infos : list Camera_Info)
  (tArray : list R) :
  teuchos_xml f = Some sys_params ->
  isParameter (DICe_XML_Calibration_File env) sys_params = true ->
  get_string (system_type_3D env) sys_params = Ok sys_type_str ->
  length infos <= 8 ->
  (forall i c, infos !! i = Some c ->
     exists camParams,
       find_entry (camera_sublist_id i) sys_params = Some (PSublist camParams)
       /\ read_camera_info env i camParams = Ok c
       /\ Camera_check env c = Ok tt) ->
  isSublist (camera_sublist_id (length infos)) sys_params = false ->
  get_string (user_6_param_transform env) sys_params = Ok param_text ->
  fromStringToArray_scalar env param_text = Ok tArray ->
  length tArray = 6 ->
  isSublist (user_4x4_param_transform env) sys_params = false ->
  Camera_System_from_file env f
  = Ok (set_user_6x1_trans_ tArray
          (set_has_6_transform_ true
             (set_cameras_ infos
                (set_sys_type_ (string_to_system_type_3d env sys_type_str)
                   Camera_System_new)))).
Proof.
  intros Hf Hd Hs Hlen Hg Hgap H6 Ha Ht H4.
  rewrite (Camera_System_from_file_canonical env f sys_params Hf).
  rewrite (read_dice_xml_eval env sys_params sys_type_str _ Hd Hs).
  unfold bind at 1.
  rewrite (read_cameras_prefix env sys_params infos 0 _ _);
    [ | cbn; lia | cbn; lia | exact Hg | exact Hgap ].
  unfold read_user_transforms.
  rewrite (get_string_isParameter _ _ _ H6), H6, H4.
  unfold bind at 1. unfold bind at 1, modify at 1.
  unfold bind at 1, lift at 1. rewrite Ha.
  unfold bind at 1, lift at 1.
  unfold bind at 1, lift at 1, assert_. rewrite Ht, Nat.eqb_refl, orb_true_r.
  rewrite copy_6x1_six; [ | lia | reflexivity].
  rewrite <- Ht, firstn_all. reflexivity.
Qed.

Lemma canonical_file_user_6_param_transform_witness :
  Camera_System_from_file example_env
    (canonical_file
       [("user_6_param_transform", PString "{ 1, 2, 3, 4, 5, 6 }")])
  = Ok (set_user_6x1_trans_ [1; 2; 3; 4; 5; 6]%R
          (set_has_6_transform_ true
             (set_cameras_ []
                (set_sys_type_
                   (string_to_system_type_3d example_env "GENERIC_SYSTEM")
                   Camera_System_new)))).
Proof.
  refine (canonical_file_user_6_param_transform example_env
            (canonical_file
               [("user_6_param_transform", PString "{ 1, 2, 3, 4, 5, 6 }")])
            _ "GENERIC_SYSTEM" "{ 1, 2, 3, 4, 5, 6 }" []
            [1; 2; 3; 4; 5; 6]%R eq_refl _ _ _ _ _ _ _ _ _).
  - reflexivity.
  - reflexivity.
  - simpl. lia.
  - intros i c Hi. destruct i; discriminate.
  - reflexivity.
  - reflexivity.
  - lazy. reflexivity.
  - reflexivity.
  - reflexivity.
Defined.

(** X12. A camera group that has a [rotation_3x3_matrix] sublist is never
    read, whatever the sublist and the rest of the group hold: a file in
    which such a group is reached (every group before it is there) is
    rejected. *)
Theorem canonical_file_rotation_matrix_is_rejected (env : Env)
  (f : Calibration_File) (sys_params camParams : list (string * ParameterEntry))
  (k : nat) :
  teuchos_xml f = Some sys_params ->
  (forall i, i <= k -> isSublist (camera_sublist_id i) sys_params = true) ->
  find_entry (camera_sublist_id k) sys_params = Some (PSublist camParams) ->
  isSublist (rotation_3x3_matrix env) camParams = true ->
  is_ok (Camera_System_from_file env f) = false.
Proof.
  intros Hf Hall Hk Hrot.
  rewrite (Camera_System_from_file_canonical env f sys_params Hf).
  assert (H : is_ok (fst (read_dice_xml env sys_params Camera_System_new))
              = false).
  { unfold read_dice_xml.
    unfold bind at 1, TEUCHOS_TEST_FOR_EXCEPTION at 1.
    destruct (negb (isParameter (DICe_XML_Calibration_File env) sys_params));
      [reflexivity|]. unfold ret at 1.
    unfold bind at 1, TEUCHOS_TEST_FOR_EXCEPTION at 1.
    destruct (negb (isParameter (system_type_3D env) sys_params));
      [reflexivity|]. unfold ret at 1.
    unfold bind at 1, lift at 1.
    destruct (get_string (system_type_3D env) sys_params) as [str|e];
      [|reflexivity].
    unfold bind at 1, modify at 1. unfold bind at 1, get_state at 1.
    unfold bind at 1.
    pose proof (read_cameras_bad_group env sys_params camParams k 10 0
      (set_sys_type_ (string_to_system_type_3d env str) Camera_System_new)
      eq_refl eq_refl ltac:(lia) ltac:(lia) Hall Hk
      (read_camera_info_rejects_rotation_matrix env k camParams Hrot)) as Hbad.
    change (max_num_cameras_allowed_
              (set_sys_type_ (string_to_system_type_3d env str)
                 Camera_System_new)) with 10.
    destruct (read_cameras env sys_params (seq 0 10) _) as [[u|e] s1];
      [discriminate | reflexivity]. }
  destruct (read_dice_xml env sys_params Camera_System_new) as [[u|e] s1];
    [discriminate | reflexivity].
Qed.

Lemma canonical_file_rotation_matrix_is_rejected_witness :
  is_ok (Camera_System_from_file example_env
           (canonical_file
              [(camera_sublist_id 0, PSublist matrix_camera_group)]))
  = false.
Proof.
  refine (canonical_file_rotation_matrix_is_rejected example_env
            (canonical_file
               [(camera_sublist_id 0, PSublist matrix_camera_group)])
            _ matrix_camera_group 0 eq_refl _ _ _).
  - intros i Hi. assert (i = 0) as -> by lia. reflexivity.
  - reflexivity.
  - reflexivity.
Defined.

(** X13. The messages for what a file of the canonical dialect lacks: no
    marker parameter, no system type, and, in the first camera group, no
    image size or no lens distortion model (the message spells the latter
    LENS_DISTORITION_MODEL). *)
Theorem canonical_file_missing_key (env : Env) (f : Calibration_File)
  (sys_params : list (string * ParameterEntry)) :
  teuchos_xml f = Some sys_params ->
  (isParameter (DICe_XML_Calibration_File env) sys_params = false ->
   Camera_System_from_file env f
   = Error "Camera_System::read_calibration_file(): DICe XML calibration file not valid")
  /\ (isParameter (DICe_XML_Calibration_File env) sys_params = true ->
      isParameter (system_type_3D env) sys_params = false ->
      Camera_System_from_file env f
      = Error ("calibration file missing " ++ system_type_3D env))
  /\ (forall sys_type_str camParams,
        isParameter (DICe_XML_Calibration_File env) sys_params = true ->
        get_string (system_type_3D env) sys_params = Ok sys_type_str ->
        find_entry (camera_sublist_id 0) sys_params
        = Some (PSublist camParams) ->
        (isParameter "IMAGE_HEIGHT_WIDTH" camParams = false ->
         Camera_System_from_file env f
         = Error "calibration file missing IMAGE_HEIGHT_WIDTH")
        /\ (isParameter "IMAGE_HEIGHT_WIDTH" camParams = true ->
            isParameter "LENS_DISTORTION_MODEL" camParams = false ->
            Camera_System_from_file env f
            = Error "calibration file missing LENS_DISTORITION_MODEL")).
Proof.
  intros Hf.
  rewrite (Camera_System_from_file_canonical env f sys_params Hf).
  split; [|split].
  - intros Hd. unfold read_dice_xml. rewrite Hd. reflexivity.
  - intros Hd Hs. unfold read_dice_xml. rewrite Hd, Hs. reflexivity.
  - intros str camParams Hd Hs Hk.
    rewrite (read_dice_xml_eval env sys_params str _ Hd Hs).
    assert (E : forall msg, read_camera_info env 0 camParams = Error msg ->
      (let (r, s) :=
         bind (read_cameras env sys_params
                 (seq 0 (max_num_cameras_allowed_ Camera_System_new)))
           (fun _ => read_user_transforms env sys_params)
           (set_sys_type_ (string_to_system_type_3d env str)
              Camera_System_new) in
       match r with Ok _ => Ok s | Error e => Error e end) = Error msg).
    { intros msg Hmsg. unfold bind at 1.
      change (max_num_cameras_allowed_ Camera_System_new) with 10.
      cbn [seq]. rewrite read_cameras_cons.
      change (0 =? max_num_cameras_allowed_ _ - 1) with false. cbv iota.
      destruct (sublist_found _ _ _ Hk) as [-> ->].
      rewrite Hmsg. reflexivity. }
    split.
    + intros Hi. apply E. unfold read_camera_info. rewrite Hi. reflexivity.
    + intros Hi Hl. apply E. unfold read_camera_info. rewrite Hi, Hl.
      reflexivity.
Qed.

Lemma canonical_file_missing_key_witness :
  Camera_System_from_file example_env
    (mkCalibration_File "cal.xml" (Some [("system_type_3D", PString "VIC3D")])
       true [])
  = Error "Camera_System::read_calibration_file(): DICe XML calibration file not valid".
Proof.
  refine (proj1 (canonical_file_missing_key example_env
    (mkCalibration_File "cal.xml" (Some [("system_type_3D", PString "VIC3D")])
       true []) _ eq_refl) _).
  reflexivity.
Defined.

(** ** What a successful read of the canonical dialect leaves *)

Section CanonicalPostcondition.
Variable env : Env.

Lemma bind_ok_inv {S A B} (c : M S A) (k : A -> M S B) (s s' : S) (b : B) :
  bind c k s = (Ok b, s') ->
  exists a s1, c s = (Ok a, s1) /\ k a s1 = (Ok b, s').
Proof.
  unfold bind. destruct (c s) as [[a|e] s1]; [|discriminate].
  intros H. exists a, s1. auto.
Qed.

(** The loops that copy the user transforms write their member only. *)
Lemma copy_6x1_frame (tArray : list R) (l : list nat) s r s' :
  copy_6x1 tArray l s = (r, s') ->
  s' = set_user_6x1_trans_ (user_6x1_trans_ s') s.
Proof.
  revert s. induction l as [|i l IH]; intros s H.
  - injection H as _ <-. destruct s; reflexivity.
  - cbn [copy_6x1] in H. unfold bind at 1, lift at 1 in H.
    destruct (array_at tArray i) as [x|e].
    + unfold bind at 1, modify at 1 in H. apply IH in H.
      rewrite H at 1. destruct s; reflexivity.
    + injection H as _ <-. destruct s; reflexivity.
Qed.

Lemma copy_4x4_row_frame (j : nat) (tArray : list R) (l : list nat) s r s' :
  copy_4x4_row j tArray l s = (r, s') ->
  s' = set_user_4x4_trans_ (user_4x4_trans_ s') s.
Proof.
  revert s. induction l as [|i l IH]; intros s H.
  - injection H as _ <-. destruct s; reflexivity.
  - cbn [copy_4x4_row] in H. unfold bind at 1, lift at 1 in H.
    destruct (array_at tArray i) as [x|e].
    + unfold bind at 1, modify at 1 in H. apply IH in H.
      rewrite H at 1. destruct s; reflexivity.
    + injection H as _ <-. destruct s; reflexivity.
Qed.

Lemma read_4x4_rows_frame (camRow : list (string * ParameterEntry))
  (l : list nat) s r s' :
  read_4x4_rows env camRow l s = (r, s') ->
  s' = set_user_4x4_trans_ (user_4x4_trans_ s') s.
Proof.
  revert s. induction l as [|j l IH]; intros s H.
  - injection H as _ <-. destruct s; reflexivity.
  - cbn [read_4x4_rows] in H. unfold bind at 1, lift at 1 in H.
    destruct (get_string _ camRow) as [row_text|e];
      [|injection H as _ <-; destruct s; reflexivity].
    unfold bind at 1, lift at 1 in H.
    destruct (fromStringToArray_scalar env row_text) as [tArray|e];
      [|injection H as _ <-; destruct s; reflexivity].
    unfold bind at 1, lift at 1 in H.
    destruct (assert_ env (length tArray =? 4)) as [u0|e];
      [|injection H as _ <-; destruct s; reflexivity].
    unfold bind at 1 in H.
    destruct (copy_4x4_row j tArray (seq 0 4) s) as [[u|e] s1] eqn:E.
    + apply copy_4x4_row_frame in E. apply IH in H.
      rewrite H at 1. rewrite E. destruct s; reflexivity.
    + apply copy_4x4_row_frame in E. injection H as _ <-.
      exact E.
Qed.

(** The user transforms, when they are read: the cameras, the system type
    and the limit stay, and each flag is set exactly when its parameter is
    in the file. *)
Lemma read_user_transforms_returns (sys_params : list (string * ParameterEntry))
  s s' :
  read_user_transforms env sys_params s = (Ok tt, s') ->
  cameras_ s' = cameras_ s /\ sys_type_ s' = sys_type_ s
  /\ max_num_cameras_allowed_ s' = max_num_cameras_allowed_ s
  /\ has_6_transform_ s'
     = (isParameter (user_6_param_transform env) sys_params
        || has_6_transform_ s)
  /\ has_4x4_transform_ s'
     = (isSublist (user_4x4_param_transform env) sys_params
        || has_4x4_transform_ s).
Proof.
  unfold read_user_transforms. intros H.
  apply bind_ok_inv in H. destruct H as (u & s1 & H6 & H4).
  assert (F6 : cameras_ s1 = cameras_ s /\ sys_type_ s1 = sys_type_ s
    /\ max_num_cameras_allowed_ s1 = max_num_cameras_allowed_ s
    /\ has_6_transform_ s1
       = (isParameter (user_6_param_transform env) sys_params
          || has_6_transform_ s)
    /\ has_4x4_transform_ s1 = has_4x4_transform_ s).
  { destruct (isParameter (user_6_param_transform env) sys_params).
    - apply bind_ok_inv in H6. destruct H6 as (u1 & s2 & E & H6).
      injection E as _ <-.
      apply bind_ok_inv in H6. destruct H6 as (param_text & s2 & E & H6).
      unfold lift in E. injection E as _ <-.
      apply bind_ok_inv in H6. destruct H6 as (tArray & s2 & E & H6).
      unfold lift in E. injection E as _ <-.
      apply bind_ok_inv in H6. destruct H6 as (u2 & s2 & E & H6).
      unfold lift in E. injection E as _ <-.
      apply copy_6x1_frame in H6. rewrite H6. cbn. repeat split.
    - injection H6 as _ <-. repeat split. }
  destruct F6 as (C1 & T1 & M1 & A1 & B1).
  destruct (isSublist (user_4x4_param_transform env) sys_params).
  - apply bind_ok_inv in H4. destruct H4 as (u1 & s2 & E & H4).
    injection E as _ <-.
    apply bind_ok_inv in H4. destruct H4 as (camRow & s2 & E & H4).
    unfold lift in E. injection E as _ <-.
    apply read_4x4_rows_frame in H4. rewrite H4. cbn.
    repeat split; assumption.
  - injection H4 as <-. cbn [orb]. repeat split; assumption.
Qed.

End CanonicalPostcondition.

(** X14. Whatever a file of the canonical dialect holds, when it is read
    the object has at most eight cameras, each accepted by the constructor
    of [DICe::Camera]; its system type is the one the file names; it has a
    user transform of either kind exactly when the file has the parameter
    of that kind; and the limit of ten cameras is unchanged. *)
Theorem canonical_read_postcondition (env : Env) (f : Calibration_File)
  (sys_params : list (string * ParameterEntry)) (s : Camera_System) :
  teuchos_xml f = Some sys_params ->
  Camera_System_from_file env f = Ok s ->
  length (cameras_ s) <= 8
  /\ Forall (fun c => Camera_check env c = Ok tt) (cameras_ s)
  /\ isParameter (DICe_XML_Calibration_File env) sys_params = true
  /\ (exists sys_type_str,
        get_string (system_type_3D env) sys_params = Ok sys_type_str
        /\ sys_type_ s = string_to_system_type_3d env sys_type_str)
  /\ has_6_transform_ s
     = isParameter (user_6_param_transform env) sys_params
  /\ has_4x4_transform_ s
     = isSublist (user_4x4_param_transform env) sys_params
  /\ max_num_cameras_allowed_ s = 10.
Proof.
  intros Hf H.
  rewrite (Camera_System_from_file_canonical env f sys_params Hf) in H.
  destruct (read_dice_xml env sys_params Camera_System_new) as [[[]|e] s1] eqn:E;
    [|discriminate].
  injection H as ->.
  unfold read_dice_xml in E.
  apply bind_ok_inv in E. destruct E as (u & s1 & E1 & E).
  apply test_returns_inv in E1. destruct E1 as [Hd ->].
  apply negb_false_iff in Hd.
  apply bind_ok_inv in E. destruct E as (u1 & s1 & E1 & E).
  apply test_returns_inv in E1. destruct E1 as [_ ->].
  apply bind_ok_inv in E. destruct E as (str & s1 & E1 & E).
  unfold lift in E1. injection E1 as Hs <-.
  apply bind_ok_inv in E. destruct E as (u2 & s1 & E1 & E).
  unfold modify in E1. injection E1 as _ <-.
  apply bind_ok_inv in E. destruct E as (s0 & s1 & E1 & E).
  unfold get_state in E1. injection E1 as <- <-.
  apply bind_ok_inv in E. destruct E as ([] & s1 & Ecam & E).
  apply (read_cameras_returns env sys_params 10 0) in Ecam;
    [|reflexivity|lia].
  destruct Ecam as ((Hs1 & added & Hadd & Hchk) & Hlen).
  cbn [cameras_ max_num_cameras_allowed_ set_sys_type_ Camera_System_new
       length] in Hadd, Hlen.
  destruct u.
  apply read_user_transforms_returns in E.
  destruct E as (C & T & Mx & A & B).
  rewrite Hs1 in T, Mx, A, B. cbn in T, Mx, A, B.
  rewrite C, Hadd. cbn [app].
  split; [rewrite Hadd in Hlen; cbn [app] in Hlen; lia|].
  split; [exact Hchk|]. split; [exact Hd|].
  split; [exists str; split; [exact Hs | exact T]|].
  rewrite orb_false_r in A, B. auto.
Qed.

Lemma canonical_read_postcondition_witness :
  let f := canonical_file (groups_as_read 2) in
  let s := match Camera_System_from_file example_env f with
           | Ok s => s
           | Error _ => Camera_System_new
           end in
  length (cameras_ s) <= 8
  /\ Forall (fun c => Camera_check example_env c = Ok tt) (cameras_ s)
  /\ isParameter (DICe_XML_Calibration_File example_env)
       ([ ("DICe_XML_Calibration_File", PBool true);
          ("system_type_3D", PString "GENERIC_SYSTEM") ] ++ groups_as_read 2)
     = true
  /\ (exists sys_type_str,
        get_string (system_type_3D example_env)
          ([ ("DICe_XML_Calibration_File", PBool true);
             ("system_type_3D", PString "GENERIC_SYSTEM") ] ++ groups_as_read 2)
        = Ok sys_type_str
        /\ sys_type_ s = string_to_system_type_3d example_env sys_type_str)
  /\ has_6_transform_ s
     = isParameter (user_6_param_transform example_env)
         ([ ("DICe_XML_Calibration_File", PBool true);
            ("system_type_3D", PString "GENERIC_SYSTEM") ] ++ groups_as_read 2)
  /\ has_4x4_transform_ s
     = isSublist (user_4x4_param_transform example_env)
         ([ ("DICe_XML_Calibration_File", PBool true);
            ("system_type_3D", PString "GENERIC_SYSTEM") ] ++ groups_as_read 2)
  /\ max_num_cameras_allowed_ s = 10.
Proof.
  refine (canonical_read_postcondition example_env
            (canonical_file (groups_as_read 2)) _
            (match Camera_System_from_file example_env
                     (canonical_file (groups_as_read 2)) with
             | Ok s => s
             | Error _ => Camera_System_new
             end) eq_refl _).
  assert (X : match Camera_System_from_file example_env
                      (canonical_file (groups_as_read 2)) with
              | Ok _ => True
              | Error _ => False
              end) by (lazy; exact I).
  destruct (Camera_System_from_file example_env
              (canonical_file (groups_as_read 2)));
    [reflexivity | contradiction].
Defined.

(** ** The VIC3D dialect: what a successful read leaves, what is rejected *)

Section Vic3dPostcondition.
Variable env : Env.

Lemma push_back_vic3d_returns (H W : Z) (l : list Camera_Info) s s' :
  push_back_vic3d env H W l s = (Ok tt, s') ->
  s' = set_cameras_
         (cameras_ s
          ++ map (fun c => set_image_width_ W (set_image_height_ H c)) l) s
  /\ Forall (fun c => Camera_check env
                        (set_image_width_ W (set_image_height_ H c)) = Ok tt) l.
Proof.
  revert s. induction l as [|c l IH]; intros s E.
  - injection E as <-. cbn [map]. rewrite app_nil_r.
    split; [destruct s; reflexivity | constructor].
  - cbn [push_back_vic3d] in E. apply bind_ok_inv in E.
    destruct E as (u & s1 & E1 & E). rewrite push_back_camera_ok in E1.
    destruct (Camera_check env _) as [[]|e] eqn:Ec; [|discriminate].
    injection E1 as _ <-. apply IH in E. destruct E as [-> Hf].
    split.
    + cbn [cameras_ set_cameras_ map]. rewrite <- app_assoc. reflexivity.
    + constructor; assumption.
Qed.

(** A line that begins with [CAMERA] and is not a well-formed record makes
    the body of the loop raise. *)
Lemma read_vic3d_line_malformed st tokens :
  camera_record_malformed tokens = true ->
  is_ok (read_vic3d_line env st tokens) = false.
Proof.
  unfold camera_record_malformed, camera_record. intros H.
  apply andb_prop in H. destruct H as [H0 H].
  rewrite H0 in H. cbn [andb] in H.
  destruct tokens as [|t0 rest]; [discriminate|].
  cbn [begins_with] in H0. apply String.eqb_eq in H0. subst t0.
  unfold read_vic3d_line.
  change (length ("CAMERA"%string :: rest) =? 0) with false. cbv iota.
  change (array_at ("CAMERA"%string :: rest) 0) with (Ok "CAMERA"%string).
  change (rbind (Ok "CAMERA"%string) ?k) with (k "CAMERA"%string). cbv beta.
  change (("CAMERA" =? "POLYGONMASK")%string) with false.
  change (("CAMERA" =? "CAMERA")%string) with true.
  change (negb true) with false. cbv iota.
  unfold test_for_exception at 1.
  destruct (1 <? current_camera st); [reflexivity|].
  change (rbind (Ok tt) ?k) with (k tt). cbv beta.
  destruct (array_at ("CAMERA"%string :: rest) 2) as [token2|e] eqn:E2;
    [|reflexivity].
  change (rbind (Ok token2) ?k) with (k token2). cbv beta zeta.
  assert (H2 : nth 2 ("CAMERA"%string :: rest) EmptyString = token2).
  { unfold array_at in E2.
    destruct (("CAMERA"%string :: rest) !! 2) as [x|] eqn:El; [|discriminate].
    injection E2 as <-. by rewrite nth_lookup, El. }
  rewrite H2 in H.
  unfold test_for_exception at 1.
  destruct (10 <=? atoi token2)%Z eqn:E10; [reflexivity|].
  change (rbind (Ok tt) ?k) with (k tt). cbv beta.
  unfold test_for_exception at 1.
  destruct (length ("CAMERA"%string :: rest) <=? 18) eqn:E18; [reflexivity|].
  change (rbind (Ok tt) ?k) with (k tt). cbv beta.
  apply Nat.leb_gt in E18.
  match goal with |- context [store_intrinsics env ?t ?l ?s] =>
    destruct (store_intrinsics env t l s) as [st1|e]; [|reflexivity]
  end.
  change (rbind (Ok st1) ?k) with (k st1). cbv beta zeta.
  rewrite (array_at_ok _ 11 EmptyString) by lia.
  match goal with |- context [rbind (Ok ?a) ?k] =>
    change (rbind (Ok a) k) with (k a) end. cbv beta.
  replace (18 <? length ("CAMERA"%string :: rest)) with true in H
    by (symmetry; apply Nat.ltb_lt; exact E18).
  rewrite Z.ltb_antisym, E10 in H. cbn [negb andb] in H.
  apply negb_true_iff in H. rewrite H. reflexivity.
Qed.

End Vic3dPostcondition.

(** X15. What every successful read of a VIC3D file leaves, when no
    subscript of the loop leaves the token vector of a line: the system
    type VIC3D, no user transform and exactly two cameras, which are the
    two entries of [camera_infos] when the loop over the lines ends, in
    this order, with the image width and height that the file declares in
    its last POLYGONMASK line as [atoi] reads them; both sizes are
    positive and both cameras were accepted by the constructor of
    [DICe::Camera]; the file had at most two [CAMERA] lines, and its
    stream was good. *)
Theorem vic3d_read_postcondition (env : Env) (f : Calibration_File)
  (s : Camera_System) :
  teuchos_xml f = None -> found xml (cal_file f) = true ->
  forallb vic3d_line_in_range (token_lines f) = true ->
  Camera_System_from_file env f = Ok s ->
  let sizes := vic3d_declared_sizes (token_lines f) (0, 0)%Z in
  let W := fst sizes in
  let H := snd sizes in
  good f = true
  /\ count_records "CAMERA" (token_lines f) <= 2
  /\ sys_type_ s = VIC3D
  /\ has_6_transform_ s = false /\ has_4x4_transform_ s = false
  /\ (0 < W)%Z /\ (0 < H)%Z
  /\ (exists c0 c1 st,
        read_vic3d_lines env vic3d_initial_state (token_lines f) = Ok st
        /\ camera_infos st = [c0; c1]
        /\ cameras_ s = [ set_image_width_ W (set_image_height_ H c0);
                          set_image_width_ W (set_image_height_ H c1) ])
  /\ Forall (fun c => image_width_ c = W /\ image_height_ c = H
                      /\ Camera_check env c = Ok tt) (cameras_ s).
Proof.
  intros Hx Hf _ H sizes W0 H0.
  unfold Camera_System_from_file, read_calibration_file in H.
  rewrite Hx in H.
  match type of H with
  | match ?c with _ => _ end = _ => destruct c as [[[]|e] s1] eqn:E
  end; [|discriminate].
  injection H as ->.
  apply bind_ok_inv in E. destruct E as (u & s1 & E1 & E).
  apply test_returns_inv in E1. destruct E1 as [Hg ->].
  apply negb_false_iff in Hg. rewrite Hf in E.
  unfold read_vic3d in E.
  apply bind_ok_inv in E. destruct E as (u1 & s1 & E1 & E).
  unfold modify in E1. injection E1 as _ <-.
  apply bind_ok_inv in E. destruct E as (st & s1 & E1 & E).
  unfold lift in E1. injection E1 as Hloop <-.
  apply bind_ok_inv in E. destruct E as (u2 & s1 & E1 & E).
  apply test_returns_inv in E1. destruct E1 as [Hsize ->].
  apply orb_false_elim in Hsize. destruct Hsize as [HH HW].
  apply Z.leb_gt in HH, HW.
  apply bind_ok_inv in E. destruct E as ([] & s1 & Epush & E).
  apply push_back_vic3d_returns in Epush. destruct Epush as [-> Hchk].
  apply bind_ok_inv in E. destruct E as (s0 & s1 & E1 & E).
  unfold get_state in E1. injection E1 as <- <-.
  apply test_returns_inv in E. destruct E as [_ ->].
  pose proof (read_vic3d_lines_sizes env _ _ _ Hloop) as Hsz.
  cbn [xml_img_width xml_img_height vic3d_initial_state] in Hsz.
  fold sizes in Hsz.
  assert (EW : W0 = xml_img_width st) by (subst W0; rewrite <- Hsz; reflexivity).
  assert (EH : H0 = xml_img_height st) by (subst H0; rewrite <- Hsz; reflexivity).
  clearbody W0 H0. subst W0 H0. clear Hsz.
  pose proof (read_vic3d_lines_returns env _ _ _ Hloop) as (Hc & Hl & H2).
  cbn [current_camera vic3d_initial_state camera_infos length] in Hc, Hl, H2.
  split; [exact Hg|]. split; [specialize (H2 ltac:(lia)); lia|].
  split; [reflexivity|]. split; [reflexivity|]. split; [reflexivity|].
  split; [exact HW|]. split; [exact HH|].
  destruct (camera_infos st) as [|c0 [|c1 [|c2 l]]] eqn:Ei;
    try discriminate Hl.
  apply Forall_cons in Hchk. destruct Hchk as [Hk0 Hchk].
  apply Forall_cons in Hchk. destruct Hchk as [Hk1 _].
  split.
  - exists c0, c1, st. split; [exact Hloop|]. split; [exact Ei|]. reflexivity.
  - cbn [cameras_ set_cameras_ set_sys_type_ Camera_System_new app map].
    apply Forall_cons. split; [repeat split; assumption|].
    apply Forall_cons. split; [repeat split; assumption|].
    apply Forall_nil. exact I.
Qed.

Lemma vic3d_read_postcondition_witness :
  let s := match Camera_System_from_file example_env vic3d_file with
           | Ok s => s
           | Error _ => Camera_System_new
           end in
  good vic3d_file = true
  /\ count_records "CAMERA" (token_lines vic3d_file) <= 2
  /\ sys_type_ s = VIC3D
  /\ has_6_transform_ s = false /\ has_4x4_transform_ s = false
  /\ (0 < 1000)%Z /\ (0 < 500)%Z
  /\ (exists c0 c1 st,
        read_vic3d_lines example_env vic3d_initial_state
          (token_lines vic3d_file) = Ok st
        /\ camera_infos st = [c0; c1]
        /\ cameras_ s = [ set_image_width_ 1000 (set_image_height_ 500 c0);
                          set_image_width_ 1000 (set_image_height_ 500 c1) ])
  /\ Forall (fun c => image_width_ c = 1000%Z /\ image_height_ c = 500%Z
                      /\ Camera_check example_env c = Ok tt) (cameras_ s).
Proof.
  refine (vic3d_read_postcondition example_env vic3d_file
            (match Camera_System_from_file example_env vic3d_file with
             | Ok s => s
             | Error _ => Camera_System_new
             end) eq_refl eq_refl eq_refl _).
  assert (X : match Camera_System_from_file example_env vic3d_file with
              | Ok _ => True
              | Error _ => False
              end) by (lazy; exact I).
  destruct (Camera_System_from_file example_env vic3d_file);
    [reflexivity | contradiction].
Defined.

(** X16. A VIC3D file with a line that begins with [CAMERA] and is not a
    well-formed record (18 tokens or fewer, a camera number that [atoi]
    reads as 10 or more, or no [ORIENTATION] marker as twelfth token) is
    rejected by an exception of the reader, wherever the line stands and
    whatever else the file holds, as long as no subscript of the loop
    leaves the token vector of a line. *)
Theorem vic3d_malformed_camera_is_rejected (env : Env) (f : Calibration_File) :
  teuchos_xml f = None -> good f = true -> found xml (cal_file f) = true ->
  forallb vic3d_line_in_range (token_lines f) = true ->
  existsb camera_record_malformed (token_lines f) = true ->
  Camera_System_from_file env f = Error EmptyString.
Proof.
  intros Hx Hg Hf Hr Hbad. unfold Camera_System_from_file.
  rewrite read_calibration_file_vic3d by assumption.
  assert (E : fst (read_vic3d env (token_lines f) Camera_System_new)
              = Error EmptyString).
  { apply read_vic3d_loop_raises_empty; [exact Hr|].
    apply (read_vic3d_lines_line_raises env _ camera_record_malformed);
      [apply read_vic3d_line_malformed | exact Hbad]. }
  destruct (read_vic3d env (token_lines f) Camera_System_new) as [r s1].
  cbn [fst] in E. rewrite E. reflexivity.
Qed.

Lemma vic3d_malformed_camera_is_rejected_witness :
  Camera_System_from_file example_env
    (mkCalibration_File "cal.xml" None true
       [ ["POLYGONMASK"; "WIDTH="; "1000"; "HEIGHT="; "500"];
         ["CAMERA"; "ID="; "12"; "1"; "2"; "3"; "4"; "5"; "6"; "7";
          "8"; "ORIENTATION"; "0"; "0"; "0"; "10"; "20"; "30";
          "/CAMERA"] ]%string) = Error EmptyString.
Proof.
  refine (vic3d_malformed_camera_is_rejected example_env
            (mkCalibration_File "cal.xml" None true
               [ ["POLYGONMASK"; "WIDTH="; "1000"; "HEIGHT="; "500"];
                 ["CAMERA"; "ID="; "12"; "1"; "2"; "3"; "4"; "5"; "6"; "7";
                  "8"; "ORIENTATION"; "0"; "0"; "0"; "10"; "20"; "30";
                  "/CAMERA"] ]%string) eq_refl eq_refl eq_refl _ _);
    reflexivity.
Defined.

(** ** What a [CAMERA] record of the VIC3D dialect holds *)

Section Vic3dRecord.
Variable env : Env.

Lemma update_camera_id st : update_camera st (fun c => c) = st.
Proof.
  unfold update_camera. destruct st as [infos cur h w]. cbn. f_equal.
  destruct (infos !! cur) as [c|] eqn:E.
  - rewrite nth_lookup, E. cbn. by apply list_insert_id.
  - apply list_insert_ge. by apply lookup_ge_None.
Qed.

Lemma update_camera_compose st (f g : Camera_Info -> Camera_Info) :
  update_camera (update_camera st f) g = update_camera st (fun c => g (f c)).
Proof.
  unfold update_camera. destruct st as [infos cur h w]. cbn. f_equal.
  destruct (decide (cur < length infos)) as [Hc|Hc].
  - rewrite nth_lookup, list_lookup_insert_eq by exact Hc. cbn.
    rewrite list_insert_insert_eq. reflexivity.
  - rewrite !list_insert_ge by (rewrite ?length_insert; lia). reflexivity.
Qed.

(** The loop that stores the eight intrinsic values, as one update of the
    current camera. *)
Lemma store_intrinsics_update (tokens : list string) (l : list nat) st :
  18 < length tokens -> Forall (fun i => i < 8) l ->
  store_intrinsics env tokens l st
  = Ok (update_camera st (fun c =>
          fold_left (fun c i =>
            set_intrinsic (nth i param_order_int 0)
              (strtod env (nth (i + 3) tokens EmptyString)) c) l c)).
Proof.
  intros Ht. revert st. induction l as [|i l IH]; intros st Hl.
  - cbn. by rewrite update_camera_id.
  - apply Forall_cons in Hl. destruct Hl as [Hi Hl].
    cbn [store_intrinsics fold_left].
    rewrite (array_at_ok tokens (i + 3) EmptyString) by lia.
    rewrite (array_at_ok param_order_int i 0) by (cbn; lia).
    cbn [rbind]. rewrite (IH _ Hl), update_camera_compose. reflexivity.
Qed.

(** A well-formed [CAMERA] record, when it is one of the first two: the
    body of the loop is one update of the current camera. *)
Lemma read_vic3d_line_camera_update st tokens :
  camera_record tokens = true -> current_camera st <= 1 ->
  read_vic3d_line env st tokens
  = Ok (mkVic3d_State
          (camera_infos (update_camera st (fun c =>
             set_tz_ (strtod env (nth 17 tokens EmptyString))
               (set_ty_ (strtod env (nth 16 tokens EmptyString))
                  (set_tx_ (strtod env (nth 15 tokens EmptyString))
                     (set_rotation_matrix_
                        (set_rotation_matrix env
                           (strtod env (nth 12 tokens EmptyString))
                           (strtod env (nth 13 tokens EmptyString))
                           (strtod env (nth 14 tokens EmptyString)))
                        (set_lens_distortion_model_ K1R1_K2R2_K3R3
                           (fold_left (fun c i =>
                              set_intrinsic (nth i param_order_int 0)
                                (strtod env (nth (i + 3) tokens EmptyString)) c)
                              (seq 0 8)
                              (set_id_
                                 ("CAMERA "
                                  ++ string_of_int_t
                                       (atoi (nth 2 tokens EmptyString)))
                                 c)))))))))
          (S (current_camera st)) (xml_img_height st) (xml_img_width st)).
Proof.
  unfold camera_record. intros Hr Hc.
  repeat (apply andb_prop in Hr; destruct Hr as [Hr ?]).
  match goal with E : (18 <? _) = true |- _ => apply Nat.ltb_lt in E end.
  assert (Hfirst : nth 0 tokens EmptyString = "CAMERA"%string).
  { destruct tokens; [discriminate|]. by apply String.eqb_eq in Hr. }
  unfold read_vic3d_line.
  replace (length tokens =? 0) with false by (symmetry; apply Nat.eqb_neq; lia).
  rewrite !(array_at_ok tokens _ EmptyString) by lia.
  rewrite Hfirst.
  change (rbind (Ok "CAMERA"%string) ?k) with (k "CAMERA"%string). cbv beta.
  change (("CAMERA" =? "POLYGONMASK")%string) with false.
  change (("CAMERA" =? "CAMERA")%string) with true.
  change (negb true) with false. cbv iota.
  replace (1 <? current_camera st) with false
    by (symmetry; apply Nat.ltb_ge; lia).
  unfold test_for_exception at 1.
  repeat (match goal with |- context [rbind (Ok ?a) ?k] =>
            change (rbind (Ok a) k) with (k a) end; cbv beta zeta).
  match goal with E : (_ <? 10)%Z = true |- _ =>
    rewrite Z.ltb_antisym in E; apply negb_true_iff in E; rewrite E end.
  replace (length tokens <=? 18) with false by (symmetry; apply Nat.leb_gt; lia).
  unfold test_for_exception at 1. unfold test_for_exception at 1.
  repeat (match goal with |- context [rbind (Ok ?a) ?k] =>
            change (rbind (Ok a) k) with (k a) end; cbv beta zeta).
  change (length param_order_int) with 8.
  rewrite store_intrinsics_update
    by (try lia; apply Forall_forall; intros i Hi; apply elem_of_seq in Hi; lia).
  repeat (match goal with |- context [rbind (Ok ?a) ?k] =>
            change (rbind (Ok a) k) with (k a) end; cbv beta zeta).
  match goal with E : (_ =? "ORIENTATION")%string = true |- _ => rewrite E end.
  change (negb true) with false. unfold test_for_exception.
  repeat (match goal with |- context [rbind (Ok ?a) ?k] =>
            change (rbind (Ok a) k) with (k a) end; cbv beta zeta).
  rewrite !update_camera_compose. reflexivity.
Qed.

Lemma fold_set_intrinsic (f : nat -> R) (l : list nat) (c : Camera_Info) :
  intrinsics_ (fold_left (fun c i => set_intrinsic (nth i param_order_int 0)
                                        (f i) c) l c)
  = fold_left (fun v i => <[nth i param_order_int 0 := f i]> v) l
      (intrinsics_ c)
  /\ forall c', c' = fold_left (fun c i => set_intrinsic
                                  (nth i param_order_int 0) (f i) c) l c ->
     id_ c' = id_ c /\ image_height_ c' = image_height_ c
     /\ image_width_ c' = image_width_ c /\ pixel_depth_ c' = pixel_depth_ c
     /\ lens_ c' = lens_ c /\ comments_ c' = comments_ c.
Proof.
  revert c. induction l as [|i l IH]; intros c.
  - cbn. split; [reflexivity|]. intros c' ->. repeat split.
  - cbn [fold_left]. destruct (IH (set_intrinsic (nth i param_order_int 0)
                                     (f i) c)) as [E F].
    split; [exact E|]. intros c' Hc'. destruct (F c' Hc') as (?&?&?&?&?&?).
    cbn in *. repeat split; assumption.
Qed.

Lemma fold_left_ext_in {A B} (f g : A -> B -> A) (l : list B) (a : A) :
  (forall a b, In b l -> f a b = g a b) -> fold_left f l a = fold_left g l a.
Proof.
  revert a. induction l as [|b l IH]; intros a H; [reflexivity|].
  cbn [fold_left]. rewrite (H a b) by (left; reflexivity).
  apply IH. intros a' b' Hb. apply H. right. exact Hb.
Qed.

End Vic3dRecord.

(** X17. A well-formed [CAMERA] record of a VIC3D file, when it is one of
    the first two, is read into the current entry of [camera_infos] and
    nothing else: the camera is named [CAMERA n] for the number [n] that is
    the third token, the fourth to eleventh tokens are the intrinsic values
    CX, CY, FX, FY, FS, K1, K2, K3 in this order, the lens distortion model
    is K1R1_K2R2_K3R3, the three tokens after [ORIENTATION] are the angles
    handed to [set_rotation_matrix] and the next three the translation. *)
Theorem vic3d_camera_record_fields (env : Env) (st : Vic3d_State)
  (tokens : list string) :
  camera_record tokens = true ->
  current_camera st < length (camera_infos st) -> current_camera st <= 1 ->
  8 <= length (intrinsics_ (nth (current_camera st) (camera_infos st)
                              Camera_Info_default)) ->
  exists st',
    read_vic3d_line env st tokens = Ok st'
    /\ current_camera st' = S (current_camera st)
    /\ xml_img_height st' = xml_img_height st
    /\ xml_img_width st' = xml_img_width st
    /\ (forall j, j <> current_camera st ->
          camera_infos st' !! j = camera_infos st !! j)
    /\ let value i := strtod env (nth i tokens EmptyString) in
       let c := nth (current_camera st) (camera_infos st) Camera_Info_default in
       let c' := nth (current_camera st) (camera_infos st')
                   Camera_Info_default in
       id_ c' = ("CAMERA "
                 ++ string_of_int_t (atoi (nth 2 tokens EmptyString)))%string
       /\ lens_distortion_model_ c' = K1R1_K2R2_K3R3
       /\ intrinsics_ c'
          = [value 3; value 4; value 5; value 6; value 7; value 8; value 9;
             value 10] ++ drop 8 (intrinsics_ c)
       /\ rotation_matrix_ c'
          = set_rotation_matrix env (value 12) (value 13) (value 14)
       /\ tx_ c' = value 15 /\ ty_ c' = value 16 /\ tz_ c' = value 17
       /\ image_height_ c' = image_height_ c
       /\ image_width_ c' = image_width_ c.
Proof.
  intros Hr Hlen Hc Hi.
  rewrite (read_vic3d_line_camera_update env st tokens Hr Hc).
  eexists. split; [reflexivity|].
  cbn [current_camera xml_img_height xml_img_width camera_infos update_camera].
  split; [reflexivity|]. split; [reflexivity|]. split; [reflexivity|].
  split.
  - intros j Hj. apply list_lookup_insert_ne. congruence.
  - cbv zeta. rewrite (nth_lookup (<[_ := _]> _)).
    rewrite list_lookup_insert_eq by exact Hlen. cbn [default from_option].
    unfold Datatypes.id.
    set (c := nth (current_camera st) (camera_infos st) Camera_Info_default)
      in *.
    destruct (fold_set_intrinsic
                (fun i => strtod env (nth (i + 3) tokens EmptyString))
                (seq 0 8)
                (set_id_ ("CAMERA "
                          ++ string_of_int_t (atoi (nth 2 tokens EmptyString)))
                   c)) as [Ei Ef].
    destruct (Ef _ eq_refl) as (F1 & F2 & F3 & _). clear Ef.
    assert (Ev : fold_left
                   (fun (v : list R) i =>
                      <[nth i param_order_int 0 :=
                         strtod env (nth (i + 3) tokens EmptyString)]> v)
                   (seq 0 8) (intrinsics_ c)
                 = [strtod env (nth 3 tokens EmptyString);
                    strtod env (nth 4 tokens EmptyString);
                    strtod env (nth 5 tokens EmptyString);
                    strtod env (nth 6 tokens EmptyString);
                    strtod env (nth 7 tokens EmptyString);
                    strtod env (nth 8 tokens EmptyString);
                    strtod env (nth 9 tokens EmptyString);
                    strtod env (nth 10 tokens EmptyString)]
                   ++ drop 8 (intrinsics_ c)).
    { etransitivity;
        [|exact (fold_insert_seq
                   (fun i => strtod env (nth (i + 3) tokens EmptyString)) 8
                   (intrinsics_ c) Hi)].
      apply fold_left_ext_in. intros v i Hin. apply in_seq in Hin.
      do 8 (destruct i as [|i]; [reflexivity|]). lia. }
    change (intrinsics_ (set_id_ ("CAMERA "
              ++ string_of_int_t (atoi (nth 2 tokens EmptyString))) c))
      with (intrinsics_ c) in Ei.
    rewrite Ev in Ei. clear Ev.
    change (id_ (set_id_ ("CAMERA "
              ++ string_of_int_t (atoi (nth 2 tokens EmptyString))) c))
      with ("CAMERA " ++ string_of_int_t (atoi (nth 2 tokens EmptyString)))%string
      in F1.
    change (image_height_ (set_id_ ("CAMERA "
              ++ string_of_int_t (atoi (nth 2 tokens EmptyString))) c))
      with (image_height_ c) in F2.
    change (image_width_ (set_id_ ("CAMERA "
              ++ string_of_int_t (atoi (nth 2 tokens EmptyString))) c))
      with (image_width_ c) in F3.
    revert Ei F1 F2 F3.
    generalize (fold_left
                  (fun c0 i =>
                     set_intrinsic (nth i param_order_int 0)
                       (strtod env (nth (i + 3) tokens EmptyString)) c0)
                  (seq 0 8)
                  (set_id_ ("CAMERA "
                            ++ string_of_int_t
                                 (atoi (nth 2 tokens EmptyString))) c)).
    intros c1 Ei F1 F2 F3.
    split; [exact F1|]. split; [reflexivity|]. split; [exact Ei|].
    split; [reflexivity|]. split; [reflexivity|]. split; [reflexivity|].
    split; [reflexivity|]. split; [exact F2 | exact F3].
Qed.

Lemma vic3d_camera_record_fields_witness :
  exists st',
    read_vic3d_line example_env vic3d_initial_state (vic3d_camera_line "1")
    = Ok st'
    /\ current_camera st' = 1
    /\ xml_img_height st' = 0%Z
    /\ xml_img_width st' = 0%Z
    /\ (forall j, j <> 0 ->
          camera_infos st' !! j = camera_infos vic3d_initial_state !! j)
    /\ let value i :=
         strtod example_env (nth i (vic3d_camera_line "1") EmptyString) in
       let c := Camera_Info_default in
       let c' := nth 0 (camera_infos st') Camera_Info_default in
       id_ c' = ("CAMERA " ++ string_of_int_t (atoi "1"))%string
       /\ lens_distortion_model_ c' = K1R1_K2R2_K3R3
       /\ intrinsics_ c'
          = [value 3; value 4; value 5; value 6; value 7; value 8; value 9;
             value 10] ++ drop 8 (intrinsics_ c)
       /\ rotation_matrix_ c'
          = set_rotation_matrix example_env (value 12) (value 13) (value 14)
       /\ tx_ c' = value 15 /\ ty_ c' = value 16 /\ tz_ c' = value 17
       /\ image_height_ c' = image_height_ c
       /\ image_width_ c' = image_width_ c.
Proof.
  refine (vic3d_camera_record_fields example_env vic3d_initial_state
            (vic3d_camera_line "1") eq_refl _ _ _).
  - simpl. lia.
  - simpl. lia.
  - simpl. lia.
Defined.

(** ** The text dialect: where each value of the file goes *)

Section TextLayout.
Variable env : Env.

(** The branch for the text dialect, when it returns. *)
Lemma read_txt_returns (name : string) (lines : list (list string)) s s' :
  read_txt env name lines s = (Ok tt, s') ->
  let n := length (value_tokens lines) in
  let st := fold_left (read_txt_value env n) (value_tokens lines)
              (txt_initial_state n) in
  (n = 24 \/ n = 30)
  /\ (0 <= txt_img_height st)%Z /\ (0 <= txt_img_width st)%Z
  /\ s' = set_cameras_
            (cameras_ s ++ [txt_camera_0 st; txt_camera_1 env (n =? 24) st])
            (set_sys_type_ GENERIC_SYSTEM s).
Proof.
  intros H n st. unfold read_txt in H.
  apply bind_ok_inv in H. destruct H as (u & s1 & E & H).
  unfold modify in E. injection E as _ <-.
  apply bind_ok_inv in H. destruct H as (total & s1 & E & H).
  unfold lift in E. injection E as Ec <-.
  assert (Ht : no_TRANSFORM lines = true).
  { destruct (no_TRANSFORM lines) eqn:ET; [reflexivity|].
    pose proof (count_values_raises lines 0 ET) as Hr.
    rewrite Ec in Hr. discriminate. }
  rewrite (count_values_counts lines 0 Ht) in Ec. injection Ec as <-.
  cbn [Nat.add] in H. fold n in H.
  apply bind_ok_inv in H. destruct H as (u1 & s1 & E & H).
  apply test_returns_inv in E. destruct E as [En ->].
  apply bind_ok_inv in H. destruct H as (u0 & s1 & E & H).
  unfold lift in E. injection E as _ <-.
  rewrite read_txt_values_fold in H. fold st in H.
  apply bind_ok_inv in H. destruct H as (u2 & s1 & E & H).
  apply test_returns_inv in E. destruct E as [Eh ->].
  apply bind_ok_inv in H. destruct H as (u3 & s1 & E & H).
  apply test_returns_inv in E. destruct E as [Ew ->].
  apply bind_ok_inv in H. destruct H as (u4 & s1 & E & H).
  rewrite push_back_camera_ok in E, H.
  destruct (Camera_check env (txt_camera_0 st)); [|discriminate].
  injection E as _ <-.
  destruct (Camera_check env (txt_camera_1 env _ st)); [|discriminate].
  injection H as <-.
  apply Z.ltb_ge in Eh, Ew.
  split.
  { unfold num_values_with_eulers, num_values_with_R in En.
    destruct (n =? 24) eqn:E24; [left; by apply Nat.eqb_eq|].
    destruct (n =? 30) eqn:E30; [right; by apply Nat.eqb_eq|discriminate]. }
  split; [exact Eh|]. split; [exact Ew|].
  cbn [cameras_ set_cameras_ set_sys_type_]. rewrite <- app_assoc.
  reflexivity.
Qed.

Lemma Camera_System_from_file_txt (f : Calibration_File) s :
  teuchos_xml f = None ->
  found xml (cal_file f) = false -> found txt (cal_file f) = true ->
  Camera_System_from_file env f = Ok s ->
  good f = true
  /\ read_txt env (cal_file f) (token_lines f) Camera_System_new = (Ok tt, s).
Proof.
  intros Hx Hxml Htxt H.
  unfold Camera_System_from_file, read_calibration_file in H.
  rewrite Hx, Hxml, Htxt in H.
  match type of H with
  | match ?c with _ => _ end = _ => destruct c as [[[]|e] s1] eqn:E
  end; [|discriminate].
  injection H as ->.
  apply bind_ok_inv in E. destruct E as (u & s1 & E1 & E).
  apply test_returns_inv in E1. destruct E1 as [Hg ->].
  apply negb_false_iff in Hg. auto.
Qed.

(** The second loop on 24 values. *)
Lemma read_txt_values_24 (v0 v1 v2 v3 v4 v5 v6 v7 v8 v9 v10 v11 v12 v13 v14
  v15 v16 v17 v18 v19 v20 v21 v22 v23 : string) :
  let x := strtod env in
  fold_left (read_txt_value env 24)
    [v0; v1; v2; v3; v4; v5; v6; v7; v8; v9; v10; v11; v12; v13; v14; v15;
     v16; v17; v18; v19; v20; v21; v22; v23] (txt_initial_state 24)
  = mkTxt_State
      (set_intrinsics_
         ([x v0; x v1; x v2; x v3; x v4; x v5; x v6; x v7]
          ++ assign 11 0%R)
         (camera_info_0 (txt_initial_state 24)))
      (set_intrinsics_
         ([x v8; x v9; x v10; x v11; x v12; x v13; x v14; x v15]
          ++ assign 11 0%R)
         (camera_info_1 (txt_initial_state 24)))
      [x v16; x v17; x v18; x v19; x v20; x v21]
      (double_to_int (x v22)) (double_to_int (x v23)) 24.
Proof. reflexivity. Qed.

End TextLayout.

Section TextLayout30.
Variable env : Env.

(** The second loop on 30 values. *)
Lemma read_txt_values_30 (v0 v1 v2 v3 v4 v5 v6 v7 v8 v9 v10 v11 v12 v13 v14
  v15 v16 v17 v18 v19 v20 v21 v22 v23 v24 v25 v26 v27 v28 v29 : string) :
  let x := strtod env in
  fold_left (read_txt_value env 30)
    [v0; v1; v2; v3; v4; v5; v6; v7; v8; v9; v10; v11; v12; v13; v14; v15;
     v16; v17; v18; v19; v20; v21; v22; v23; v24; v25; v26; v27; v28; v29]
    (txt_initial_state 30)
  = mkTxt_State
      (set_intrinsics_
         ([x v0; x v1; x v2; x v3; x v4; x v5; x v6; x v7]
          ++ assign 11 0%R)
         (camera_info_0 (txt_initial_state 30)))
      (set_intrinsics_
         ([x v8; x v9; x v10; x v11; x v12; x v13; x v14; x v15]
          ++ assign 11 0%R)
         (camera_info_1 (txt_initial_state 30)))
      [x v16; x v17; x v18; x v19; x v20; x v21; x v22; x v23; x v24;
       x v25; x v26; x v27]
      (double_to_int (x v28)) (double_to_int (x v29)) 30.
Proof. reflexivity. Qed.

End TextLayout30.

(** In the environment of the examples, a text file with 24 or 30 values
    whose last two are positive integer literals is read. *)
Lemma example_text_file_is_read (f : Calibration_File) (h w : Z) :
  teuchos_xml f = None -> good f = true ->
  found xml (cal_file f) = false -> found txt (cal_file f) = true ->
  no_TRANSFORM (token_lines f) = true ->
  read_txt_asserts (token_lines f) = true ->
  let values := value_tokens (token_lines f) in
  let n := length values in
  n = 24 \/ n = 30 ->
  leading_number (nth (n - 2) values EmptyString) = h ->
  leading_number (nth (n - 1) values EmptyString) = w ->
  (0 < h <= INT_MAX)%Z -> (0 < w <= INT_MAX)%Z ->
  is_ok (Camera_System_from_file example_env f) = true.
Proof.
  intros Hx Hg Hxml Htxt Ht Ha values n Hn Hh Hw Ph Pw.
  rewrite Camera_System_from_file_ok. unfold read_calibration_file.
  rewrite Hx, Hg, Hxml, Htxt.
  unfold bind at 1. cbn [negb TEUCHOS_TEST_FOR_EXCEPTION]. unfold ret at 1.
  rewrite read_txt_ok. fold values n.
  destruct (read_txt_values_sizes example_env n (token_lines f) eq_refl Hn)
    as [Eh Ew].
  fold values in Eh, Ew.
  change (strtod example_env ?t) with (IZR (leading_number t)) in Eh, Ew.
  rewrite Hh in Eh. rewrite Hw in Ew.
  rewrite double_to_int_IZR in Eh, Ew by (unfold INT_MIN; lia).
  unfold txt_camera_0, txt_camera_1. cbn [Camera_check example_env].
  unfold example_Camera_check.
  cbn [image_height_ image_width_ set_image_width_ set_image_height_].
  rewrite Eh, Ew, Ht, Ha, orb_true_r.
  replace ((n =? 24) || (n =? 30)) with true
    by (destruct Hn as [-> | ->]; reflexivity).
  replace (0 <=? h)%Z with true by (symmetry; apply Z.leb_le; lia).
  replace (0 <=? w)%Z with true by (symmetry; apply Z.leb_le; lia).
  replace (0 <? h)%Z with true by (symmetry; apply Z.ltb_lt; lia).
  replace (0 <? w)%Z with true by (symmetry; apply Z.ltb_lt; lia).
  reflexivity.
Qed.

(** X18. The layout of a text file with 24 values, as every successful
    read applies it: values 1 to 8 are the intrinsics CX, CY, FX, FY, FS,
    K1, K2, K3 of camera 0 and values 9 to 16 those of camera 1; values 17
    to 19 are the three angles handed to [set_rotation_matrix] for camera
    1 and values 20 to 22 its translation; value 23 is the image height
    and value 24 the image width of both cameras. The cameras are named
    CAMERA 0 and CAMERA 1, have the lens distortion model K1R1_K2R2_K3R3,
    and the rotation and translation of camera 0 stay those of a new
    [Camera_Info]. *)
Theorem text_file_euler_layout (env : Env) (f : Calibration_File)
  (s : Camera_System) :
  teuchos_xml f = None ->
  found xml (cal_file f) = false -> found txt (cal_file f) = true ->
  length (value_tokens (token_lines f)) = 24 ->
  Camera_System_from_file env f = Ok s ->
  let x i := strtod env (nth i (value_tokens (token_lines f)) EmptyString) in
  sys_type_ s = GENERIC_SYSTEM
  /\ exists c0 c1,
       cameras_ s = [c0; c1]
       /\ id_ c0 = "CAMERA 0"%string /\ id_ c1 = "CAMERA 1"%string
       /\ lens_distortion_model_ c0 = K1R1_K2R2_K3R3
       /\ lens_distortion_model_ c1 = K1R1_K2R2_K3R3
       /\ take 8 (intrinsics_ c0) = [x 0; x 1; x 2; x 3; x 4; x 5; x 6; x 7]
       /\ take 8 (intrinsics_ c1)
          = [x 8; x 9; x 10; x 11; x 12; x 13; x 14; x 15]
       /\ rotation_matrix_ c1 = set_rotation_matrix env (x 16) (x 17) (x 18)
       /\ tx_ c1 = x 19 /\ ty_ c1 = x 20 /\ tz_ c1 = x 21
       /\ image_height_ c0 = double_to_int (x 22)
       /\ image_height_ c1 = double_to_int (x 22)
       /\ image_width_ c0 = double_to_int (x 23)
       /\ image_width_ c1 = double_to_int (x 23)
       /\ rotation_matrix_ c0 = rotation_matrix_ Camera_Info_default
       /\ tx_ c0 = tx_ Camera_Info_default
       /\ ty_ c0 = ty_ Camera_Info_default
       /\ tz_ c0 = tz_ Camera_Info_default.
Proof.
  intros Hx Hxml Htxt Hn H x.
  destruct (Camera_System_from_file_txt env f s Hx Hxml Htxt H) as [_ Hr].
  apply read_txt_returns in Hr. destruct Hr as (_ & _ & _ & ->).
  subst x. revert Hn.
  generalize (value_tokens (token_lines f)). intros v Hn.
  do 24 (destruct v as [|? v]; [discriminate Hn|]).
  destruct v; [|discriminate Hn]. clear Hn.
  cbn [length]. rewrite read_txt_values_24.
  split; [reflexivity|].
  eexists. eexists. split; [reflexivity|].
  repeat (split; [reflexivity|]). reflexivity.
Qed.

Lemma text_file_euler_layout_witness :
  let f := euler_text_file in
  let s := match Camera_System_from_file example_env f with
           | Ok s => s
           | Error _ => Camera_System_new
           end in
  let x i :=
    strtod example_env (nth i (value_tokens (token_lines f)) EmptyString) in
  sys_type_ s = GENERIC_SYSTEM
  /\ exists c0 c1,
       cameras_ s = [c0; c1]
       /\ id_ c0 = "CAMERA 0"%string /\ id_ c1 = "CAMERA 1"%string
       /\ lens_distortion_model_ c0 = K1R1_K2R2_K3R3
       /\ lens_distortion_model_ c1 = K1R1_K2R2_K3R3
       /\ take 8 (intrinsics_ c0) = [x 0; x 1; x 2; x 3; x 4; x 5; x 6; x 7]
       /\ take 8 (intrinsics_ c1)
          = [x 8; x 9; x 10; x 11; x 12; x 13; x 14; x 15]
       /\ rotation_matrix_ c1
          = set_rotation_matrix example_env (x 16) (x 17) (x 18)
       /\ tx_ c1 = x 19 /\ ty_ c1 = x 20 /\ tz_ c1 = x 21
       /\ image_height_ c0 = double_to_int (x 22)
       /\ image_height_ c1 = double_to_int (x 22)
       /\ image_width_ c0 = double_to_int (x 23)
       /\ image_width_ c1 = double_to_int (x 23)
       /\ rotation_matrix_ c0 = rotation_matrix_ Camera_Info_default
       /\ tx_ c0 = tx_ Camera_Info_default
       /\ ty_ c0 = ty_ Camera_Info_default
       /\ tz_ c0 = tz_ Camera_Info_default.
Proof.
  refine (text_file_euler_layout example_env euler_text_file
            (match Camera_System_from_file example_env euler_text_file with
             | Ok s => s
             | Error _ => Camera_System_new
             end) eq_refl eq_refl eq_refl eq_refl _).
  assert (X : is_ok (Camera_System_from_file example_env euler_text_file)
              = true).
  { apply (example_text_file_is_read euler_text_file 480 640 eq_refl eq_refl
             eq_refl eq_refl eq_refl eq_refl (or_introl eq_refl) eq_refl
             eq_refl);
      unfold INT_MAX; lia. }
  destruct (Camera_System_from_file example_env euler_text_file);
    [reflexivity | discriminate X].
Defined.

(** X19. The layout of a text file with 30 values, as every successful
    read applies it: the intrinsics of the two cameras as for 24 values;
    values 17 to 25 are the rotation matrix of camera 1, row by row; values
    26 to 28 are its translation; value 29 is the image height and value
    30 the image width of both cameras. *)
Theorem text_file_matrix_layout (env : Env) (f : Calibration_File)
  (s : Camera_System) :
  teuchos_xml f = None ->
  found xml (cal_file f) = false -> found txt (cal_file f) = true ->
  length (value_tokens (token_lines f)) = 30 ->
  Camera_System_from_file env f = Ok s ->
  let x i := strtod env (nth i (value_tokens (token_lines f)) EmptyString) in
  sys_type_ s = GENERIC_SYSTEM
  /\ exists c0 c1,
       cameras_ s = [c0; c1]
       /\ id_ c0 = "CAMERA 0"%string /\ id_ c1 = "CAMERA 1"%string
       /\ lens_distortion_model_ c0 = K1R1_K2R2_K3R3
       /\ lens_distortion_model_ c1 = K1R1_K2R2_K3R3
       /\ take 8 (intrinsics_ c0) = [x 0; x 1; x 2; x 3; x 4; x 5; x 6; x 7]
       /\ take 8 (intrinsics_ c1)
          = [x 8; x 9; x 10; x 11; x 12; x 13; x 14; x 15]
       /\ rotation_matrix_ c1
          = [ [x 16; x 17; x 18]; [x 19; x 20; x 21]; [x 22; x 23; x 24] ]
       /\ tx_ c1 = x 25 /\ ty_ c1 = x 26 /\ tz_ c1 = x 27
       /\ image_height_ c0 = double_to_int (x 28)
       /\ image_height_ c1 = double_to_int (x 28)
       /\ image_width_ c0 = double_to_int (x 29)
       /\ image_width_ c1 = double_to_int (x 29)
       /\ rotation_matrix_ c0 = rotation_matrix_ Camera_Info_default
       /\ tx_ c0 = tx_ Camera_Info_default
       /\ ty_ c0 = ty_ Camera_Info_default
       /\ tz_ c0 = tz_ Camera_Info_default.
Proof.
  intros Hx Hxml Htxt Hn H x.
  destruct (Camera_System_from_file_txt env f s Hx Hxml Htxt H) as [_ Hr].
  apply read_txt_returns in Hr. destruct Hr as (_ & _ & _ & ->).
  subst x. revert Hn.
  generalize (value_tokens (token_lines f)). intros v Hn.
  do 30 (destruct v as [|? v]; [discriminate Hn|]).
  destruct v; [|discriminate Hn]. clear Hn.
  cbn [length]. rewrite read_txt_values_30.
  split; [reflexivity|].
  eexists. eexists. split; [reflexivity|].
  repeat (split; [reflexivity|]). reflexivity.
Qed.

Lemma text_file_matrix_layout_witness :
  let f := matrix_text_file in
  let s := match Camera_System_from_file example_env f with
           | Ok s => s
           | Error _ => Camera_System_new
           end in
  let x i :=
    strtod example_env (nth i (value_tokens (token_lines f)) EmptyString) in
  sys_type_ s = GENERIC_SYSTEM
  /\ exists c0 c1,
       cameras_ s = [c0; c1]
       /\ id_ c0 = "CAMERA 0"%string /\ id_ c1 = "CAMERA 1"%string
       /\ lens_distortion_model_ c0 = K1R1_K2R2_K3R3
       /\ lens_distortion_model_ c1 = K1R1_K2R2_K3R3
       /\ take 8 (intrinsics_ c0) = [x 0; x 1; x 2; x 3; x 4; x 5; x 6; x 7]
       /\ take 8 (intrinsics_ c1)
          = [x 8; x 9; x 10; x 11; x 12; x 13; x 14; x 15]
       /\ rotation_matrix_ c1
          = [ [x 16; x 17; x 18]; [x 19; x 20; x 21]; [x 22; x 23; x 24] ]
       /\ tx_ c1 = x 25 /\ ty_ c1 = x 26 /\ tz_ c1 = x 27
       /\ image_height_ c0 = double_to_int (x 28)
       /\ image_height_ c1 = double_to_int (x 28)
       /\ image_width_ c0 = double_to_int (x 29)
       /\ image_width_ c1 = double_to_int (x 29)
       /\ rotation_matrix_ c0 = rotation_matrix_ Camera_Info_default
       /\ tx_ c0 = tx_ Camera_Info_default
       /\ ty_ c0 = ty_ Camera_Info_default
       /\ tz_ c0 = tz_ Camera_Info_default.
Proof.
  refine (text_file_matrix_layout example_env matrix_text_file
            (match Camera_System_from_file example_env matrix_text_file with
             | Ok s => s
             | Error _ => Camera_System_new
             end) eq_refl eq_refl eq_refl eq_refl _).
  assert (X : is_ok (Camera_System_from_file example_env matrix_text_file)
              = true).
  { apply (example_text_file_is_read matrix_text_file 480 640 eq_refl eq_refl
             eq_refl eq_refl eq_refl eq_refl (or_intror eq_refl) eq_refl
             eq_refl);
      unfold INT_MAX; lia. }
  destruct (Camera_System_from_file example_env matrix_text_file);
    [reflexivity | discriminate X].
Defined.

(** ** The writer: the shape of what it writes *)

Section WriterFacts.
Variable env : Env.
Variable printer : Printer.

Lemma list_depth_app (limit : nat) (a b : list XML_Call) (d : nat) :
  list_depth limit (a ++ b) d
  = match list_depth limit a d with
    | Some d' => list_depth limit b d'
    | None => None
    end.
Proof.
  revert d. induction a as [|c a IH]; intros d; [reflexivity|].
  destruct c; cbn [app list_depth]; try apply IH.
  - destruct (S d <=? limit); [apply IH | reflexivity].
  - destruct d; [reflexivity | apply IH].
Qed.

Lemma list_depth_plain (limit : nat) (a : list XML_Call) (d : nat) :
  Forall plain_call a -> list_depth limit a d = Some d.
Proof.
  induction 1 as [|c a Hc _ IH]; [reflexivity|].
  destruct c; cbn [list_depth]; try exact IH; destruct Hc.
Qed.

Lemma top_level_names_app (a b : list XML_Call) (d : nat) :
  Forall plain_call a ->
  top_level_names (a ++ b) d = top_level_names a d ++ top_level_names b d.
Proof.
  induction 1 as [|c a Hc _ IH]; [reflexivity|].
  destruct c; cbn [app top_level_names]; try exact IH; try destruct Hc;
    rewrite IH, app_assoc; reflexivity.
Qed.

Lemma top_level_names_inner (a : list XML_Call) (d : nat) :
  Forall plain_call a -> top_level_names a (S d) = [].
Proof.
  induction 1 as [|c a Hc _ IH]; [reflexivity|].
  destruct c; cbn [top_level_names Nat.eqb app]; try exact IH; destruct Hc.
Qed.

Lemma real_param_calls_plain (name : string) (x : R) :
  Forall plain_call (real_param_calls printer name x).
Proof.
  unfold real_param_calls. destruct (Req_dec_T x 0); (repeat (apply Forall_cons; split; [exact I|]); apply Forall_nil; exact I).
Qed.

Lemma row_calls_plain (m : list (list R)) (n : nat) (comments : list string)
  (i : nat) :
  Forall plain_call (row_calls printer m n comments i).
Proof.
  unfold row_calls. apply Forall_app. split; [(repeat (apply Forall_cons; split; [exact I|]); apply Forall_nil; exact I)|].
  destruct (nth_error comments i); (repeat (apply Forall_cons; split; [exact I|]); apply Forall_nil; exact I).
Qed.

Lemma flat_map_plain {A} (f : A -> list XML_Call) (l : list A) :
  (forall x, Forall plain_call (f x)) -> Forall plain_call (flat_map f l).
Proof.
  intros H. induction l as [|x l IH]; [constructor|].
  cbn [flat_map]. apply Forall_app. auto.
Qed.

Lemma header_calls_plain (t : System_Type_3D) :
  Forall plain_call (header_calls env printer t).
Proof. unfold header_calls. (repeat (apply Forall_cons; split; [exact I|]); apply Forall_nil; exact I). Qed.

Lemma user_6_param_calls_plain (s : Camera_System) :
  Forall plain_call (user_6_param_calls env printer s).
Proof.
  unfold user_6_param_calls. destruct (has_6_transform_ s); (repeat (apply Forall_cons; split; [exact I|]); apply Forall_nil; exact I).
Qed.

(** The calls for a camera: the list of the camera, which holds plain
    calls, the list of the rotation matrix and plain calls again. *)
Lemma camera_calls_shape (i : nat) (camera : Camera_Info) :
  exists before rows after,
    camera_calls env printer i camera
    = write_xml_param_list_open ("CAMERA " ++ string_of_size_t i)
      :: before
      ++ write_xml_param_list_open (rotation_3x3_matrix env)
      :: rows ++ write_xml_param_list_close
      :: after ++ [write_xml_param_list_close]
    /\ Forall plain_call before /\ Forall plain_call rows
    /\ Forall plain_call after.
Proof.
  exists
    ([ write_xml_string_param "CAMERA_ID" (id_ camera) ]
     ++ flat_map (fun j =>
          real_param_calls printer (Cam_Intrinsic_Param_to_string j)
            (at_ (intrinsics_ camera) j))
          (seq 0 MAX_CAM_INTRINSIC_PARAM)
     ++ [ write_xml_string_param "LENS_DISTORTION_MODEL"
            (to_string_Lens_Distortion_Model printer
               (lens_distortion_model_ camera)) ]
     ++ real_param_calls printer "TX" (tx_ camera)
     ++ real_param_calls printer "TY" (ty_ camera)
     ++ real_param_calls printer "TZ" (tz_ camera)
     ++ [ write_xml_comment
            "3x3 camera rotation matrix (world to cam transformation)";
          write_xml_comment
            "this is a 3x3 matrix that combined with TX, TY and TZ transform world coodinates to this camera's coordinates" ]),
    (flat_map (row_calls printer (rotation_matrix_ camera) 2
                 ["R11 R12 R13"; "R21 R22 R23"; "R31 R32 R33"]%string)
       (seq 0 3)),
    ((if negb (image_width_ camera =? 0)%Z
         && negb (image_height_ camera =? 0)%Z
      then [ write_xml_string_param "IMAGE_HEIGHT_WIDTH"
               ("{ " ++ string_of_int_t (image_height_ camera) ++ ", "
                ++ string_of_int_t (image_width_ camera) ++ " }") ]
      else [])
     ++ (if negb (pixel_depth_ camera =? 0)%Z
         then [ write_xml_size_param "PIXEL_DEPTH"
                  (string_of_int_t (pixel_depth_ camera)) ]
         else [])
     ++ (if negb (String.eqb (lens_ camera) "")
         then [ write_xml_string_param "LENS" (lens_ camera) ]
         else [])
     ++ (if negb (String.eqb (comments_ camera) "")
         then [ write_xml_string_param "COMMENTS" (comments_ camera) ]
         else [])).
  split.
  - unfold camera_calls.
    repeat first [rewrite <- app_assoc | progress cbn [app]]. reflexivity.
  - split; [|split].
    + repeat (apply Forall_app; split);
        try apply real_param_calls_plain;
        try (apply flat_map_plain; intros j; apply real_param_calls_plain);
        repeat (apply Forall_cons; split; [exact I|]); apply Forall_nil;
        exact I.
    + apply flat_map_plain. intros j. apply row_calls_plain.
    + repeat (apply Forall_app; split);
        match goal with
        | |- Forall _ (if ?b then _ else _) =>
            destruct b;
            repeat (apply Forall_cons; split; [exact I|]); apply Forall_nil;
            exact I
        end.
Qed.

Lemma camera_calls_depth (i : nat) (camera : Camera_Info) :
  list_depth 2 (camera_calls env printer i camera) 0 = Some 0.
Proof.
  destruct (camera_calls_shape i camera)
    as (before & rows & after & -> & Hb & Hr & Ha).
  cbn [list_depth Nat.leb]. rewrite list_depth_app, (list_depth_plain _ _ _ Hb).
  cbn [list_depth Nat.leb]. rewrite list_depth_app, (list_depth_plain _ _ _ Hr).
  cbn [list_depth]. rewrite list_depth_app, (list_depth_plain _ _ _ Ha).
  reflexivity.
Qed.

Lemma cameras_calls_depth (i : nat) (cameras : list Camera_Info) :
  list_depth 2 (cameras_calls env printer i cameras) 0 = Some 0.
Proof.
  revert i. induction cameras as [|c cameras IH]; intros i; [reflexivity|].
  cbn [cameras_calls]. rewrite list_depth_app, camera_calls_depth. apply IH.
Qed.

Lemma user_4x4_calls_depth (s : Camera_System) :
  list_depth 2 (user_4x4_calls env printer s) 0 = Some 0.
Proof.
  unfold user_4x4_calls. destruct (has_4x4_transform_ s); [|reflexivity].
  cbn [app list_depth Nat.leb]. rewrite list_depth_app.
  rewrite (list_depth_plain 2 _ 1)
    by (apply flat_map_plain; intros j; apply row_calls_plain).
  reflexivity.
Qed.

End WriterFacts.

Section WriterTrace.
Variable env : Env.
Variable printer : Printer.

(** Calls other than the two that open and close the file. *)
Lemma plain_calls_inner (l : list XML_Call) :
  Forall plain_call l ->
  Forall (fun c => c <> initialize_xml_file /\ c <> finalize_xml_file) l.
Proof.
  intros H. eapply Forall_impl; [exact H|].
  intros c Hc. destruct c; try destruct Hc; split; discriminate.
Qed.

Lemma camera_calls_inner (i : nat) (camera : Camera_Info) :
  Forall (fun c => c <> initialize_xml_file /\ c <> finalize_xml_file)
    (camera_calls env printer i camera).
Proof.
  destruct (camera_calls_shape env printer i camera)
    as (before & rows & after & -> & Hb & Hr & Ha).
  apply Forall_cons. split; [split; discriminate|].
  apply Forall_app. split; [apply plain_calls_inner, Hb|].
  apply Forall_cons. split; [split; discriminate|].
  apply Forall_app. split; [apply plain_calls_inner, Hr|].
  apply Forall_cons. split; [split; discriminate|].
  apply Forall_app. split; [apply plain_calls_inner, Ha|].
  apply Forall_cons. split; [split; discriminate | apply Forall_nil; exact I].
Qed.

Lemma cameras_calls_inner (i : nat) (cameras : list Camera_Info) :
  Forall (fun c => c <> initialize_xml_file /\ c <> finalize_xml_file)
    (cameras_calls env printer i cameras).
Proof.
  revert i. induction cameras as [|c cameras IH]; intros i;
    [apply Forall_nil; exact I|].
  cbn [cameras_calls]. apply Forall_app. split;
    [apply camera_calls_inner | apply IH].
Qed.

Lemma user_4x4_calls_inner (s : Camera_System) :
  Forall (fun c => c <> initialize_xml_file /\ c <> finalize_xml_file)
    (user_4x4_calls env printer s).
Proof.
  unfold user_4x4_calls. destruct (has_4x4_transform_ s);
    [|apply Forall_nil; exact I].
  apply Forall_app. split.
  - repeat (apply Forall_cons; split; [split; discriminate|]).
    apply Forall_nil; exact I.
  - apply Forall_app. split.
    + apply plain_calls_inner, flat_map_plain. intros j. apply row_calls_plain.
    + apply Forall_cons. split; [split; discriminate | apply Forall_nil; exact I].
Qed.

(** The names at depth 0, block by block. *)
Lemma top_level_names_header (t : System_Type_3D) (rest : list XML_Call) :
  top_level_names (header_calls env printer t ++ rest) 0
  = DICe_XML_Calibration_File env :: system_type_3D env
    :: top_level_names rest 0.
Proof.
  rewrite top_level_names_app by apply header_calls_plain. reflexivity.
Qed.

Lemma top_level_names_camera (i : nat) (camera : Camera_Info)
  (rest : list XML_Call) :
  top_level_names (camera_calls env printer i camera ++ rest) 0
  = ("CAMERA " ++ string_of_size_t i)%string :: top_level_names rest 0.
Proof.
  destruct (camera_calls_shape env printer i camera)
    as (before & rows & after & -> & Hb & Hr & Ha).
  cbn [app top_level_names Nat.eqb]. f_equal.
  rewrite <- app_assoc, (top_level_names_app _ _ _ Hb),
    (top_level_names_inner _ _ Hb).
  cbn [app top_level_names Nat.eqb].
  rewrite <- app_assoc, (top_level_names_app _ _ _ Hr),
    (top_level_names_inner _ _ Hr).
  cbn [app top_level_names Nat.eqb Nat.pred].
  rewrite <- app_assoc, (top_level_names_app _ _ _ Ha),
    (top_level_names_inner _ _ Ha).
  reflexivity.
Qed.

Lemma top_level_names_cameras (i : nat) (cameras : list Camera_Info)
  (rest : list XML_Call) :
  top_level_names (cameras_calls env printer i cameras ++ rest) 0
  = map (fun k => ("CAMERA " ++ string_of_size_t k)%string)
      (seq i (length cameras))
    ++ top_level_names rest 0.
Proof.
  revert i. induction cameras as [|c cameras IH]; intros i; [reflexivity|].
  cbn [cameras_calls length seq map app].
  rewrite <- app_assoc, top_level_names_camera, IH. reflexivity.
Qed.

Lemma top_level_names_user_6 (s : Camera_System) (rest : list XML_Call) :
  top_level_names (user_6_param_calls env printer s ++ rest) 0
  = (if has_6_transform_ s then [user_6_param_transform env] else [])
    ++ top_level_names rest 0.
Proof.
  unfold user_6_param_calls. destruct (has_6_transform_ s); reflexivity.
Qed.

Lemma top_level_names_user_4x4 (s : Camera_System) (rest : list XML_Call) :
  top_level_names (user_4x4_calls env printer s ++ rest) 0
  = (if has_4x4_transform_ s then [user_4x4_param_transform env] else [])
    ++ top_level_names rest 0.
Proof.
  unfold user_4x4_calls. destruct (has_4x4_transform_ s); reflexivity.
Qed.

Lemma top_level_names_written (s : Camera_System) (calls : list XML_Call) :
  write_calibration_file env printer s = Ok calls ->
  top_level_names calls 0
  = [DICe_XML_Calibration_File env; system_type_3D env]
    ++ map (fun i => ("CAMERA " ++ string_of_size_t i)%string)
         (seq 0 (length (cameras_ s)))
    ++ (if has_6_transform_ s then [user_6_param_transform env] else [])
    ++ (if has_4x4_transform_ s then [user_4x4_param_transform env] else []).
Proof.
  intros H.
  assert (E : calls
              = [initialize_xml_file]
                ++ header_calls env printer (sys_type_ s)
                ++ cameras_calls env printer 0 (cameras_ s)
                ++ user_6_param_calls env printer s
                ++ user_4x4_calls env printer s
                ++ [finalize_xml_file]).
  { unfold write_calibration_file in H.
    destruct (sys_type_ s); [discriminate| | |]; injection H as <-;
      reflexivity. }
  rewrite E. cbn [app top_level_names].
  rewrite top_level_names_header, top_level_names_cameras,
    top_level_names_user_6, top_level_names_user_4x4.
  cbn [top_level_names app]. rewrite app_nil_r. reflexivity.
Qed.

(** The name the writer gives the list of camera [i] is never the name
    under which the reader looks for camera 0. *)
Lemma written_camera_name_is_not_read (i : nat) :
  ("CAMERA " ++ string_of_size_t i)%string <> camera_sublist_id 0.
Proof.
  unfold camera_sublist_id. cbn [String.append]. intros H.
  injection H as H. unfold string_of_size_t, NilZero.string_of_uint in H.
  pose proof (NilEmpty.usu (Nat.to_uint i)) as U.
  destruct (Nat.to_uint i); [discriminate H|..];
    change (String.append EmptyString ?x) with x in H; rewrite H in U; vm_compute in U; discriminate U.
Qed.

Lemma find_entry_not_among (name : string) (names : list string)
  (l : list (string * ParameterEntry)) :
  Forall (fun entry => In (fst entry) names) l -> ~ In name names ->
  find_entry name l = None.
Proof.
  intros Hl Hn. induction Hl as [|[k e] l Hk _ IH]; [reflexivity|].
  cbn [find_entry]. destruct (String.eqb_spec k name) as [->|_];
    [contradiction | exact IH].
Qed.

End WriterTrace.

(** ** The writer: what a written file holds *)

(** X20. [write_calibration_file] throws, with the message
    [write_calibration_file() called for unknown system type] and before
    any call on the file, exactly when the system type is [UNKNOWN_SYSTEM].
    Otherwise the first call is [initialize_xml_file], the last is
    [finalize_xml_file], neither is made in between, and the parameter
    lists are well nested: every list that is opened is closed, none is
    closed that was not opened, the nesting is never deeper than two and
    the file ends at depth 0. *)
Theorem write_calibration_file_well_nested (env : Env) (printer : Printer)
  (s : Camera_System) :
  match write_calibration_file env printer s with
  | Error msg =>
      sys_type_ s = UNKNOWN_SYSTEM
      /\ msg = "write_calibration_file() called for unknown system type"%string
  | Ok calls =>
      sys_type_ s <> UNKNOWN_SYSTEM
      /\ (exists body,
            calls = initialize_xml_file :: body ++ [finalize_xml_file]
            /\ ~ In initialize_xml_file body
            /\ ~ In finalize_xml_file body)
      /\ list_depth 2 calls 0 = Some 0
  end.
Proof.
  assert (B : forall t,
    let body := header_calls env printer t
                ++ cameras_calls env printer 0 (cameras_ s)
                ++ user_6_param_calls env printer s
                ++ user_4x4_calls env printer s in
    (exists body',
       [initialize_xml_file] ++ header_calls env printer t
         ++ cameras_calls env printer 0 (cameras_ s)
         ++ user_6_param_calls env printer s
         ++ user_4x4_calls env printer s ++ [finalize_xml_file]
       = initialize_xml_file :: body' ++ [finalize_xml_file]
       /\ ~ In initialize_xml_file body'
       /\ ~ In finalize_xml_file body')
    /\ list_depth 2
         ([initialize_xml_file] ++ header_calls env printer t
          ++ cameras_calls env printer 0 (cameras_ s)
          ++ user_6_param_calls env printer s
          ++ user_4x4_calls env printer s ++ [finalize_xml_file]) 0
       = Some 0).
  { intros t body. split.
    - exists body. split.
      + unfold body. cbn [app]. rewrite <- !app_assoc. reflexivity.
      + assert (F : Forall (fun c => c <> initialize_xml_file
                                     /\ c <> finalize_xml_file) body).
        { unfold body. repeat (apply Forall_app; split).
          - apply plain_calls_inner, header_calls_plain.
          - apply cameras_calls_inner.
          - apply plain_calls_inner, user_6_param_calls_plain.
          - apply user_4x4_calls_inner. }
        pose proof (proj1 (List.Forall_forall _ _) F) as F'.
        split; intros Hin; apply F' in Hin; destruct Hin as [H1 H2];
          congruence.
    - cbn [app list_depth].
      rewrite list_depth_app,
        (list_depth_plain _ _ _ (header_calls_plain env printer t)).
      rewrite list_depth_app, cameras_calls_depth.
      rewrite list_depth_app,
        (list_depth_plain _ _ _ (user_6_param_calls_plain env printer s)).
      rewrite list_depth_app, user_4x4_calls_depth. reflexivity. }
  unfold write_calibration_file.
  destruct (sys_type_ s) eqn:T.
  - split; reflexivity.
  - split; [discriminate | apply (B GENERIC_SYSTEM)].
  - split; [discriminate | apply (B VIC3D)].
  - split; [discriminate | apply (B (CANONICAL_SUBTYPE _))].
Qed.

(** X21. What a written file holds at its top level, in this order: the
    marker parameter, the system type, one parameter list for each camera,
    named [CAMERA i] for its index [i] from 0 on (with no end of line
    after the number), then the 6-parameter transform when
    [has_6_transform_] is set, then the list of the 4x4 transform when
    [has_4x4_transform_] is set. Every other parameter is inside one of
    the lists. *)
Theorem written_file_top_level (env : Env) (printer : Printer)
  (s : Camera_System) (calls : list XML_Call) :
  write_calibration_file env printer s = Ok calls ->
  top_level_names calls 0
  = [DICe_XML_Calibration_File env; system_type_3D env]
    ++ map (fun i => ("CAMERA " ++ string_of_size_t i)%string)
         (seq 0 (length (cameras_ s)))
    ++ (if has_6_transform_ s then [user_6_param_transform env] else [])
    ++ (if has_4x4_transform_ s then [user_4x4_param_transform env] else []).
Proof. apply top_level_names_written. Qed.

Lemma written_file_top_level_witness :
  let s := set_sys_type_ GENERIC_SYSTEM example_system in
  let calls := match write_calibration_file example_env example_printer s with
               | Ok calls => calls
               | Error _ => []
               end in
  top_level_names calls 0
  = ["DICe_XML_Calibration_File"; "system_type_3D"; "CAMERA 0"; "CAMERA 1"]%string.
Proof.
  exact (written_file_top_level example_env example_printer
           (set_sys_type_ GENERIC_SYSTEM example_system) _ eq_refl).
Defined.

(** X22. The cameras of a written file are not read back. When a file
    whose top-level entries all have names that [write_calibration_file]
    wrote for some object is read, and none of the four names
    [DICe_XML_Calibration_File], [system_type_3D],
    [user_6_param_transform] and [user_4x4_param_transform] happens to be
    the text [CAMERA 0] followed by an end of line, then every successful
    read leaves an object without cameras: the writer names the list of
    camera [i] [CAMERA i], the reader looks for [CAMERA i] followed by an
    end of line. *)
Theorem written_cameras_are_not_read_back (env : Env) (printer : Printer)
  (s : Camera_System) (calls : list XML_Call) (f : Calibration_File)
  (sys_params : list (string * ParameterEntry)) (s' : Camera_System) :
  write_calibration_file env printer s = Ok calls ->
  teuchos_xml f = Some sys_params ->
  Forall (fun entry => In (fst entry) (top_level_names calls 0)) sys_params ->
  ~ In (camera_sublist_id 0)
      [DICe_XML_Calibration_File env; system_type_3D env;
       user_6_param_transform env; user_4x4_param_transform env] ->
  Camera_System_from_file env f = Ok s' ->
  cameras_ s' = [].
Proof.
  intros Hw Hf Hkeys Hnames H.
  assert (Hnone : find_entry (camera_sublist_id 0) sys_params = None).
  { apply (find_entry_not_among _ _ _ Hkeys).
    rewrite (top_level_names_written env printer s calls Hw).
    intros Hin. apply Hnames. cbn [In] in Hin |- *.
    cbn [app In] in Hin.
    destruct Hin as [Hin|[Hin|Hin]]; [auto | auto |].
    apply in_app_or in Hin. destruct Hin as [Hin|Hin].
    - apply in_map_iff in Hin. destruct Hin as (i & Hi & _).
      exfalso. exact (written_camera_name_is_not_read i Hi).
    - apply in_app_or in Hin. destruct Hin as [Hin|Hin].
      + destruct (has_6_transform_ s); [|destruct Hin].
        destruct Hin as [Hin|[]]. auto.
      + destruct (has_4x4_transform_ s); [|destruct Hin].
        destruct Hin as [Hin|[]]. auto. }
  rewrite (Camera_System_from_file_canonical env f sys_params Hf) in H.
  destruct (read_dice_xml env sys_params Camera_System_new) as [[[]|e] s1] eqn:E;
    [|discriminate].
  injection H as ->.
  unfold read_dice_xml in E.
  apply bind_ok_inv in E. destruct E as (u & s1 & E1 & E).
  apply test_returns_inv in E1. destruct E1 as [_ ->].
  apply bind_ok_inv in E. destruct E as (u1 & s1 & E1 & E).
  apply test_returns_inv in E1. destruct E1 as [_ ->].
  apply bind_ok_inv in E. destruct E as (str & s1 & E1 & E).
  unfold lift in E1. injection E1 as _ <-.
  apply bind_ok_inv in E. destruct E as (u2 & s1 & E1 & E).
  unfold modify in E1. injection E1 as _ <-.
  apply bind_ok_inv in E. destruct E as (s0 & s1 & E1 & E).
  unfold get_state in E1. injection E1 as <- <-.
  apply bind_ok_inv in E. destruct E as ([] & s1 & Ecam & E).
  change (seq 0 (max_num_cameras_allowed_
                   (set_sys_type_ (string_to_system_type_3d env str)
                      Camera_System_new)))
    with (0 :: seq 1 9) in Ecam.
  rewrite read_cameras_cons in Ecam.
  change (0 =? max_num_cameras_allowed_
                 (set_sys_type_ (string_to_system_type_3d env str)
                    Camera_System_new) - 1) with false in Ecam.
  unfold isSublist in Ecam. rewrite Hnone in Ecam.
  injection Ecam as <-.
  apply read_user_transforms_returns in E.
  destruct E as (C & _). rewrite C. reflexivity.
Qed.

Lemma written_cameras_are_not_read_back_witness :
  let s := set_sys_type_ GENERIC_SYSTEM example_system in
  let s' := match Camera_System_from_file example_env
                    (canonical_file (groups_as_written 2)) with
            | Ok s' => s'
            | Error _ => example_system
            end in
  length (cameras_ s) = 2 /\ cameras_ s' = [].
Proof.
  split; [reflexivity|].
  refine (written_cameras_are_not_read_back example_env example_printer
            (set_sys_type_ GENERIC_SYSTEM example_system)
            (match write_calibration_file example_env example_printer
                     (set_sys_type_ GENERIC_SYSTEM example_system) with
             | Ok calls => calls
             | Error _ => []
             end)
            (canonical_file (groups_as_written 2)) _
            (match Camera_System_from_file example_env
                     (canonical_file (groups_as_written 2)) with
             | Ok s' => s'
             | Error _ => example_system
             end) eq_refl eq_refl _ _ _).
  - rewrite (top_level_names_written example_env example_printer
               (set_sys_type_ GENERIC_SYSTEM example_system)
               (match write_calibration_file example_env example_printer
                        (set_sys_type_ GENERIC_SYSTEM example_system) with
                | Ok calls => calls
                | Error _ => []
                end) eq_refl).
    repeat (apply Forall_cons; split; [cbn; tauto|]). apply Forall_nil; exact I.
  - cbn [In]. intros [H|[H|[H|[H|[]]]]]; discriminate H.
  - assert (X : match Camera_System_from_file example_env
                        (canonical_file (groups_as_written 2)) with
                | Ok _ => True
                | Error _ => False
                end) by (lazy; exact I).
    destruct (Camera_System_from_file example_env
                (canonical_file (groups_as_written 2)));
      [reflexivity | contradiction].
Defined.
